(** * Verification of the Unity-to-Dreamcast asset converter

    Shallow embedding of [scripts/unity_asset_extractor.py]
    (class [UnityToDreamcastConverter]) and proofs of the properties its
    specification states about it.

    Conventions of the embedding:
    - a Python [int] is a [Z]; a Python [str] is the list of its code
      points; a Python [bytes] object is a [list byte];
    - a Python [float] is an IEEE-754 binary64 value, taken from the
      Standard Library's [spec_float];
    - an exception is a value of type [exn]; code that may raise returns
      [exn + A];
    - the file system and the logger are threaded explicitly through a
      state-and-error monad. *)

From Stdlib Require Import ZArith Lia List Bool String Ascii.
From Stdlib Require Import Strings.Byte.
From Stdlib Require Import Floats.SpecFloat.
From stdpp Require Import base option list gmap.

Local Open Scope Z_scope.

(** ** Exceptions *)

(** The exception classes the modelled code paths can raise. [ReadError]
    stands for whatever the bundle decoder raises on a damaged object;
    [CalledProcessError] for a failing external tool. *)
Inductive exn : Type :=
| ValueError
| StructError
| OverflowError
| IndexError
| WaveError
| FileNotFoundError
| TypeError
| CalledProcessError
| ReadError (code : Z).

(** ** The pixel packer *)

(** The expression [((r >> 3) << 11) | ((g >> 2) << 5) | (b >> 3)] of
    [png_to_raw_rgb565] and [create_simple_pvr]. *)
Definition rgb565 (r g b : Z) : Z :=
  Z.lor (Z.lor (Z.shiftl (Z.shiftr r 3) 11) (Z.shiftl (Z.shiftr g 2) 5))
        (Z.shiftr b 3).

(** ** Python strings *)

(** A [str] is the sequence of its code points. *)
Abbreviation pystr := (list N).

(** String literals of the source, read as code points. *)
Definition py (s : string) : pystr :=
  map N_of_ascii (list_ascii_of_string s).

(** [s.startswith(p)]. *)
Fixpoint starts_with (p s : pystr) : bool :=
  match p, s with
  | [], _ => true
  | _ :: _, [] => false
  | a :: p', b :: s' => (a =? b)%N && starts_with p' s'
  end.

(** [s.endswith(p)]. *)
Definition ends_with (p s : pystr) : bool := starts_with (rev p) (rev s).

(** [p in s] for strings: [p] occurs in [s] as a substring. *)
Fixpoint contains (p s : pystr) : bool :=
  starts_with p s ||
  match s with
  | [] => false
  | _ :: s' => contains p s'
  end.

(** [s.replace(old, new)] for a non-empty [old] (it is a literal at each
    call): the occurrences of [old] are found from the left and do not
    overlap. [skip] counts the characters of the occurrence just
    replaced that remain to be dropped. *)
Fixpoint replace_from (old new : pystr) (skip : nat) (s : pystr) : pystr :=
  match s with
  | [] => []
  | c :: s' =>
      match skip with
      | S k => replace_from old new k s'
      | O =>
          if starts_with old s
          then new ++ replace_from old new (length old - 1) s'
          else c :: replace_from old new 0 s'
      end
  end.

Definition str_replace (old new s : pystr) : pystr := replace_from old new 0 s.

(** [str.isspace] on one code point: the characters [str.strip()]
    removes. *)
Definition is_space (c : N) : bool :=
  ((9 <=? c) && (c <=? 13) || (28 <=? c) && (c <=? 32) ||
   (c =? 133) || (c =? 160) || (c =? 5760) ||
   (8192 <=? c) && (c <=? 8202) || (c =? 8232) || (c =? 8233) ||
   (c =? 8239) || (c =? 8287) || (c =? 12288))%N.

Fixpoint lstrip (s : pystr) : pystr :=
  match s with
  | [] => []
  | c :: s' => if is_space c then lstrip s' else s
  end.

Definition rstrip (s : pystr) : pystr := rev (lstrip (rev s)).

(** [s.strip()]. *)
Definition strip (s : pystr) : pystr := rstrip (lstrip s).

(** The code point of [/], the path separator. *)
Definition sep : N := 47.

(** [os.path.join(a, b)] (POSIX). *)
Definition path_join (a b : pystr) : pystr :=
  if starts_with [sep] b then b
  else if (match a with [] => true | _ => false end) || ends_with [sep] a
       then a ++ b
       else a ++ [sep] ++ b.

(** [os.path.basename(p)]: what follows the last separator. *)
Fixpoint basename (p : pystr) : pystr :=
  match p with
  | [] => []
  | c :: p' =>
      if existsb (N.eqb sep) p' then basename p'
      else if (c =? sep)%N then p' else p
  end.

(** The part of a path up to and including its last separator: it names
    the directory in which the file of that path is created. *)
Definition dir_part (p : pystr) : pystr :=
  take (length p - length (basename p)) p.

(** [sanitize_filename(self, name)]: each character of [invalid_chars]
    (less-than, greater-than, colon, double quote, slash, backslash,
    bar, question mark, star) is replaced in turn by an underscore, then
    the result is stripped. *)
Definition invalid_chars : pystr :=
  [60; 62; 58; 34; 47; 92; 124; 63; 42]%N.

Definition underscore : N := 95.

Definition sanitize_filename (name : pystr) : pystr :=
  strip (fold_left (fun name char => str_replace [char] [underscore] name)
                   invalid_chars name).




(** ** The [struct] module *)

(** The byte with value [z mod 256]. *)
Definition byte_of_Z (z : Z) : byte :=
  match Byte.of_N (Z.to_N (z mod 256)) with
  | Some b => b
  | None => x00
  end.

Definition Z_of_byte (b : byte) : Z := Z.of_N (Byte.to_N b).

(** The [n] low bytes of [z], least significant first. *)
Fixpoint le_bytes (n : nat) (z : Z) : list byte :=
  match n with
  | O => []
  | S k => byte_of_Z z :: le_bytes k (z / 256)
  end.

(** The integer a little-endian byte string denotes. *)
Fixpoint le_value (bs : list byte) : Z :=
  match bs with
  | [] => 0
  | b :: bs' => Z_of_byte b + 256 * le_value bs'
  end.

(** [struct.pack('<B', v)], [struct.pack('<H', v)] and
    [struct.pack('<I', v)] (the same as ['<L']): a [struct.error] unless
    the value fits the field. *)
Definition pack_uint (n : nat) (v : Z) : exn + list byte :=
  if (0 <=? v) && (v <? 256 ^ Z.of_nat n) then inr (le_bytes n v)
  else inl StructError.

Definition pack_B : Z -> exn + list byte := pack_uint 1.
Definition pack_H : Z -> exn + list byte := pack_uint 2.
Definition pack_I : Z -> exn + list byte := pack_uint 4.

(** A Python [float]: a binary64 value. *)
Abbreviation pyfloat := spec_float.

(** The binary64 value of an integer, for writing sample data. *)
Definition float_of_Z (z : Z) : pyfloat := binary_normalize 53 1024 z 0 false.

(** ** The dimension normaliser *)

(** [math.ceil(x)]: the least integer not below a finite [x]; an
    [OverflowError] for an infinity and a [ValueError] for a NaN. *)
Definition math_ceil (x : pyfloat) : exn + Z :=
  match x with
  | S754_zero _ => inr 0
  | S754_infinity _ => inl OverflowError
  | S754_nan => inl ValueError
  | S754_finite s m e =>
      let n := if s then Z.neg m else Z.pos m in
      inr (if 0 <=? e then n * 2 ^ e else - ((- n) / 2 ^ (- e)))
  end.

(** [math.ceil(math.log2(n))] for an integer [n]: a [ValueError] (math
    domain error) for [n <= 0], otherwise the ceiling of the binary64
    value the library computes for the logarithm. That value,
    [math_log2 n], is rounded, so its ceiling can fall below the exact
    one; the library function is a parameter of the model. *)
Definition ceil_log2 (math_log2 : Z -> pyfloat) (n : Z) : exn + Z :=
  if n <=? 0 then inl ValueError else math_ceil (math_log2 n).

(** [nearest_power_of_2(self, size)], with [max_size] standing for
    [self.config["texture"]["max_size"]]. The logarithm of an integer
    [n >= 1] is not negative, so [2 ** k] is the integer power. *)
Definition nearest_power_of_2 (math_log2 : Z -> pyfloat) (max_size : Z)
    (size : Z * Z) : exn + (Z * Z) :=
  match ceil_log2 math_log2 (fst size) with
  | inl e => inl e
  | inr lw =>
      let w := Z.min (2 ^ lw) max_size in
      match ceil_log2 math_log2 (snd size) with
      | inl e => inl e
      | inr lh =>
          let h := Z.min (2 ^ lh) max_size in
          inr (w, h)
      end
  end.

(** Conversion to binary32, rounding to nearest even. *)
Definition to_binary32 (x : pyfloat) : spec_float :=
  match x with
  | S754_finite s m e => binary_round 24 128 s m e
  | _ => x
  end.

(** The IEEE-754 binary32 encoding, as an integer below [2^32]. *)
Definition binary32_bits (y : spec_float) : Z :=
  let sign (s : bool) := if s then 2 ^ 31 else 0 in
  match y with
  | S754_zero s => sign s
  | S754_infinity s => sign s + 255 * 2 ^ 23
  | S754_nan => 255 * 2 ^ 23 + 2 ^ 22
  | S754_finite s m e =>
      if 2 ^ 23 <=? Z.pos m
      then sign s + (e + 150) * 2 ^ 23 + (Z.pos m - 2 ^ 23)
      else sign s + Z.pos m
  end.

(** [struct.pack('<f', x)]: an [OverflowError] when a finite [x] is too
    large for binary32. *)
Definition pack_f (x : pyfloat) : exn + list byte :=
  match x, to_binary32 x with
  | S754_finite _ _ _, S754_infinity _ => inl OverflowError
  | _, y => inr (le_bytes 4 (binary32_bits y))
  end.

(** Packing several values with one format string: all are converted
    before anything is produced. *)
Fixpoint pack_all {A} (pack : A -> exn + list byte) (vs : list A)
  : exn + list byte :=
  match vs with
  | [] => inr []
  | v :: vs' =>
      match pack v with
      | inl e => inl e
      | inr bs =>
          match pack_all pack vs' with
          | inl e => inl e
          | inr bs' => inr (bs ++ bs')
          end
      end
  end.


(** ** Decoded assets *)

(** A decoded image as the imaging library presents it after
    [convert('RGB')]: its size and its 8-bit pixels. *)
Record image := Image {
  img_size : Z * Z;
  getpixel : Z -> Z -> byte * byte * byte
}.

Record texture := Texture {
  tex_name : pystr;
  tex_image : option image        (* [None]: no [image] attribute, or [None] *)
}.

(** [samples] is the raw PCM buffer (16-bit samples, two bytes each). *)
Record audio := Audio {
  audio_name : pystr;
  samples : list byte;
  frequency : Z;
  channels : Z
}.

Record mesh := Mesh {
  mesh_name : pystr;
  vertices : list pyfloat;
  indices : list N;
  uv : option (list pyfloat)      (* [None]: no [uv] attribute, or [None] *)
}.

(** A material property value, by what [extract_material] tests on it. *)
#[warnings="-register-all"] Inductive pyvalue : Type :=
| VInt (z : Z)
| VFloat (x : pyfloat)
| VStr (s : pystr)
| VBool (b : bool)
| VNone
| VList (items : list pyvalue)               (* a list or a tuple *)
| VDict (items : list (pyvalue * pyvalue))
| VObject (repr : pystr)         (* has a [__dict__]; [repr] is its [str()] *)
| VOther.                        (* anything else: bytes, a set, ... *)

Record material := Material {
  mat_name : pystr;
  shader : option pyvalue;
  properties : option (list (pystr * pyvalue))
}.

(** An object of the bundle: its type tag and what [obj.read()] gives. *)
Inductive object : Type :=
| Texture2D (r : exn + texture)
| AudioClip (r : exn + audio)
| MeshObj (r : exn + mesh)
| MaterialObj (r : exn + material)
| OtherObj (type : pystr).

(** A bundle is a list of assets, an asset a list of objects. *)
Abbreviation bundle := (list (list object)).

(** ** Files, log records and the world *)

(** One line of the text (OBJ) mesh file; numbers are kept as values,
    their decimal rendering is not modelled. *)
Inductive obj_line : Type :=
| ObjProvenance
| ObjVertexCount (n : Z)
| ObjV (x y z : pyfloat)
| ObjVT (u v : pyfloat)
| ObjF (a b c : Z).

(** What [extract_material] hands to [json.dump]. *)
Record mat_data := MatData {
  md_name : pystr;
  md_shader : pyvalue;
  md_properties : list (pystr * pyvalue)
}.

(** The content of a file. Binary files are byte strings; the PNG, text
    and JSON files are kept as the values they serialise. A JSON file is
    [complete] unless [json.dump] stopped on a value it cannot encode. *)
Inductive content : Type :=
| Bytes (bs : list byte)
| Png (img : image)
| ObjText (ls : list obj_line)
| Text (s : pystr)
| Json (complete : bool) (d : mat_data).

Inductive level : Type := INFO | WARNING | ERROR.

Inductive message : Type :=
| MsgOpening (unity_file : pystr)
| MsgFailedProcess (e : exn)
| MsgSkippingTexture (name : pystr)
| MsgExtractedTexture (name : pystr)
| MsgFailedTexture (e : exn)
| MsgExtractedAudio (name : pystr)
| MsgFailedAudio (e : exn)
| MsgExtractedMesh (name : pystr)
| MsgFailedMesh (e : exn)
| MsgExtractedMaterial (name : pystr)
| MsgFailedMaterial (e : exn)
| MsgVqPlaceholder (input_path : pystr)
| MsgNoAdpcmConverter.

(** The state a run acts on: the files, by path, and the log. Directories
    are not modelled: a file can be created at any path. *)
Record world := World {
  fs : gmap (list N) content;
  logs : list (level * message)
}.

(** ** The monad of the converter's methods *)

Definition M (A : Type) : Type := world -> (exn + A) * world.

Definition ret {A} (a : A) : M A := fun w => (inr a, w).

Definition raise {A} (e : exn) : M A := fun w => (inl e, w).

Definition bind {A B} (m : M A) (f : A -> M B) : M B :=
  fun w => match m w with
           | (inl e, w') => (inl e, w')
           | (inr a, w') => f a w'
           end.

(** [try: body  except Exception as e: handler e]. *)
Definition try_except {A} (body : M A) (handler : exn -> M A) : M A :=
  fun w => match body w with
           | (inl e, w') => handler e w'
           | (inr a, w') => (inr a, w')
           end.

Definition lift {A} (r : exn + A) : M A := fun w => (r, w).

Declare Scope py_scope.
Delimit Scope py_scope with py.
Notation "x <- m ;; k" := (bind m (fun x => k))
  (at level 20, m at level 99, k at level 200, only parsing) : py_scope.
Notation "m ;; k" := (bind m (fun _ => k))
  (at level 100, k at level 200, only parsing, right associativity) : py_scope.
Local Open Scope py_scope.

(** [for x in xs: body x]: stops at the first exception. *)
Fixpoint for_each {A} (xs : list A) (body : A -> M unit) : M unit :=
  match xs with
  | [] => ret tt
  | x :: xs' => body x ;; for_each xs' body
  end.

(** The world a computation leaves, and its outcome. *)
Definition exec {A} (m : M A) (w : world) : world := snd (m w).
Definition outcome {A} (m : M A) (w : world) : exn + A := fst (m w).

(** [self.logger.<level>(msg)]. *)
Definition log (l : level) (msg : message) : M unit :=
  fun w => (inr tt, World (fs w) (logs w ++ [(l, msg)])).

(** [os.makedirs(path, exist_ok=True)]. *)
Definition os_makedirs (path : pystr) : M unit := ret tt.

(** Creating or truncating the file at [path] and leaving [c] in it. *)
Definition store (path : pystr) (c : content) : M unit :=
  fun w => (inr tt, World (<[path := c]> (fs w)) (logs w)).

(** [os.remove(path)]. *)
Definition os_remove (path : pystr) : M unit :=
  fun w => match fs w !! path with
           | Some _ => (inr tt, World (delete path (fs w)) (logs w))
           | None => (inl FileNotFoundError, w)
           end.

(** [os.path.exists(path)]. *)
Definition os_path_exists (path : pystr) : M bool :=
  fun w => (inr (bool_decide (is_Some (fs w !! path))), w).

(** [open(path, 'rb').read()]. *)
Definition read_bytes (path : pystr) : M (list byte) :=
  fun w => match fs w !! path with
           | Some (Bytes bs) => (inr bs, w)
           | Some _ => (inl TypeError, w)
           | None => (inl FileNotFoundError, w)
           end.

(** [Image.open(path).convert('RGB')]. *)
Definition image_open (path : pystr) : M image :=
  fun w => match fs w !! path with
           | Some (Png img) => (inr img, w)
           | Some _ => (inl TypeError, w)
           | None => (inl FileNotFoundError, w)
           end.

(** ** Writing into an open file *)

(** The body of a [with open(path, 'w') as f] block: the items written
    so far, and how the block ended. *)
Definition Wr (T A : Type) : Type := list T * (exn + A).

Definition wr_ret {T A} (a : A) : Wr T A := ([], inr a).

Definition wr_raise {T A} (e : exn) : Wr T A := ([], inl e).

Definition wr_bind {T A B} (m : Wr T A) (f : A -> Wr T B) : Wr T B :=
  match m with
  | (out, inl e) => (out, inl e)
  | (out, inr a) => let '(out', r) := f a in (out ++ out', r)
  end.

(** [f.write(items)]. *)
Definition f_write {T} (items : list T) : Wr T unit := (items, inr tt).

(** A value computed inside the block (it may raise). *)
Definition wr_lift {T A} (r : exn + A) : Wr T A := ([], r).

Declare Scope wr_scope.
Delimit Scope wr_scope with wr.
Notation "x <- m ;; k" := (wr_bind m (fun x => k))
  (at level 20, m at level 99, k at level 200, only parsing) : wr_scope.
Notation "m ;; k" := (wr_bind m (fun _ => k))
  (at level 100, k at level 200, only parsing, right associativity) : wr_scope.

(** [with open(path, 'w') as f: body]: the file holds whatever the body
    wrote, also when the body raised; the exception then propagates. *)
Definition with_open {T} (path : pystr) (mk : list T -> content)
    (body : Wr T unit) : M unit :=
  store path (mk (fst body)) ;; lift (snd body).

(** [for x in xs: body x] inside an open file. *)
Fixpoint wr_for {T A} (xs : list A) (body : A -> Wr T unit) : Wr T unit :=
  match xs with
  | [] => wr_ret tt
  | x :: xs' => (body x ;; wr_for xs' body)%wr
  end.

(** [range(n)]. *)
Definition range (n : Z) : list Z := map Z.of_nat (seq 0 (Z.to_nat n)).

(** [len(xs)]. *)
Definition len {A} (xs : list A) : Z := Z.of_nat (length xs).

(** ** The mesh encoder *)

(** [b'DCM\x01']: magic and version. *)
Definition dcm_magic : list byte := ["D"; "C"; "M"; x01]%byte.

(** The loop [for i in range(0, len(vs), 3): x, y, z = vs[i:i+3]; ...]:
    a final slice of one or two items does not unpack ([ValueError]). *)
Fixpoint write_vertices (vs : list pyfloat) : Wr byte unit :=
  match vs with
  | [] => wr_ret tt
  | x :: y :: z :: rest =>
      (bs <- wr_lift (pack_all pack_f [x; y; z]) ;;
       f_write bs ;;
       write_vertices rest)%wr
  | _ => wr_raise ValueError
  end.

Fixpoint write_indices (ixs : list N) : Wr byte unit :=
  match ixs with
  | [] => wr_ret tt
  | a :: b :: c :: rest =>
      (bs <- wr_lift (pack_all pack_H [Z.of_N a; Z.of_N b; Z.of_N c]) ;;
       f_write bs ;;
       write_indices rest)%wr
  | _ => wr_raise ValueError
  end.

Fixpoint write_uvs (uvs : list pyfloat) : Wr byte unit :=
  match uvs with
  | [] => wr_ret tt
  | u :: v :: rest =>
      (bs <- wr_lift (pack_all pack_f [u; v]) ;;
       f_write bs ;;
       write_uvs rest)%wr
  | _ => wr_raise ValueError
  end.

(** [hasattr(mesh_data, 'uv') and mesh_data.uv]. *)
Definition uv_present (m : mesh) : option (list pyfloat) :=
  match uv m with
  | Some (u :: rest) => Some (u :: rest)
  | _ => None
  end.

(** The body of the [with] block of [export_dreamcast_mesh]. *)
Definition dcm_body (mesh_data : mesh) : Wr byte unit :=
  (f_write dcm_magic ;;
   let vertex_count := len (vertices mesh_data) / 3 in
   bs <- wr_lift (pack_I vertex_count) ;;
   f_write bs ;;
   write_vertices (vertices mesh_data) ;;
   let face_count := len (indices mesh_data) / 3 in
   bs <- wr_lift (pack_I face_count) ;;
   f_write bs ;;
   write_indices (indices mesh_data) ;;
   match uv_present mesh_data with
   | Some uvs =>
       let uv_count := len uvs / 2 in
       bs <- wr_lift (pack_I uv_count) ;;
       f_write bs ;;
       write_uvs uvs
   | None =>
       bs <- wr_lift (pack_I 0) ;;
       f_write bs
   end)%wr.

(** [export_dreamcast_mesh(self, mesh_data, output_path)]. *)
Definition export_dreamcast_mesh (mesh_data : mesh) (output_path : pystr)
  : M unit :=
  with_open output_path Bytes (dcm_body mesh_data).

Fixpoint obj_vertices (vs : list pyfloat) : Wr obj_line unit :=
  match vs with
  | [] => wr_ret tt
  | x :: y :: z :: rest => (f_write [ObjV x y z] ;; obj_vertices rest)%wr
  | _ => wr_raise ValueError
  end.

Fixpoint obj_uvs (uvs : list pyfloat) : Wr obj_line unit :=
  match uvs with
  | [] => wr_ret tt
  | u :: v :: rest => (f_write [ObjVT u v] ;; obj_uvs rest)%wr
  | _ => wr_raise ValueError
  end.

(** Face lines carry the indices shifted by one. *)
Fixpoint obj_faces (ixs : list N) : Wr obj_line unit :=
  match ixs with
  | [] => wr_ret tt
  | a :: b :: c :: rest =>
      (f_write [ObjF (Z.of_N a + 1) (Z.of_N b + 1) (Z.of_N c + 1)] ;;
       obj_faces rest)%wr
  | _ => wr_raise ValueError
  end.

Definition obj_body (mesh_data : mesh) : Wr obj_line unit :=
  (f_write [ObjProvenance] ;;
   f_write [ObjVertexCount (len (vertices mesh_data) / 3)] ;;
   obj_vertices (vertices mesh_data) ;;
   match uv_present mesh_data with
   | Some uvs => obj_uvs uvs
   | None => wr_ret tt
   end ;;
   obj_faces (indices mesh_data))%wr.

(** [export_obj(self, mesh_data, output_path)]. *)
Definition export_obj (mesh_data : mesh) (output_path : pystr) : M unit :=
  with_open output_path ObjText (obj_body mesh_data).

(** [extract_mesh(self, obj, output_dir)], [r] being what [obj.read()]
    gives. *)
Definition dcm_path (output_dir name : pystr) : pystr :=
  path_join (path_join output_dir (py "models")) (name ++ py ".dcm").

Definition obj_path (output_dir name : pystr) : pystr :=
  path_join (path_join output_dir (py "models")) (name ++ py ".obj").

Definition extract_mesh (r : exn + mesh) (output_dir : pystr) : M unit :=
  try_except
    (data <- lift r ;;
     let name := sanitize_filename (mesh_name data) in
     let model_dir := path_join output_dir (py "models") in
     os_makedirs model_dir ;;
     let dc_path := path_join model_dir (name ++ py ".dcm") in
     export_dreamcast_mesh data dc_path ;;
     let obj_path := path_join model_dir (name ++ py ".obj") in
     export_obj data obj_path ;;
     log INFO (MsgExtractedMesh name))
    (fun e => log ERROR (MsgFailedMesh e)).

Definition sample_mesh : mesh :=
  Mesh (py "tri") [float_of_Z 1; float_of_Z 2; float_of_Z 3] [0; 0; 0]%N None.


(** ** The [wave] module *)

Definition riff_tag : list byte := ["R"; "I"; "F"; "F"]%byte.
Definition wave_tag : list byte := ["W"; "A"; "V"; "E"]%byte.
Definition fmt_tag : list byte := ["f"; "m"; "t"; " "]%byte.
Definition data_tag : list byte := ["d"; "a"; "t"; "a"]%byte.

Definition or_else {A} (r : exn + A) (k : A -> exn + list byte)
  : exn + list byte :=
  match r with
  | inl e => inl e
  | inr a => k a
  end.

(** What follows the [RIFF] tag up to and including the [data] tag:
    [struct.pack('<L4s4sLHHLLHH4s', 36 + datalength, b'WAVE', b'fmt ',
    16, 1, nchannels, framerate, nchannels * framerate * sampwidth,
    nchannels * sampwidth, sampwidth * 8, b'data')] with a sample width
    of 2. *)
Definition wav_form (nchannels framerate datalength : Z) : exn + list byte :=
  or_else (pack_I (36 + datalength)) (fun form_length =>
  or_else (pack_I 16) (fun fmt_length =>
  or_else (pack_H 1) (fun format_tag =>
  or_else (pack_H nchannels) (fun nch =>
  or_else (pack_I framerate) (fun rate =>
  or_else (pack_I (nchannels * framerate * 2)) (fun byte_rate =>
  or_else (pack_H (nchannels * 2)) (fun block_align =>
  or_else (pack_H (2 * 8)) (fun bits =>
  inr (form_length ++ wave_tag ++ fmt_tag ++ fmt_length ++ format_tag ++
       nch ++ rate ++ byte_rate ++ block_align ++ bits ++ data_tag))))))))).

(** The 44-byte header of a file holding [datalength] bytes of frames. *)
Definition wav_header (nchannels framerate datalength : Z)
  : exn + list byte :=
  or_else (wav_form nchannels framerate datalength) (fun form =>
  or_else (pack_I datalength) (fun data_length =>
  inr (riff_tag ++ form ++ data_length))).

(** What the block
    [with wave.open(path, 'w') as wav: wav.setnchannels(channels);
     wav.setsampwidth(2); wav.setframerate(rate); wav.writeframes(data)]
    leaves in the file, and how it ends. The setters reject a channel
    count below 1 and a rate of 0 or less, and the file then stays
    empty. The header is first written for the whole frames of [data]
    and, when [data] has a trailing partial frame, its two length
    fields are patched to the number of bytes written. When a header
    field does not fit, the [RIFF] tag has been written, once by
    [writeframes] and once more on closing. *)
Definition wave_write (nchannels framerate : Z) (data : list byte)
  : Wr byte unit :=
  if nchannels <? 1 then ([], inl WaveError)
  else if framerate <=? 0 then ([], inl WaveError)
  else
    let datalength := len data / (nchannels * 2) * (nchannels * 2) in
    match wav_header nchannels framerate datalength with
    | inl e => (riff_tag ++ riff_tag, inl e)
    | inr header =>
        if datalength =? len data then (header ++ data, inr tt)
        else
          match wav_header nchannels framerate (len data) with
          | inl e => (header ++ data, inl e)
          | inr patched => (patched ++ data, inr tt)
          end
    end.

(** ** The converter *)

Section Converter.

(** [self.config["texture"]["max_size"]]. *)
Variable max_size : Z.

(** [command_exists(self, cmd)]: whether [which cmd] succeeds. *)
Variable command_exists : pystr -> bool.

(** [subprocess.run(cmd, check=True)]: an external tool, which may do
    anything to the files and may fail. *)
Variable subprocess_run : list pystr -> M unit.

(** [img.resize((w, h), Image.Resampling.LANCZOS)]. *)
Variable image_resize : image -> Z * Z -> image.

(** Opening the bundle file and [unitypack.load]. *)
Variable unitypack_load : pystr -> exn + bundle.

(** [math.log2] on a positive integer: the binary64 value the C library
    returns. *)
Variable math_log2 : Z -> pyfloat.

(** Whether a directory other than those the converter creates is
    there, by the part of a path that names it. *)
Variable dir_exists : pystr -> bool.

(** [raw_to_wav(self, raw_path, wav_path, sample_rate, channels)]. *)
Definition raw_to_wav (raw_path wav_path : pystr) (sample_rate channels : Z)
  : M unit :=
  raw_data <- read_bytes raw_path ;;
  with_open wav_path Bytes (wave_write channels sample_rate raw_data).

(** [convert_to_adpcm(self, wav_path, output_path)]. *)
Definition convert_to_adpcm (wav_path output_path : pystr) : M unit :=
  if command_exists (py "adxtool") then
    subprocess_run [py "adxtool"; py "-e"; wav_path; output_path]
  else if command_exists (py "sox") then
    subprocess_run [py "sox"; wav_path; py "-t"; py "ima"; output_path]
  else
    log WARNING MsgNoAdpcmConverter.

(** [extract_audio(self, obj, output_dir)]. *)
Definition extract_audio (r : exn + audio) (output_dir : pystr) : M unit :=
  try_except
    (data <- lift r ;;
     let name := sanitize_filename (audio_name data) in
     let audio_dir := path_join output_dir (py "audio") in
     os_makedirs audio_dir ;;
     let raw_path := path_join audio_dir (name ++ py ".raw") in
     store raw_path (Bytes (samples data)) ;;
     let wav_path := path_join audio_dir (name ++ py ".wav") in
     raw_to_wav raw_path wav_path (frequency data) (channels data) ;;
     let adpcm_path := path_join audio_dir (name ++ py ".adx") in
     convert_to_adpcm wav_path adpcm_path ;;
     os_remove raw_path ;;
     adx_exists <- os_path_exists adpcm_path ;;
     (if adx_exists : bool then os_remove wav_path else ret tt) ;;
     log INFO (MsgExtractedAudio name))
    (fun e => log ERROR (MsgFailedAudio e)).

(** The pixel loop shared by [png_to_raw_rgb565] and
    [create_simple_pvr]. *)
Definition write_pixels (img : image) (width height : Z) : Wr byte unit :=
  wr_for (range height) (fun y =>
    wr_for (range width) (fun x =>
      let '(r, g, b) := getpixel img x y in
      let rgb565 := rgb565 (Z_of_byte r) (Z_of_byte g) (Z_of_byte b) in
      (bs <- wr_lift (pack_H rgb565) ;; f_write bs)%wr)).

(** [png_to_raw_rgb565(self, png_path, raw_path)]. *)
Definition png_to_raw_rgb565 (png_path raw_path : pystr) : M unit :=
  img <- image_open png_path ;;
  let '(width, height) := img_size img in
  with_open raw_path Bytes (write_pixels img width height).

(** [b'PVRV']. *)
Definition pvr_magic : list byte := ["P"; "V"; "R"; "V"]%byte.

Definition pvr_body (img : image) : Wr byte unit :=
  let '(width, height) := img_size img in
  (f_write pvr_magic ;;
   bs <- wr_lift (pack_I 8) ;; f_write bs ;;
   bs <- wr_lift (pack_H width) ;; f_write bs ;;
   bs <- wr_lift (pack_H height) ;; f_write bs ;;
   bs <- wr_lift (pack_B 1) ;; f_write bs ;;
   bs <- wr_lift (pack_B 1) ;; f_write bs ;;
   f_write [x00; x00] ;;
   write_pixels img width height)%wr.

(** [create_simple_pvr(self, png_path, pvr_path)]. *)
Definition create_simple_pvr (png_path pvr_path : pystr) : M unit :=
  img <- image_open png_path ;;
  with_open pvr_path Bytes (pvr_body img).

(** Creating the file [new] by [action] when the file [existing] is
    there. The paths [convert_to_pvr] derives with [str.replace] can
    lie in another directory than the file they are derived from, since
    every occurrence of [.png] is replaced, also in the directory part.
    The directory of [existing] is there; another one is there when
    [dir_exists] says so. Creating a file in a directory that is not
    there raises [FileNotFoundError] and writes nothing. *)
Definition can_create (existing new : pystr) : bool :=
  bool_decide (dir_part new = dir_part existing) || dir_exists (dir_part new).

Definition create_beside (existing new : pystr) (action : M unit) : M unit :=
  if can_create existing new then action else raise FileNotFoundError.

(** [convert_to_pvr(self, input_path, output_dir)]. *)
Definition convert_to_pvr (input_path output_dir : pystr) : M unit :=
  img <- image_open input_path ;;
  size <- lift (nearest_power_of_2 math_log2 max_size (img_size img)) ;;
  input_path <-
    (if bool_decide (size <> img_size img) then
       let img := image_resize img size in
       let temp_path :=
         str_replace (py ".png") (py "_resized.png") input_path in
       create_beside input_path temp_path (store temp_path (Png img)) ;;
       ret temp_path
     else ret input_path) ;;
  let output_path :=
    path_join output_dir
      (str_replace (py ".png") (py ".pvr") (basename input_path)) in
  (if command_exists (py "pvr_converter") then
     let raw_path := str_replace (py ".png") (py ".raw") input_path in
     create_beside input_path raw_path
       (png_to_raw_rgb565 input_path raw_path) ;;
     subprocess_run [py "pvr_converter"; raw_path; output_path] ;;
     os_remove raw_path
   else
     create_simple_pvr input_path output_path) ;;
  (if contains (py "resized") input_path then os_remove input_path
   else ret tt).

(** [convert_to_vq(self, input_path, output_dir)]: only a marker file
    is written. *)
Definition convert_to_vq (input_path output_dir : pystr) : M unit :=
  let output_path :=
    path_join output_dir
      (str_replace (py ".png") (py ".vq") (basename input_path)) in
  log INFO (MsgVqPlaceholder input_path) ;;
  store (output_path ++ py ".info")
        (Text (py "VQ compressed version of " ++ basename input_path
               ++ [10%N])).

(** [extract_texture(self, obj, output_dir)]. *)
Definition extract_texture (r : exn + texture) (output_dir : pystr)
  : M unit :=
  try_except
    (data <- lift r ;;
     match tex_image data with
     | None => log WARNING (MsgSkippingTexture (tex_name data))
     | Some texture =>
         let name := sanitize_filename (tex_name data) in
         let tex_dir := path_join output_dir (py "textures") in
         os_makedirs tex_dir ;;
         let png_path := path_join tex_dir (name ++ py ".png") in
         store png_path (Png texture) ;;
         log INFO (MsgExtractedTexture name) ;;
         convert_to_pvr png_path tex_dir ;;
         convert_to_vq png_path tex_dir
     end)
    (fun e => log ERROR (MsgFailedTexture e)).

(** What [json.dump] accepts as the key of a dict. *)
Definition json_key (k : pyvalue) : bool :=
  match k with
  | VInt _ | VFloat _ | VStr _ | VBool _ | VNone => true
  | _ => false
  end.

(** What [json.dump] can encode: numbers, strings, booleans, [None],
    and lists, tuples and dicts of such values. *)
Fixpoint json_encodable (v : pyvalue) : bool :=
  match v with
  | VInt _ | VFloat _ | VStr _ | VBool _ | VNone => true
  | VList items => forallb json_encodable items
  | VDict items =>
      forallb (fun kv => json_key (fst kv) && json_encodable (snd kv)) items
  | VObject _ | VOther => false
  end.

(** The loop over [data.properties.items()]: an [int], a [float], a
    [str] or a [bool] is kept, a value with a [__dict__] is replaced by
    its [str()], the rest is left out. *)
Fixpoint material_properties (props : list (pystr * pyvalue))
  : list (pystr * pyvalue) :=
  match props with
  | [] => []
  | (prop_name, prop_value) :: rest =>
      match prop_value with
      | VInt _ | VFloat _ | VStr _ | VBool _ =>
          (prop_name, prop_value) :: material_properties rest
      | VObject repr => (prop_name, VStr repr) :: material_properties rest
      | _ => material_properties rest
      end
  end.

(** [extract_material(self, obj, output_dir)]. *)
Definition extract_material (r : exn + material) (output_dir : pystr)
  : M unit :=
  try_except
    (data <- lift r ;;
     let name := sanitize_filename (mat_name data) in
     let mat_dir := path_join output_dir (py "materials") in
     os_makedirs mat_dir ;;
     let mat_data :=
       MatData name
         (match shader data with Some s => s | None => VStr (py "unknown") end)
         (match properties data with
          | Some props => material_properties props
          | None => []
          end) in
     let mat_path := path_join mat_dir (name ++ py ".json") in
     store mat_path (Json (json_encodable (md_shader mat_data)) mat_data) ;;
     (if json_encodable (md_shader mat_data) then ret tt
      else raise TypeError) ;;
     log INFO (MsgExtractedMaterial name))
    (fun e => log ERROR (MsgFailedMaterial e)).

(** The dispatch on [obj.type] in the loop of [extract_assets]. *)
Definition dispatch (output_dir : pystr) (obj : object) : M unit :=
  match obj with
  | Texture2D r => extract_texture r output_dir
  | AudioClip r => extract_audio r output_dir
  | MeshObj r => extract_mesh r output_dir
  | MaterialObj r => extract_material r output_dir
  | OtherObj _ => ret tt
  end.

(** [extract_assets(self, unity_file, output_dir)]. *)
Definition extract_assets (unity_file output_dir : pystr) : M unit :=
  os_makedirs output_dir ;;
  log INFO (MsgOpening unity_file) ;;
  try_except
    (bundle <- lift (unitypack_load unity_file) ;;
     for_each bundle (fun asset =>
       for_each asset (fun obj => dispatch output_dir obj)))
    (fun e => log ERROR (MsgFailedProcess e) ;; raise e).

End Converter.

(** * Specification predicates *)

(** ** Properties of the dimension normaliser *)

Definition is_pow2 (p : Z) : Prop := exists k, 0 <= k /\ p = 2 ^ k.

(** [p] is the smallest power of two that is at least [d]. *)
Definition smallest_pow2_ge (d p : Z) : Prop :=
  is_pow2 p /\ d <= p /\ forall q, is_pow2 q -> d <= q -> p <= q.


(** The three quantised channels (5, 6 and 5 bits wide) occupy disjoint
    bit ranges of the packed word. *)
Definition fields_ok (x y z : Z) : bool :=
  let p := Z.lor (Z.lor (Z.shiftl x 11) (Z.shiftl y 5)) z in
  (p =? x * 2048 + y * 32 + z) && (Z.shiftr p 11 =? x) &&
  (Z.land (Z.shiftr p 5) 63 =? y) && (Z.land p 31 =? z) &&
  (0 <=? p) && (p <? 65536).

(** ** The binary mesh container *)

(** A little-endian unsigned field of 32 or 16 bits. *)
Definition uint32_bytes (n : Z) : list byte := le_bytes 4 n.
Definition uint16_bytes (i : N) : list byte := le_bytes 2 (Z.of_N i).

(** A little-endian 32-bit float field: the binary32 encoding of the
    value rounded to binary32. *)
Definition float32_bytes (x : pyfloat) : list byte :=
  le_bytes 4 (binary32_bits (to_binary32 x)).

(** The value can be held by a 32-bit float field: it is not a finite
    number beyond the binary32 range. *)
Definition fits_binary32 (x : pyfloat) : bool :=
  match x, to_binary32 x with
  | S754_finite _ _ _, S754_infinity _ => false
  | _, _ => true
  end.

(** The UV data of a mesh, empty when there is none. *)
Definition uv_data (m : mesh) : list pyfloat :=
  match uv m with
  | Some uvs => uvs
  | None => []
  end.

(** The layout of the container: magic and version, vertex count,
    vertices, triangle count, triangles, UV-pair count, UV pairs. *)
Definition dcm_layout (m : mesh) : list byte :=
  dcm_magic ++
  uint32_bytes (len (vertices m) / 3) ++
  flat_map float32_bytes (vertices m) ++
  uint32_bytes (len (indices m) / 3) ++
  flat_map uint16_bytes (indices m) ++
  uint32_bytes (len (uv_data m) / 2) ++
  flat_map float32_bytes (uv_data m).

(** The contract of a decoded mesh. *)
Definition well_formed_mesh (m : mesh) : Prop :=
  len (vertices m) mod 3 = 0 /\
  len (indices m) mod 3 = 0 /\
  Forall (fun i => (i < 65536)%N) (indices m) /\
  len (uv_data m) mod 2 = 0.

(** The values of the mesh can be held by the fields of the container:
    the three counts by 32 bits, the coordinates by 32-bit floats. *)
Definition dcm_representable (m : mesh) : Prop :=
  len (vertices m) / 3 < 2 ^ 32 /\
  len (indices m) / 3 < 2 ^ 32 /\
  len (uv_data m) / 2 < 2 ^ 32 /\
  Forall (fun x => fits_binary32 x = true) (vertices m) /\
  Forall (fun x => fits_binary32 x = true) (uv_data m).

(** The block of a [with open] ended with an exception. *)
Definition wr_failed {T A} (m : Wr T A) : Prop := exists e, snd m = inl e.

(** The longest prefix of whole triangles of an index buffer whose
    indices all fit 16 bits. *)
Fixpoint packable_triples (ixs : list N) : list N :=
  match ixs with
  | a :: b :: c :: rest =>
      if ((a <? 65536) && (b <? 65536) && (c <? 65536))%N
      then a :: b :: c :: packable_triples rest
      else []
  | _ => []
  end.

(** The longest prefix of whole groups of [3] floats that all fit
    binary32. *)
Fixpoint packable_vertices (vs : list pyfloat) : list pyfloat :=
  match vs with
  | x :: y :: z :: rest =>
      if fits_binary32 x && fits_binary32 y && fits_binary32 z
      then x :: y :: z :: packable_vertices rest
      else []
  | _ => []
  end.

(** ** File names *)

(** One of the characters that cannot appear in a file name. *)
Definition is_invalid_char (c : N) : bool := existsb (N.eqb c) invalid_chars.

(** The file name stem as the specification words it: every invalid
    character replaced by an underscore, then the surrounding
    whitespace trimmed. *)
Definition sanitized_stem (name : pystr) : pystr :=
  strip (map (fun c => if is_invalid_char c then underscore else c) name).

(** [t] is [s] without its leading and trailing whitespace. *)
Definition trimmed (s t : pystr) : Prop :=
  (exists l r, Forall (fun c => is_space c = true) l /\
               Forall (fun c => is_space c = true) r /\
               s = l ++ t ++ r) /\
  (forall c, head t = Some c -> is_space c = false) /\
  (forall c, last t = Some c -> is_space c = false).

(** ** The driver *)

(** The world after [body] has been run on each item in turn, whatever
    the outcome of each run. *)
Definition run_each {A} (body : A -> M unit) (xs : list A) (w : world)
  : world :=
  fold_left (fun w x => exec (body x) w) xs w.

(** The world once the opening of the bundle has been logged. *)
Definition opened (unity_file : pystr) (w : world) : world :=
  World (fs w) (logs w ++ [(INFO, MsgOpening unity_file)]).

(** ** The audio container *)

Definition raw_path (output_dir name : pystr) : pystr :=
  path_join (path_join output_dir (py "audio")) (name ++ py ".raw").

Definition wav_path (output_dir name : pystr) : pystr :=
  path_join (path_join output_dir (py "audio")) (name ++ py ".wav").

Definition adx_path (output_dir name : pystr) : pystr :=
  path_join (path_join output_dir (py "audio")) (name ++ py ".adx").

(** The uncompressed PCM container: the 44-byte header (chunk sizes,
    format 1, channel count at offset 22, sample rate at offset 24, byte
    rate, block size, 16 bits per sample, data size) and the samples. *)
Definition wav_layout (nchannels framerate : Z) (data : list byte)
  : list byte :=
  riff_tag ++ le_bytes 4 (36 + len data) ++ wave_tag ++ fmt_tag ++
  le_bytes 4 16 ++ le_bytes 2 1 ++ le_bytes 2 nchannels ++
  le_bytes 4 framerate ++ le_bytes 4 (nchannels * framerate * 2) ++
  le_bytes 2 (nchannels * 2) ++ le_bytes 2 16 ++ data_tag ++
  le_bytes 4 (len data) ++ data.

(** The metadata and size of the record can be held by the fields of
    the header. *)
Definition wav_representable (a : audio) : Prop :=
  1 <= channels a /\ channels a * 2 < 2 ^ 16 /\
  1 <= frequency a /\ frequency a < 2 ^ 32 /\
  channels a * frequency a * 2 < 2 ^ 32 /\
  36 + len (samples a) < 2 ^ 32.

(** The number of 16-bit samples of the buffer. *)
Definition sample_count (a : audio) : Z := len (samples a) / 2.

(** The buffer fails one of the two checks of the specification. *)
Definition buffer_rejected_by_spec (a : audio) : Prop :=
  samples a = [] \/ sample_count a mod channels a <> 0.

(** The encode of an audio asset failed and left no audio file: the
    run ended on the error record of the asset, and there is neither a
    [.wav] nor an [.adx] file for it. *)
Definition audio_encode_failed (output_dir : pystr) (a : audio)
    (before after : world) : Prop :=
  (exists e, logs after = logs before ++ [(ERROR, MsgFailedAudio e)]) /\
  fs after !! wav_path output_dir (sanitize_filename (audio_name a)) = None /\
  fs after !! adx_path output_dir (sanitize_filename (audio_name a)) = None.

(** An environment without any external tool. *)
Definition no_command : pystr -> bool := fun _ => false.
Definition no_subprocess : list pystr -> M unit :=
  fun _ => raise FileNotFoundError.

Definition empty_world : world := World ∅ [].

(** A record with an empty buffer, and one whose single sample cannot be
    divided among its three channels. *)
Definition silent_audio : audio := Audio (py "beep") [] 22050 1.
Definition ragged_audio : audio := Audio (py "beep") [x01; x02] 22050 3.

(** ** The texture container *)

(** The packed pixels of an image, row by row, two bytes each. *)
Definition packed_pixels (img : image) (width height : Z) : list byte :=
  flat_map (fun y =>
    flat_map (fun x =>
      let '(r, g, b) := getpixel img x y in
      le_bytes 2 (rgb565 (Z_of_byte r) (Z_of_byte g) (Z_of_byte b)))
      (range width))
    (range height).

(** The texture container: magic, header size 8, 16-bit width and
    height, format tag 1, data-type tag 1, two padding bytes, then the
    packed pixels. *)
Definition pvr_layout (img : image) : list byte :=
  pvr_magic ++ le_bytes 4 8 ++
  le_bytes 2 (fst (img_size img)) ++ le_bytes 2 (snd (img_size img)) ++
  [x01; x01; x00; x00] ++
  packed_pixels img (fst (img_size img)) (snd (img_size img)).

Definition png_path (output_dir name : pystr) : pystr :=
  path_join (path_join output_dir (py "textures")) (name ++ py ".png").

(** The image file [convert_to_pvr] encodes: the saved one, or the
    resized copy beside it. *)
Definition pvr_input_path (output_dir name : pystr) (resized : bool) : pystr :=
  if resized
  then str_replace (py ".png") (py "_resized.png") (png_path output_dir name)
  else png_path output_dir name.

(** Where the texture container is written. *)
Definition pvr_path (output_dir name : pystr) (resized : bool) : pystr :=
  path_join (path_join output_dir (py "textures"))
    (str_replace (py ".png") (py ".pvr")
       (basename (pvr_input_path output_dir name resized))).

(** Where the marker of the unimplemented compression is written. *)
Definition vq_info_path (output_dir name : pystr) : pystr :=
  path_join (path_join output_dir (py "textures"))
    (str_replace (py ".png") (py ".vq")
       (basename (png_path output_dir name))) ++ py ".info".

(** Changes to the files of a world. *)
Inductive fs_op : Type :=
| Put (path : pystr) (c : content)
| Remove (path : pystr).

Definition apply_op (files : gmap (list N) content) (op : fs_op)
  : gmap (list N) content :=
  match op with
  | Put path c => <[path := c]> files
  | Remove path => delete path files
  end.

Definition apply_ops (ops : list fs_op) (files : gmap (list N) content)
  : gmap (list N) content :=
  fold_left apply_op ops files.

(** What the last change to [path] among [ops] leaves there, if there is
    one. *)
Fixpoint last_change (path : pystr) (ops : list fs_op)
  : option (option content) :=
  match ops with
  | [] => None
  | op :: ops' =>
      match last_change path ops' with
      | Some c => Some c
      | None =>
          match op with
          | Put p c => if decide (p = path) then Some (Some c) else None
          | Remove p => if decide (p = path) then Some None else None
          end
      end
  end.

(** ** Sample inputs *)

(** A mesh with an index that 16 bits cannot hold. *)
Definition overflowing_mesh : mesh :=
  Mesh (py "big") [float_of_Z 0; float_of_Z 0; float_of_Z 1]
       [0; 1; 2; 3; 70000; 5]%N None.

(** A mesh whose vertex buffer stops in the middle of a vertex. *)
Definition truncated_mesh : mesh :=
  Mesh (py "cut") [float_of_Z 1; float_of_Z 2; float_of_Z 3; float_of_Z 4]
       [0; 0; 0]%N None.

(** A quad with texture coordinates. *)
Definition quad_mesh : mesh :=
  Mesh (py "quad")
       [float_of_Z 0; float_of_Z 0; float_of_Z 0;
        float_of_Z 1; float_of_Z 0; float_of_Z 0;
        float_of_Z 1; float_of_Z 1; float_of_Z 0;
        float_of_Z 0; float_of_Z 1; float_of_Z 0]
       [0; 1; 2; 0; 2; 3]%N
       (Some [float_of_Z 0; float_of_Z 0; float_of_Z 1; float_of_Z 0;
              float_of_Z 1; float_of_Z 1; float_of_Z 0; float_of_Z 1]).

(** A bundle of one asset: a good mesh, a malformed one, an object that
    cannot be read, an object of another kind, and a good mesh again. *)
Definition sample_bundle : bundle :=
  [[MeshObj (inr sample_mesh); MeshObj (inr truncated_mesh);
    Texture2D (inl (ReadError 2)); OtherObj (py "Shader");
    MeshObj (inr quad_mesh)]].

Definition sample_load : pystr -> exn + bundle := fun _ => inr sample_bundle.


(** A resampler that keeps the pixel at the same coordinates. *)
Definition crop_resize (img : image) (size : Z * Z) : image :=
  Image size (getpixel img).

(** A 3 by 2 image of one colour, and a texture holding it. *)
Definition orange_image : image :=
  Image (3, 2) (fun _ _ => (xff, x80, x00)).

Definition orange_texture : texture := Texture (py "wall/orange") (Some orange_image).

(** A record of two stereo frames. *)
Definition stereo_audio : audio :=
  Audio (py "step") [x01; x00; x02; x00; x03; x00; x04; x00] 44100 2.

(** A triangle with a coordinate beyond the range of a 32-bit float
    (2^128, about 3.4e38). *)
Definition far_mesh : mesh :=
  Mesh (py "far") [float_of_Z (2 ^ 128); float_of_Z 0; float_of_Z 0]
       [0; 0; 0]%N None.

(** A record with more channels than the 16-bit field of the WAV header
    can count. *)
Definition wide_audio : audio := Audio (py "wide") [] 22050 70000.

(** An output directory in which an [.adx] file of the record
    [stereo_audio] is left from an earlier run. *)
Definition world_with_adx : world :=
  World {[ py "out/audio/step.adx" := Bytes [] ]} [].

(** ** The library logarithm *)

(** The ceiling of the library's logarithm of [n] is the exact one: the
    least [k] with [n <= 2^k]. *)
Definition log2_ceiling_exact (math_log2 : Z -> pyfloat) (n : Z) : Prop :=
  math_ceil (math_log2 n) = inr (Z.log2_up n).

(** [math.log2] at the arguments of the sample runs: the exact exponent
    on a power of two, 1.584962500721156 at 3, 8.228818690495881 at 300,
    and 49.0 at 2^49 + 1, whose logarithm exceeds 49 by less than half
    the distance from 49 to the next binary64 value. Other arguments are
    not tabulated. *)
Definition tabulated_log2 (n : Z) : pyfloat :=
  if (0 <? n) && (2 ^ Z.log2 n =? n) then float_of_Z (Z.log2 n)
  else if n =? 3 then S754_finite false 7138036527644008 (-52)
  else if n =? 300 then S754_finite false 4632413098527078 (-49)
  else if n =? 2 ^ 49 + 1 then float_of_Z 49
  else S754_nan.

(** A file system with no directory but those the converter creates. *)
Definition no_other_directory : pystr -> bool := fun _ => false.

(** ** Names the file system takes *)

(** The nine characters the specification lists, by code point:
    less-than, greater-than, colon, double quote, slash, backslash, bar,
    question mark and star. *)
Definition reserved_chars : list N := [60; 62; 58; 34; 47; 92; 124; 63; 42]%N.

(** The stem as the specification words it, with nothing taken from
    the code: each of the nine characters becomes an underscore (code
    point 95), then the whitespace at both ends is dropped. *)
Definition specified_stem (name : pystr) : pystr :=
  strip (map (fun c => if existsb (N.eqb c) reserved_chars then 95%N else c)
             name).

(** The number of bytes of the UTF-8 encoding of a string. *)
Definition utf8_length (s : pystr) : Z :=
  fold_right (fun c n =>
    (if (c <? 128)%N then 1 else if (c <? 2048)%N then 2
     else if (c <? 65536)%N then 3 else 4) + n) 0 s.

(** A file name the file system takes: no NUL character, no surrogate
    code point, and at most 255 bytes. *)
Definition accepted_file_name (s : pystr) : Prop :=
  Forall (fun c => (0 < c)%N /\ ~ (55296 <= c < 57344)%N) s /\
  utf8_length s <= 255.

(** ** More sample inputs *)




(** * Further definitions *)

(** ** Reading a text mesh back *)

(** The vertex buffer, UV buffer and index buffer that the lines of a
    text mesh file spell out: positions from the [v] lines, texture
    coordinates from the [vt] lines, and the indices of the [f] lines
    shifted back by one. *)
Fixpoint obj_read (ls : list obj_line)
  : list pyfloat * list pyfloat * list Z :=
  match ls with
  | [] => ([], [], [])
  | l :: ls' =>
      let '(vs, uvs, ixs) := obj_read ls' in
      match l with
      | ObjV x y z => (x :: y :: z :: vs, uvs, ixs)
      | ObjVT u v => (vs, u :: v :: uvs, ixs)
      | ObjF a b c => (vs, uvs, (a - 1) :: (b - 1) :: (c - 1) :: ixs)
      | _ => (vs, uvs, ixs)
      end
  end.

(** The face indices of a text mesh file, as written. *)
Fixpoint obj_face_indices (ls : list obj_line) : list Z :=
  match ls with
  | [] => []
  | ObjF a b c :: ls' => a :: b :: c :: obj_face_indices ls'
  | _ :: ls' => obj_face_indices ls'
  end.

(** ** The material file *)

Definition mat_path (output_dir name : pystr) : pystr :=
  path_join (path_join output_dir (py "materials")) (name ++ py ".json").

(** An [int], a [float], a [str] or a [bool]. *)
Definition is_scalar (v : pyvalue) : bool :=
  match v with
  | VInt _ | VFloat _ | VStr _ | VBool _ => true
  | _ => false
  end.

(** The record [extract_material] builds from a decoded material. *)
Definition material_record (data : material) : mat_data :=
  MatData (sanitize_filename (mat_name data))
    (match shader data with Some s => s | None => VStr (py "unknown") end)
    (match properties data with
     | Some props => material_properties props
     | None => []
     end).

(** ** The audio compressor *)

(** The command line [convert_to_adpcm] runs, if any: [adxtool] when it
    is installed, else [sox] when it is installed. *)
Definition adpcm_command (command_exists : pystr -> bool)
    (wav_path output_path : pystr) : option (list pystr) :=
  if command_exists (py "adxtool") then
    Some [py "adxtool"; py "-e"; wav_path; output_path]
  else if command_exists (py "sox") then
    Some [py "sox"; wav_path; py "-t"; py "ima"; output_path]
  else None.

(** An installed [sox] and no [adxtool]. *)
Definition only_sox : pystr -> bool :=
  fun cmd => bool_decide (cmd = py "sox").

(** A compressor that leaves an empty file at its last argument. *)
Definition blank_encoder : list pystr -> M unit :=
  fun cmd => match last cmd with
             | Some out => store out (Bytes [])
             | None => raise (CalledProcessError)
             end.

(** A record that claims no channel at all. *)
Definition mute_audio : audio := Audio (py "hum") [x01; x00] 22050 0.

(** ** The pixel dump *)

(** The header [create_simple_pvr] writes before the pixels. *)
Definition pvr_header (width height : Z) : list byte :=
  pvr_magic ++ le_bytes 4 8 ++ le_bytes 2 width ++ le_bytes 2 height ++
  [x01; x01; x00; x00].

(** A directory holding one saved image. *)
Definition world_with_png : world :=
  World {[ py "out/textures/wall.png" := Png orange_image ]} [].

(** ** Textures *)

(** A texture of 2 by 2 pixels whose name mentions resizing. *)
Definition resized_logo : texture :=
  Texture (py "logo_resized") (Some (Image (2, 2) (fun _ _ => (xff, x80, x00)))).

(** ** The command line *)

(** What [main] prints. *)
Inductive console_line : Type :=
| PrintedSuccess (output : pystr)
| PrintedError (e : exn).

(** How the process ends: its exit status, what it printed and the
    world it leaves. *)
Record process_result := ProcessResult {
  exit_status : Z;
  printed : list console_line;
  final_world : world
}.

Section CommandLine.

Variable max_size : Z.
Variable command_exists : pystr -> bool.
Variable subprocess_run : list pystr -> M unit.
Variable image_resize : image -> Z * Z -> image.
Variable unitypack_load : pystr -> exn + bundle.
Variable math_log2 : Z -> pyfloat.
Variable dir_exists : pystr -> bool.

(** [main()] once the arguments are parsed and the converter is built:
    [try: converter.extract_assets(input, output); print(success)
     except Exception as e: print(error); sys.exit(1)]. *)
Definition main (input output : pystr) (w : world) : process_result :=
  match extract_assets max_size command_exists subprocess_run image_resize
          unitypack_load math_log2 dir_exists input output w with
  | (inr _, w') => ProcessResult 0 [PrintedSuccess output] w'
  | (inl e, w') => ProcessResult 1 [PrintedError e] w'
  end.

End CommandLine.

(** The record an object leaves in the log when it cannot be read. *)
Definition read_failure (obj : object) : option (level * message) :=
  match obj with
  | Texture2D (inl e) => Some (ERROR, MsgFailedTexture e)
  | AudioClip (inl e) => Some (ERROR, MsgFailedAudio e)
  | MeshObj (inl e) => Some (ERROR, MsgFailedMesh e)
  | MaterialObj (inl e) => Some (ERROR, MsgFailedMaterial e)
  | _ => None
  end.

(** A bundle of two assets, none of whose objects can be read. *)
Definition broken_bundle : bundle :=
  [[Texture2D (inl (ReadError 1)); MeshObj (inl (ReadError 2))];
   [AudioClip (inl (ReadError 3)); MaterialObj (inl (ReadError 4))]].

(** ** The external texture converter *)

(** Where [convert_to_pvr] leaves the pixel dump for [pvr_converter]. *)
Definition pvr_raw_path (output_dir name : pystr) (resized : bool) : pystr :=
  str_replace (py ".png") (py ".raw") (pvr_input_path output_dir name resized).

(** An installed [pvr_converter]. *)
Definition only_pvr_converter : pystr -> bool :=
  fun cmd => bool_decide (cmd = py "pvr_converter").

(** A converter that always fails. *)
Definition failing_tool : list pystr -> M unit :=
  fun _ => raise CalledProcessError.

(** ** Running the extraction again *)

Definition op_path (op : fs_op) : pystr :=
  match op with
  | Put path _ => path
  | Remove path => path
  end.

(** The last character of the extension [.adx]. *)
Definition adx_last : N := 120.

(** Two directories hold compressed audio at the same paths. *)
Definition same_compressed_audio (m m' : gmap (list N) content) : Prop :=
  forall path, last path = Some adx_last ->
    (is_Some (m !! path) <-> is_Some (m' !! path)).

(** A step changes files only by writing and removing files other than
    compressed audio, and which changes it makes depends on the files
    only through the compressed audio that is there. *)
Definition overwrites (step : world -> world) : Prop :=
  forall w, exists ops,
    Forall (fun op => last (op_path op) <> Some adx_last) ops /\
    forall w', same_compressed_audio (fs w) (fs w') ->
      fs (step w') = apply_ops ops (fs w').

(** * Sample runs of the model *)

Example sanitize_filename_sample :
  sanitize_filename (py " a/b:c*?.x ") = py "a_b_c__.x".
Proof. reflexivity. Qed.

Example str_replace_sample :
  str_replace (py "aa") (py "b") (py "aaaxaa") = py "baxb".
Proof. reflexivity. Qed.

Example basename_sample :
  basename (py "out/textures/wall.png") = py "wall.png" /\
  path_join (py "out") (py "models") = py "out/models" /\
  path_join (py "out/") (py "models") = py "out/models" /\
  path_join (py "out") (py "/abs") = py "/abs".
Proof. repeat split; reflexivity. Qed.

Example pack_samples :
  pack_H 0xF800 = inr [x00; xf8] /\
  pack_H 65536 = inl StructError /\
  pack_H (-1) = inl StructError /\
  pack_I 8 = inr [x08; x00; x00; x00] /\
  pack_f (float_of_Z 1) = inr [x00; x00; x80; x3f] /\
  pack_f (float_of_Z (-3)) = inr [x00; x00; x40; xc0] /\
  pack_f (float_of_Z 16777217) = inr [x00; x00; x80; x4b] /\
  pack_f (float_of_Z (2 ^ 128)) = inl OverflowError /\
  pack_f (S754_finite false 1 (-1074)) = inr [x00; x00; x00; x00] /\
  pack_f (S754_infinity true) = inr [x00; x00; x80; xff].
Proof. repeat split; reflexivity. Qed.

Example dcm_body_sample :
  dcm_body sample_mesh =
  ([ "D"; "C"; "M"; x01;  x01; x00; x00; x00;
     x00; x00; x80; x3f;  x00; x00; x00; x40;  x00; x00; x40; x40;
     x01; x00; x00; x00;
     x00; x00;  x00; x00;  x00; x00;
     x00; x00; x00; x00 ]%byte, inr tt).
Proof. reflexivity. Qed.

(** * Proofs *)


Lemma smallest_pow2_ge_unique d p q :
  smallest_pow2_ge d p -> smallest_pow2_ge d q -> p = q.
Proof.
  intros (Hp & Hdp & Hminp) (Hq & Hdq & Hminq).
  specialize (Hminp q Hq Hdq). specialize (Hminq p Hp Hdp). lia.
Qed.


Lemma nearest_power_of_2_ceilings (math_log2 : Z -> pyfloat) (c w h kw kh : Z) :
  0 < w -> 0 < h ->
  math_ceil (math_log2 w) = inr kw -> math_ceil (math_log2 h) = inr kh ->
  nearest_power_of_2 math_log2 c (w, h) =
  inr (Z.min (2 ^ kw) c, Z.min (2 ^ kh) c).
Proof.
  intros Hw Hh Hkw Hkh. unfold nearest_power_of_2, ceil_log2. cbn [fst snd].
  destruct (Z.leb_spec w 0); [lia|].
  destruct (Z.leb_spec h 0); [lia|]. now rewrite Hkw, Hkh.
Qed.

Lemma nearest_power_of_2_value (math_log2 : Z -> pyfloat) (c w h : Z) :
  0 < w -> 0 < h ->
  log2_ceiling_exact math_log2 w -> log2_ceiling_exact math_log2 h ->
  nearest_power_of_2 math_log2 c (w, h) =
  inr (Z.min (2 ^ Z.log2_up w) c, Z.min (2 ^ Z.log2_up h) c).
Proof. intros. now apply nearest_power_of_2_ceilings. Qed.




(** ** Properties of the pixel packer *)

(** A boolean test that holds on every element of [0, n) holds on every
    integer of that range. *)
Lemma Z_range_forallb (P : Z -> bool) (n : nat) :
  forallb P (map Z.of_nat (seq 0 n)) = true ->
  forall x, 0 <= x < Z.of_nat n -> P x = true.
Proof.
  intros Hall x Hx.
  rewrite forallb_forall in Hall. apply Hall.
  apply in_map_iff. exists (Z.to_nat x). split; [lia|].
  apply in_seq. lia.
Qed.

Lemma fields_ok_all x y z :
  0 <= x < 32 -> 0 <= y < 64 -> 0 <= z < 32 -> fields_ok x y z = true.
Proof.
  intros Hx Hy Hz.
  assert (Hall : forallb (fun x => forallb (fun y => forallb (fun z =>
            fields_ok x y z) (map Z.of_nat (seq 0 32)))
              (map Z.of_nat (seq 0 64))) (map Z.of_nat (seq 0 32)) = true)
    by (vm_compute; reflexivity).
  pose proof (Z_range_forallb _ 32 Hall x Hx) as H1.
  pose proof (Z_range_forallb _ 64 H1 y Hy) as H2.
  exact (Z_range_forallb _ 32 H2 z Hz).
Qed.

Lemma shiftr_channel (v k : Z) :
  0 <= v <= 255 -> 0 <= k -> Z.shiftr v k = v / 2 ^ k.
Proof. intros _ Hk. apply Z.shiftr_div_pow2. exact Hk. Qed.

(** C4. For 8-bit channels the packed pixel is
    [((R>>3)<<11) | ((G>>2)<<5) | (B>>3)]: the channels are truncated
    (floor division by 8, 4 and 8, no rounding) and laid out in bits
    15-11, 10-5 and 4-0 of a 16-bit word, so the low bits of each
    channel do not influence the result; the four sample pixels pack to
    0xFFFF, 0x0000, 0xF800 and 0x0000. *)
Theorem rgb565_spec (r g b : Z) :
  0 <= r <= 255 -> 0 <= g <= 255 -> 0 <= b <= 255 ->
  rgb565 r g b =
    Z.lor (Z.lor (Z.shiftl (Z.shiftr r 3) 11) (Z.shiftl (Z.shiftr g 2) 5))
          (Z.shiftr b 3) /\
  rgb565 r g b = (r / 8) * 2048 + (g / 4) * 32 + b / 8 /\
  0 <= rgb565 r g b < 65536 /\
  Z.shiftr (rgb565 r g b) 11 = r / 8 /\
  Z.land (Z.shiftr (rgb565 r g b) 5) 63 = g / 4 /\
  Z.land (rgb565 r g b) 31 = b / 8 /\
  rgb565 r g b = rgb565 (r - r mod 8) (g - g mod 4) (b - b mod 8) /\
  rgb565 255 255 255 = 0xFFFF /\ rgb565 0 0 0 = 0x0000 /\
  rgb565 248 0 0 = 0xF800 /\ rgb565 7 3 3 = 0x0000.
Proof.
  intros Hr Hg Hb.
  assert (Hpack : forall r g b, 0 <= r <= 255 -> 0 <= g <= 255 ->
            0 <= b <= 255 -> fields_ok (r / 8) (g / 4) (b / 8) = true /\
            rgb565 r g b = Z.lor (Z.lor (Z.shiftl (r / 8) 11)
                                  (Z.shiftl (g / 4) 5)) (b / 8)).
  { intros r' g' b' Hr' Hg' Hb'. split.
    - apply fields_ok_all.
      + split; [apply Z.div_pos; lia | apply Z.div_lt_upper_bound; lia].
      + split; [apply Z.div_pos; lia | apply Z.div_lt_upper_bound; lia].
      + split; [apply Z.div_pos; lia | apply Z.div_lt_upper_bound; lia].
    - unfold rgb565. rewrite !shiftr_channel by lia. reflexivity. }
  destruct (Hpack r g b Hr Hg Hb) as [Hok Heq].
  unfold fields_ok in Hok. cbv zeta in Hok. rewrite <- Heq in Hok.
  repeat (apply andb_prop in Hok; destruct Hok as [Hok ?]).
  repeat match goal with
         | H : (_ =? _) = true |- _ => apply Z.eqb_eq in H
         | H : (_ <=? _) = true |- _ => apply Z.leb_le in H
         | H : (_ <? _) = true |- _ => apply Z.ltb_lt in H
         end.
  split; [reflexivity|].
  split; [assumption|]. split; [split; assumption|].
  split; [assumption|]. split; [assumption|]. split; [assumption|]. split.
  - assert (Hr8 : 0 <= r mod 8 < 8) by (apply Z.mod_pos_bound; lia).
    assert (Hg4 : 0 <= g mod 4 < 4) by (apply Z.mod_pos_bound; lia).
    assert (Hb8 : 0 <= b mod 8 < 8) by (apply Z.mod_pos_bound; lia).
    pose proof (Z.mod_le r 8 ltac:(lia) ltac:(lia)) as Hr8'.
    pose proof (Z.mod_le g 4 ltac:(lia) ltac:(lia)) as Hg4'.
    pose proof (Z.mod_le b 8 ltac:(lia) ltac:(lia)) as Hb8'.
    clear Hok Heq H H0 H1 H2 H3.
    destruct (Hpack r g b Hr Hg Hb) as [_ Heq].
    destruct (Hpack (r - r mod 8) (g - g mod 4) (b - b mod 8)) as [_ Heq'];
      [lia | lia | lia |].
    rewrite Heq, Heq'.
    replace ((r - r mod 8) / 8) with (r / 8)
      by (rewrite (Z.div_mod r 8) at 2 by lia;
          replace (8 * (r / 8) + r mod 8 - r mod 8) with (r / 8 * 8) by lia;
          rewrite Z.div_mul by lia; reflexivity).
    replace ((g - g mod 4) / 4) with (g / 4)
      by (rewrite (Z.div_mod g 4) at 2 by lia;
          replace (4 * (g / 4) + g mod 4 - g mod 4) with (g / 4 * 4) by lia;
          rewrite Z.div_mul by lia; reflexivity).
    replace ((b - b mod 8) / 8) with (b / 8)
      by (rewrite (Z.div_mod b 8) at 2 by lia;
          replace (8 * (b / 8) + b mod 8 - b mod 8) with (b / 8 * 8) by lia;
          rewrite Z.div_mul by lia; reflexivity).
    reflexivity.
  - repeat split; reflexivity.
Qed.

Lemma rgb565_spec_witness :
  rgb565 200 100 50 = 200 / 8 * 2048 + 100 / 4 * 32 + 50 / 8 /\
  rgb565 200 100 50 = rgb565 (200 - 200 mod 8) (100 - 100 mod 4) (50 - 50 mod 8).
Proof.
  destruct (rgb565_spec 200 100 50) as (_ & H1 & _ & _ & _ & _ & H2 & _);
    [lia | lia | lia |].
  exact (conj H1 H2).
Defined.

(** ** Lists taken three or two items at a time *)

Lemma list_ind3 {A} (P : list A -> Prop) :
  P [] -> (forall x, P [x]) -> (forall x y, P [x; y]) ->
  (forall x y z l, P l -> P (x :: y :: z :: l)) ->
  forall l, P l.
Proof.
  intros H0 H1 H2 H3.
  fix IH 1.
  intros [|x [|y [|z l]]]; [apply H0 | apply H1 | apply H2 | apply H3, IH].
Qed.

Lemma list_ind2 {A} (P : list A -> Prop) :
  P [] -> (forall x, P [x]) ->
  (forall x y l, P l -> P (x :: y :: l)) ->
  forall l, P l.
Proof.
  intros H0 H1 H2.
  fix IH 1.
  intros [|x [|y l]]; [apply H0 | apply H1 | apply H2, IH].
Qed.

Lemma len_cons {A} (x : A) l : len (x :: l) = len l + 1.
Proof. unfold len. simpl length. lia. Qed.

Lemma len_nil {A} : len (@nil A) = 0.
Proof. reflexivity. Qed.

Lemma len_app {A} (l1 l2 : list A) : len (l1 ++ l2) = len l1 + len l2.
Proof. unfold len. rewrite length_app. lia. Qed.

Lemma len_nonneg {A} (l : list A) : 0 <= len l.
Proof. unfold len. lia. Qed.

Lemma len_cons3_mod {A} (x y z : A) l :
  len (x :: y :: z :: l) mod 3 = len l mod 3.
Proof.
  rewrite !len_cons.
  replace (len l + 1 + 1 + 1) with (len l + 1 * 3) by lia.
  apply Z_mod_plus_full.
Qed.

Lemma len_cons2_mod {A} (x y : A) l :
  len (x :: y :: l) mod 2 = len l mod 2.
Proof.
  rewrite !len_cons.
  replace (len l + 1 + 1) with (len l + 1 * 2) by lia.
  apply Z_mod_plus_full.
Qed.

(** ** Packing *)

#[local] Arguments float32_bytes : simpl never.
#[local] Arguments uint16_bytes : simpl never.
#[local] Arguments uint32_bytes : simpl never.

Lemma length_le_bytes n z : length (le_bytes n z) = n.
Proof. revert z. induction n; intros z; simpl; [reflexivity|]. now rewrite IHn. Qed.

Lemma Z_of_byte_of_Z z : Z_of_byte (byte_of_Z z) = z mod 256.
Proof.
  unfold Z_of_byte, byte_of_Z.
  assert (Hr : 0 <= z mod 256 < 256) by (apply Z.mod_pos_bound; lia).
  destruct (Byte.of_N (Z.to_N (z mod 256))) as [b|] eqn:Hb.
  - apply Byte.to_of_N in Hb. rewrite Hb. lia.
  - apply Byte.of_N_None_iff in Hb. lia.
Qed.

Lemma le_value_le_bytes n z :
  0 <= z < 256 ^ Z.of_nat n -> le_value (le_bytes n z) = z.
Proof.
  revert z. induction n as [|n IH]; intros z Hz.
  - simpl in *. lia.
  - cbn [le_bytes le_value]. rewrite Z_of_byte_of_Z.
    rewrite Nat2Z.inj_succ, Z.pow_succ_r in Hz by lia.
    rewrite IH.
    + pose proof (Z.div_mod z 256 ltac:(lia)). lia.
    + split; [apply Z.div_pos; lia | apply Z.div_lt_upper_bound; lia].
Qed.

Lemma pack_uint_ok n v :
  0 <= v < 256 ^ Z.of_nat n -> pack_uint n v = inr (le_bytes n v).
Proof.
  intros [H1 H2]. unfold pack_uint.
  destruct (Z.leb_spec 0 v); [|lia].
  destruct (Z.ltb_spec v (256 ^ Z.of_nat n)); [reflexivity | lia].
Qed.

Lemma pack_uint_fail n v :
  256 ^ Z.of_nat n <= v -> pack_uint n v = inl StructError.
Proof.
  intros H. unfold pack_uint.
  destruct (Z.ltb_spec v (256 ^ Z.of_nat n)); [lia|].
  now rewrite andb_false_r.
Qed.

Lemma pack_I_ok v : 0 <= v < 2 ^ 32 -> pack_I v = inr (uint32_bytes v).
Proof. intros H. apply pack_uint_ok. exact H. Qed.

Lemma pack_H_ok (i : N) :
  (i < 65536)%N -> pack_H (Z.of_N i) = inr (uint16_bytes i).
Proof. intros H. apply pack_uint_ok. change (256 ^ Z.of_nat 2) with 65536. lia. Qed.

Lemma pack_H_fail (i : N) :
  (65536 <= i)%N -> pack_H (Z.of_N i) = inl StructError.
Proof. intros H. apply pack_uint_fail. change (256 ^ Z.of_nat 2) with 65536. lia. Qed.

Lemma pack_f_fits x :
  fits_binary32 x = true -> pack_f x = inr (float32_bytes x).
Proof.
  unfold fits_binary32, pack_f, float32_bytes.
  destruct x; try reflexivity.
  destruct (to_binary32 (S754_finite s m e)); try reflexivity; discriminate.
Qed.

Lemma pack_f_overflow x :
  fits_binary32 x = false -> pack_f x = inl OverflowError.
Proof.
  unfold fits_binary32, pack_f.
  destruct x; try discriminate.
  destruct (to_binary32 (S754_finite s m e)); try discriminate; reflexivity.
Qed.

Lemma length_float32_bytes x : length (float32_bytes x) = 4%nat.
Proof. apply length_le_bytes. Qed.

Lemma length_uint16_bytes i : length (uint16_bytes i) = 2%nat.
Proof. apply length_le_bytes. Qed.

Lemma length_uint32_bytes n : length (uint32_bytes n) = 4%nat.
Proof. apply length_le_bytes. Qed.

Lemma len_flat_map_const {A B} (f : A -> list B) (k : Z) (l : list A) :
  (forall a, len (f a) = k) -> len (flat_map f l) = k * len l.
Proof.
  intros Hk. induction l as [|a l IH]; [unfold len; simpl; lia|].
  cbn [flat_map]. rewrite len_app, len_cons, Hk, IH. lia.
Qed.

(** ** Blocks that write into a file *)

Lemma wr_bind_ok {T A B} (m : Wr T A) (f : A -> Wr T B) out a :
  m = (out, inr a) -> wr_bind m f = (out ++ fst (f a), snd (f a)).
Proof. intros ->. unfold wr_bind. now destruct (f a). Qed.

Lemma wr_bind_raise {T A B} (m : Wr T A) (f : A -> Wr T B) out e :
  m = (out, inl e) -> wr_bind m f = (out, inl e).
Proof. now intros ->. Qed.

Lemma wr_failed_bind_l {T A B} (m : Wr T A) (f : A -> Wr T B) :
  wr_failed m -> wr_failed (wr_bind m f).
Proof.
  destruct m as [out [e|a]]; intros [e' He]; simpl in *; [|discriminate].
  now exists e.
Qed.

Lemma wr_failed_bind_r {T A B} (m : Wr T A) (f : A -> Wr T B) :
  (forall a, wr_failed (f a)) -> wr_failed (wr_bind m f).
Proof.
  intros Hf. destruct m as [out [e|a]]; [now exists e|].
  destruct (Hf a) as [e He]. exists e.
  unfold wr_bind. destruct (f a). exact He.
Qed.

Lemma fst_wr_bind {T A B} (m : Wr T A) (f : A -> Wr T B) :
  fst (wr_bind m f) =
  match snd m with
  | inl _ => fst m
  | inr a => fst m ++ fst (f a)
  end.
Proof. destruct m as [out [e|a]]; simpl; [reflexivity|]. now destruct (f a). Qed.

(** ** The loops of the mesh encoder *)

Lemma pack_all_f3 x y z :
  pack_all pack_f [x; y; z] =
  if fits_binary32 x && fits_binary32 y && fits_binary32 z
  then inr (float32_bytes x ++ float32_bytes y ++ float32_bytes z)
  else inl OverflowError.
Proof.
  cbn [pack_all].
  destruct (fits_binary32 x) eqn:Hx;
    [rewrite (pack_f_fits _ Hx) | now rewrite (pack_f_overflow _ Hx)].
  destruct (fits_binary32 y) eqn:Hy;
    [rewrite (pack_f_fits _ Hy) | now rewrite (pack_f_overflow _ Hy)].
  destruct (fits_binary32 z) eqn:Hz;
    [rewrite (pack_f_fits _ Hz) | now rewrite (pack_f_overflow _ Hz)].
  cbn. now rewrite app_nil_r.
Qed.

Lemma pack_all_f2 u v :
  pack_all pack_f [u; v] =
  if fits_binary32 u && fits_binary32 v
  then inr (float32_bytes u ++ float32_bytes v)
  else inl OverflowError.
Proof.
  cbn [pack_all].
  destruct (fits_binary32 u) eqn:Hu;
    [rewrite (pack_f_fits _ Hu) | now rewrite (pack_f_overflow _ Hu)].
  destruct (fits_binary32 v) eqn:Hv;
    [rewrite (pack_f_fits _ Hv) | now rewrite (pack_f_overflow _ Hv)].
  cbn. now rewrite app_nil_r.
Qed.

Lemma pack_all_H3 (a b c : N) :
  pack_all pack_H [Z.of_N a; Z.of_N b; Z.of_N c] =
  if ((a <? 65536) && (b <? 65536) && (c <? 65536))%N
  then inr (uint16_bytes a ++ uint16_bytes b ++ uint16_bytes c)
  else inl StructError.
Proof.
  cbn [pack_all].
  destruct (N.ltb_spec a 65536) as [Ha|Ha];
    [rewrite (pack_H_ok _ Ha) | now rewrite (pack_H_fail _ Ha)].
  destruct (N.ltb_spec b 65536) as [Hb|Hb];
    [rewrite (pack_H_ok _ Hb) | now rewrite (pack_H_fail _ Hb)].
  destruct (N.ltb_spec c 65536) as [Hc|Hc];
    [rewrite (pack_H_ok _ Hc) | now rewrite (pack_H_fail _ Hc)].
  cbn. now rewrite app_nil_r.
Qed.

Lemma write_vertices_cons3 x y z rest :
  write_vertices (x :: y :: z :: rest) =
  if fits_binary32 x && fits_binary32 y && fits_binary32 z
  then (float32_bytes x ++ float32_bytes y ++ float32_bytes z ++
          fst (write_vertices rest), snd (write_vertices rest))
  else ([], inl OverflowError).
Proof.
  cbn [write_vertices]. rewrite pack_all_f3.
  destruct (fits_binary32 x && fits_binary32 y && fits_binary32 z);
    [|reflexivity].
  unfold wr_lift, f_write, wr_bind.
  destruct (write_vertices rest) as [out r]. cbn.
  now rewrite <- ?app_assoc.
Qed.

Lemma write_indices_cons3 a b c rest :
  write_indices (a :: b :: c :: rest) =
  if ((a <? 65536) && (b <? 65536) && (c <? 65536))%N
  then (uint16_bytes a ++ uint16_bytes b ++ uint16_bytes c ++
          fst (write_indices rest), snd (write_indices rest))
  else ([], inl StructError).
Proof.
  cbn [write_indices]. rewrite pack_all_H3.
  destruct ((a <? 65536) && (b <? 65536) && (c <? 65536))%N; [|reflexivity].
  unfold wr_lift, f_write, wr_bind.
  destruct (write_indices rest) as [out r]. cbn.
  now rewrite <- ?app_assoc.
Qed.

Lemma write_uvs_cons2 u v rest :
  write_uvs (u :: v :: rest) =
  if fits_binary32 u && fits_binary32 v
  then (float32_bytes u ++ float32_bytes v ++ fst (write_uvs rest),
        snd (write_uvs rest))
  else ([], inl OverflowError).
Proof.
  cbn [write_uvs]. rewrite pack_all_f2.
  destruct (fits_binary32 u && fits_binary32 v); [|reflexivity].
  unfold wr_lift, f_write, wr_bind.
  destruct (write_uvs rest) as [out r]. cbn.
  now rewrite <- ?app_assoc.
Qed.

(** Whatever the buffers hold, only whole groups of values that all fit
    their fields are ever written. *)
Lemma fst_write_vertices vs :
  fst (write_vertices vs) = flat_map float32_bytes (packable_vertices vs).
Proof.
  induction vs as [| | |x y z rest IH] using list_ind3; try reflexivity.
  rewrite write_vertices_cons3. cbn [packable_vertices].
  destruct (fits_binary32 x && fits_binary32 y && fits_binary32 z);
    [|reflexivity].
  cbn [fst flat_map]. now rewrite IH, <- ?app_assoc.
Qed.

Lemma fst_write_indices ixs :
  fst (write_indices ixs) = flat_map uint16_bytes (packable_triples ixs).
Proof.
  induction ixs as [| | |a b c rest IH] using list_ind3; try reflexivity.
  rewrite write_indices_cons3. cbn [packable_triples].
  destruct ((a <? 65536) && (b <? 65536) && (c <? 65536))%N; [|reflexivity].
  cbn [fst flat_map]. now rewrite IH, <- ?app_assoc.
Qed.

Lemma write_vertices_ok vs :
  len vs mod 3 = 0 -> Forall (fun x => fits_binary32 x = true) vs ->
  write_vertices vs = (flat_map float32_bytes vs, inr tt).
Proof.
  induction vs as [|x|x y|x y z rest IH] using list_ind3;
    intros Hmod Hfit; try reflexivity; try discriminate.
  rewrite len_cons3_mod in Hmod.
  apply Forall_cons in Hfit as [Hx Hfit].
  apply Forall_cons in Hfit as [Hy Hfit].
  apply Forall_cons in Hfit as [Hz Hfit].
  rewrite write_vertices_cons3, Hx, Hy, Hz, (IH Hmod Hfit).
  cbn. now rewrite <- ?app_assoc.
Qed.

Lemma write_indices_ok ixs :
  len ixs mod 3 = 0 -> Forall (fun i => (i < 65536)%N) ixs ->
  write_indices ixs = (flat_map uint16_bytes ixs, inr tt).
Proof.
  induction ixs as [|a|a b|a b c rest IH] using list_ind3;
    intros Hmod Hfit; try reflexivity; try discriminate.
  rewrite len_cons3_mod in Hmod.
  apply Forall_cons in Hfit as [Ha Hfit].
  apply Forall_cons in Hfit as [Hb Hfit].
  apply Forall_cons in Hfit as [Hc Hfit].
  rewrite write_indices_cons3, (IH Hmod Hfit).
  apply N.ltb_lt in Ha, Hb, Hc. rewrite Ha, Hb, Hc.
  cbn. now rewrite <- ?app_assoc.
Qed.

Lemma write_uvs_ok uvs :
  len uvs mod 2 = 0 -> Forall (fun x => fits_binary32 x = true) uvs ->
  write_uvs uvs = (flat_map float32_bytes uvs, inr tt).
Proof.
  induction uvs as [|u|u v rest IH] using list_ind2;
    intros Hmod Hfit; try reflexivity; try discriminate.
  rewrite len_cons2_mod in Hmod.
  apply Forall_cons in Hfit as [Hu Hfit].
  apply Forall_cons in Hfit as [Hv Hfit].
  rewrite write_uvs_cons2, Hu, Hv, (IH Hmod Hfit).
  cbn. now rewrite <- ?app_assoc.
Qed.

Lemma write_vertices_fail vs :
  len vs mod 3 <> 0 -> wr_failed (write_vertices vs).
Proof.
  induction vs as [|x|x y|x y z rest IH] using list_ind3; intros Hmod.
  - now contradiction Hmod.
  - now exists ValueError.
  - now exists ValueError.
  - rewrite len_cons3_mod in Hmod. rewrite write_vertices_cons3.
    destruct (fits_binary32 x && fits_binary32 y && fits_binary32 z);
      [exact (IH Hmod) | now exists OverflowError].
Qed.

Lemma write_indices_fail_length ixs :
  len ixs mod 3 <> 0 -> wr_failed (write_indices ixs).
Proof.
  induction ixs as [|a|a b|a b c rest IH] using list_ind3; intros Hmod.
  - now contradiction Hmod.
  - now exists ValueError.
  - now exists ValueError.
  - rewrite len_cons3_mod in Hmod. rewrite write_indices_cons3.
    destruct ((a <? 65536) && (b <? 65536) && (c <? 65536))%N;
      [exact (IH Hmod) | now exists StructError].
Qed.

Lemma write_indices_fail_range ixs :
  Exists (fun i => (65536 <= i)%N) ixs -> wr_failed (write_indices ixs).
Proof.
  induction ixs as [|a|a b|a b c rest IH] using list_ind3; intros Hbad.
  - now apply Exists_nil in Hbad.
  - now exists ValueError.
  - now exists ValueError.
  - rewrite write_indices_cons3.
    destruct (N.ltb_spec a 65536) as [Ha|Ha]; [|now exists StructError].
    destruct (N.ltb_spec b 65536) as [Hb|Hb]; [|now exists StructError].
    destruct (N.ltb_spec c 65536) as [Hc|Hc]; [|now exists StructError].
    apply IH.
    apply Exists_cons in Hbad as [Hbad|Hbad]; [lia|].
    apply Exists_cons in Hbad as [Hbad|Hbad]; [lia|].
    apply Exists_cons in Hbad as [Hbad|Hbad]; [lia|exact Hbad].
Qed.

(** With whole triangles, the only failure of the index loop is the
    [struct.error] of an index that does not fit. *)
Lemma write_indices_struct_error ixs :
  len ixs mod 3 = 0 -> Exists (fun i => (65536 <= i)%N) ixs ->
  snd (write_indices ixs) = inl StructError.
Proof.
  induction ixs as [|a|a b|a b c rest IH] using list_ind3; intros Hmod Hbad.
  - now apply Exists_nil in Hbad.
  - discriminate.
  - discriminate.
  - rewrite len_cons3_mod in Hmod. rewrite write_indices_cons3.
    destruct (N.ltb_spec a 65536) as [Ha|Ha]; [|reflexivity].
    destruct (N.ltb_spec b 65536) as [Hb|Hb]; [|reflexivity].
    destruct (N.ltb_spec c 65536) as [Hc|Hc]; [|reflexivity].
    cbn. apply IH; [exact Hmod|].
    apply Exists_cons in Hbad as [Hbad|Hbad]; [lia|].
    apply Exists_cons in Hbad as [Hbad|Hbad]; [lia|].
    apply Exists_cons in Hbad as [Hbad|Hbad]; [lia|exact Hbad].
Qed.

Lemma packable_triples_in_range ixs :
  Forall (fun i => (i < 65536)%N) (packable_triples ixs).
Proof.
  induction ixs as [| | |a b c rest IH] using list_ind3;
    try apply List.Forall_nil.
  cbn [packable_triples].
  destruct (N.ltb_spec a 65536) as [Ha|Ha]; [|apply List.Forall_nil].
  destruct (N.ltb_spec b 65536) as [Hb|Hb]; [|apply List.Forall_nil].
  destruct (N.ltb_spec c 65536) as [Hc|Hc]; [|apply List.Forall_nil].
  cbn. repeat (apply Forall_cons; split; [assumption|]). exact IH.
Qed.

Lemma packable_triples_prefix ixs : packable_triples ixs `prefix_of` ixs.
Proof.
  induction ixs as [| | |a b c rest IH] using list_ind3;
    try apply prefix_nil.
  cbn [packable_triples].
  destruct ((a <? 65536) && (b <? 65536) && (c <? 65536))%N;
    [|apply prefix_nil].
  now do 3 apply prefix_cons.
Qed.

(** ** The binary mesh container *)

Lemma uv_present_data m :
  uv_present m = match uv_data m with [] => None | l => Some l end.
Proof. unfold uv_present, uv_data. now destruct (uv m) as [[|u rest]|]. Qed.

Lemma div_nonneg_len {A} (l : list A) k : 0 < k -> 0 <= len l / k.
Proof. intros Hk. apply Z.div_pos; [apply len_nonneg | exact Hk]. Qed.

(** A well-formed mesh whose values fit the fields is written completely,
    in the layout of the container. *)
Lemma dcm_body_ok (m : mesh) :
  well_formed_mesh m -> dcm_representable m ->
  dcm_body m = (dcm_layout m, inr tt).
Proof.
  intros (Hv & Hi & Hr & Hu) (Hvc & Hic & Huc & Hvf & Huf).
  unfold dcm_body, dcm_layout.
  rewrite (pack_I_ok (len (vertices m) / 3))
    by (split; [apply div_nonneg_len; lia | exact Hvc]).
  rewrite (pack_I_ok (len (indices m) / 3))
    by (split; [apply div_nonneg_len; lia | exact Hic]).
  rewrite (write_vertices_ok _ Hv Hvf), (write_indices_ok _ Hi Hr).
  rewrite uv_present_data.
  destruct (uv_data m) as [|u rest] eqn:Huv.
  - rewrite (pack_I_ok 0) by lia.
    unfold f_write, wr_lift, wr_bind. cbn [fst snd app flat_map].
    change (len [] / 2) with 0. now rewrite app_nil_r.
  - rewrite (pack_I_ok (len (u :: rest) / 2))
      by (split; [apply div_nonneg_len; lia | exact Huc]).
    rewrite (write_uvs_ok _ Hu Huf).
    unfold f_write, wr_lift, wr_bind. now cbn [fst snd app].
Qed.

Lemma len_dcm_layout (m : mesh) :
  len (dcm_layout m) =
  16 + 4 * len (vertices m) + 2 * len (indices m) + 4 * len (uv_data m).
Proof.
  unfold dcm_layout. rewrite !len_app.
  rewrite !(len_flat_map_const float32_bytes 4)
    by (intros a; unfold len; now rewrite length_float32_bytes).
  rewrite (len_flat_map_const uint16_bytes 2)
    by (intros a; unfold len; now rewrite length_uint16_bytes).
  assert (Hu32 : forall n, len (uint32_bytes n) = 4)
    by (intros n; unfold len; now rewrite length_uint32_bytes).
  rewrite !Hu32. change (len dcm_magic) with 4. lia.
Qed.

Lemma le_value_uint32_bytes n :
  0 <= n < 2 ^ 32 -> le_value (uint32_bytes n) = n.
Proof. intros H. apply le_value_le_bytes. exact H. Qed.

Lemma le_value_uint16_bytes i :
  (i < 65536)%N -> le_value (uint16_bytes i) = Z.of_N i.
Proof.
  intros H. apply le_value_le_bytes.
  change (256 ^ Z.of_nat 2) with 65536. lia.
Qed.

Lemma with_open_run {T} path (mk : list T -> content) (body : Wr T unit) w :
  with_open path mk body w =
  (snd body, World (<[path := mk (fst body)]> (fs w)) (logs w)).
Proof. reflexivity. Qed.

(** C5, as amended. A well-formed mesh (vertex and index buffers of whole
    triples, every index below 65536, a UV buffer of whole pairs) whose
    counts and coordinates fit the 32-bit fields they are written to is
    encoded, without error, as exactly: magic and version, the 32-bit
    vertex count, the vertices as 32-bit floats in source order, the
    32-bit triangle count, the indices as 16-bit values in source order,
    the 32-bit UV-pair count (present, and 0, when there is no UV data)
    and the UV pairs as 32-bit floats; all fields little-endian. The
    file holds these bytes. The count fields decode to a third of the
    vertex buffer, a third of the index buffer and half the UV buffer,
    and a mesh of one vertex, one triangle and no UV data gives count
    fields 1, 1 and 0 and 34 bytes. *)
Theorem export_dreamcast_mesh_layout
    (m : mesh) (output_path : pystr) (w : world) :
  well_formed_mesh m -> dcm_representable m ->
  dcm_body m =
    (dcm_magic ++
     uint32_bytes (len (vertices m) / 3) ++
     flat_map float32_bytes (vertices m) ++
     uint32_bytes (len (indices m) / 3) ++
     flat_map uint16_bytes (indices m) ++
     uint32_bytes (len (uv_data m) / 2) ++
     flat_map float32_bytes (uv_data m), inr tt) /\
  outcome (export_dreamcast_mesh m output_path) w = inr tt /\
  fs (exec (export_dreamcast_mesh m output_path) w) !! output_path =
    Some (Bytes (dcm_layout m)) /\
  le_value (uint32_bytes (len (vertices m) / 3)) = len (vertices m) / 3 /\
  le_value (uint32_bytes (len (indices m) / 3)) = len (indices m) / 3 /\
  le_value (uint32_bytes (len (uv_data m) / 2)) = len (uv_data m) / 2 /\
  Forall (fun i => le_value (uint16_bytes i) = Z.of_N i) (indices m) /\
  (uv_data m = [] ->
   dcm_layout m =
     dcm_magic ++
     uint32_bytes (len (vertices m) / 3) ++
     flat_map float32_bytes (vertices m) ++
     uint32_bytes (len (indices m) / 3) ++
     flat_map uint16_bytes (indices m) ++ uint32_bytes 0) /\
  len (dcm_layout m) =
    4 + 4 + 4 * len (vertices m) + 4 + 2 * len (indices m) + 4 +
    4 * len (uv_data m) /\
  (len (vertices m) = 3 -> len (indices m) = 3 -> uv_data m = [] ->
   len (vertices m) / 3 = 1 /\ len (indices m) / 3 = 1 /\
   len (uv_data m) / 2 = 0 /\ len (dcm_layout m) = 34).
Proof.
  intros Hwf Hrep.
  pose proof (dcm_body_ok m Hwf Hrep) as Hbody.
  destruct Hwf as (Hv & Hi & Hr & Hu).
  destruct Hrep as (Hvc & Hic & Huc & Hvf & Huf).
  split; [exact Hbody|].
  split; [unfold outcome, export_dreamcast_mesh;
          now rewrite with_open_run, Hbody|].
  split; [unfold exec, export_dreamcast_mesh;
          rewrite with_open_run, Hbody; cbn [snd fs fst];
          apply lookup_insert_eq|].
  split; [apply le_value_uint32_bytes; split;
          [apply div_nonneg_len; lia | exact Hvc]|].
  split; [apply le_value_uint32_bytes; split;
          [apply div_nonneg_len; lia | exact Hic]|].
  split; [apply le_value_uint32_bytes; split;
          [apply div_nonneg_len; lia | exact Huc]|].
  split; [eapply Forall_impl; [exact Hr|];
          intros i Hlt; now apply le_value_uint16_bytes|].
  split; [intros Huv; unfold dcm_layout; rewrite Huv;
          cbn [flat_map]; now rewrite app_nil_r|].
  split; [rewrite len_dcm_layout; lia|].
  intros H3v H3i Huv. rewrite len_dcm_layout, H3v, H3i, Huv.
  repeat split; reflexivity.
Qed.

(** ** Paths *)

Lemma path_join_suffix (a b : pystr) : b `suffix_of` path_join a b.
Proof.
  unfold path_join.
  destruct (starts_with [sep] b); [reflexivity|].
  destruct ((match a with [] => true | _ => false end) || ends_with [sep] a).
  - now exists a.
  - exists (a ++ [sep]). now rewrite <- app_assoc.
Qed.

Lemma suffix_last {A} (l1 l2 : list A) x :
  l1 `suffix_of` l2 -> last l1 = Some x -> last l2 = Some x.
Proof. intros [k ->] Hl. apply last_app_Some. now left. Qed.

(** A file name ends with its extension, whatever the directory. *)
Lemma path_join_ext (dir name ext : pystr) :
  ext `suffix_of` path_join dir (name ++ ext).
Proof.
  transitivity (name ++ ext); [now exists name | apply path_join_suffix].
Qed.

Lemma paths_differ_by_last (p q : pystr) x y :
  last p = Some x -> last q = Some y -> x <> y -> p <> q.
Proof. intros Hp Hq Hne ->. congruence. Qed.

Lemma dcm_obj_paths_differ out name : dcm_path out name <> obj_path out name.
Proof.
  apply (paths_differ_by_last _ _ 109%N 106%N); [| |discriminate].
  - apply (suffix_last (py ".dcm")); [apply path_join_ext | reflexivity].
  - apply (suffix_last (py ".obj")); [apply path_join_ext | reflexivity].
Qed.

(** ** Running [extract_mesh] *)

(** What [extract_mesh] does with a decoded mesh, by how the two
    exports end. *)
Lemma extract_mesh_run (m : mesh) (out : pystr) (w : world) :
  extract_mesh (inr m) out w =
  let name := sanitize_filename (mesh_name m) in
  let with_dcm := <[dcm_path out name := Bytes (fst (dcm_body m))]> (fs w) in
  match snd (dcm_body m) with
  | inl e => (inr tt, World with_dcm (logs w ++ [(ERROR, MsgFailedMesh e)]))
  | inr _ =>
      let with_obj :=
        <[obj_path out name := ObjText (fst (obj_body m))]> with_dcm in
      match snd (obj_body m) with
      | inl e => (inr tt, World with_obj (logs w ++ [(ERROR, MsgFailedMesh e)]))
      | inr _ =>
          (inr tt, World with_obj (logs w ++ [(INFO, MsgExtractedMesh name)]))
      end
  end.
Proof.
  unfold extract_mesh, try_except, bind, lift, os_makedirs, ret,
    export_dreamcast_mesh, export_obj, with_open, store, log,
    dcm_path, obj_path.
  cbn [fs logs].
  destruct (dcm_body m) as [out1 [e1|[]]]; cbn [fst snd fs logs];
    [reflexivity|].
  destruct (obj_body m) as [out2 [e2|[]]]; reflexivity.
Qed.

Lemma extract_mesh_unreadable e (out : pystr) (w : world) :
  extract_mesh (inl e) out w =
  (inr tt, World (fs w) (logs w ++ [(ERROR, MsgFailedMesh e)])).
Proof. reflexivity. Qed.

(** The text export of a well-formed mesh completes. *)
Lemma obj_vertices_ok vs : len vs mod 3 = 0 -> snd (obj_vertices vs) = inr tt.
Proof.
  induction vs as [|x|x y|x y z rest IH] using list_ind3;
    intros Hmod; try reflexivity; try discriminate.
  rewrite len_cons3_mod in Hmod. cbn [obj_vertices].
  unfold wr_bind, f_write.
  destruct (obj_vertices rest) as [o r]. cbn in *. now apply IH.
Qed.

Lemma obj_faces_ok ixs : len ixs mod 3 = 0 -> snd (obj_faces ixs) = inr tt.
Proof.
  induction ixs as [|x|x y|x y z rest IH] using list_ind3;
    intros Hmod; try reflexivity; try discriminate.
  rewrite len_cons3_mod in Hmod. cbn [obj_faces].
  unfold wr_bind, f_write.
  destruct (obj_faces rest) as [o r]. cbn in *. now apply IH.
Qed.

Lemma obj_uvs_ok uvs : len uvs mod 2 = 0 -> snd (obj_uvs uvs) = inr tt.
Proof.
  induction uvs as [|x|x y rest IH] using list_ind2;
    intros Hmod; try reflexivity; try discriminate.
  rewrite len_cons2_mod in Hmod. cbn [obj_uvs].
  unfold wr_bind, f_write.
  destruct (obj_uvs rest) as [o r]. cbn in *. now apply IH.
Qed.

Lemma obj_body_ok (m : mesh) :
  well_formed_mesh m -> snd (obj_body m) = inr tt.
Proof.
  intros (Hv & Hi & _ & Hu). unfold obj_body.
  pose proof (obj_vertices_ok _ Hv) as H1.
  pose proof (obj_faces_ok _ Hi) as H2.
  pose proof (obj_uvs_ok _ Hu) as H3.
  rewrite uv_present_data.
  unfold wr_bind, f_write, wr_ret.
  destruct (obj_vertices (vertices m)) as [o1 r1].
  destruct (obj_faces (indices m)) as [o2 r2].
  cbn in H1, H2. subst r1 r2.
  destruct (uv_data m) as [|u rest]; [reflexivity|].
  destruct (obj_uvs (u :: rest)) as [o3 r3]. cbn in H3. now subst r3.
Qed.

(** ** What a completed encode tells about the mesh *)

Lemma write_vertices_complete vs :
  snd (write_vertices vs) = inr tt ->
  len vs mod 3 = 0 /\ Forall (fun x => fits_binary32 x = true) vs.
Proof.
  induction vs as [|x|x y|x y z rest IH] using list_ind3;
    intros Hok; try discriminate.
  - split; [reflexivity | constructor].
  - rewrite write_vertices_cons3 in Hok. rewrite len_cons3_mod.
    destruct (fits_binary32 x) eqn:Hx; [|discriminate].
    destruct (fits_binary32 y) eqn:Hy; [|discriminate].
    destruct (fits_binary32 z) eqn:Hz; [|discriminate].
    cbn in Hok. destruct (IH Hok) as [Hmod Hfit].
    split; [exact Hmod|]. now repeat constructor.
Qed.

Lemma write_indices_complete ixs :
  snd (write_indices ixs) = inr tt ->
  len ixs mod 3 = 0 /\ Forall (fun i => (i < 65536)%N) ixs.
Proof.
  induction ixs as [|a|a b|a b c rest IH] using list_ind3;
    intros Hok; try discriminate.
  - split; [reflexivity | constructor].
  - rewrite write_indices_cons3 in Hok. rewrite len_cons3_mod.
    destruct (N.ltb_spec a 65536) as [Ha|]; [|discriminate].
    destruct (N.ltb_spec b 65536) as [Hb|]; [|discriminate].
    destruct (N.ltb_spec c 65536) as [Hc|]; [|discriminate].
    cbn in Hok. destruct (IH Hok) as [Hmod Hfit].
    split; [exact Hmod|]. now repeat constructor.
Qed.

Lemma write_uvs_complete uvs :
  snd (write_uvs uvs) = inr tt ->
  len uvs mod 2 = 0 /\ Forall (fun x => fits_binary32 x = true) uvs.
Proof.
  induction uvs as [|u|u v rest IH] using list_ind2;
    intros Hok; try discriminate.
  - split; [reflexivity | constructor].
  - rewrite write_uvs_cons2 in Hok. rewrite len_cons2_mod.
    destruct (fits_binary32 u) eqn:Hu; [|discriminate].
    destruct (fits_binary32 v) eqn:Hv; [|discriminate].
    cbn in Hok. destruct (IH Hok) as [Hmod Hfit].
    split; [exact Hmod|]. now repeat constructor.
Qed.

Lemma pack_I_complete v bs : pack_I v = inr bs -> 0 <= v < 2 ^ 32.
Proof.
  unfold pack_I, pack_uint. change (256 ^ Z.of_nat 4) with (2 ^ 32).
  destruct (Z.leb_spec 0 v); destruct (Z.ltb_spec v (2 ^ 32));
    cbn; intros Hok; try discriminate. lia.
Qed.

Lemma dcm_body_complete (m : mesh) :
  snd (dcm_body m) = inr tt -> well_formed_mesh m /\ dcm_representable m.
Proof.
  unfold dcm_body, well_formed_mesh, dcm_representable.
  rewrite uv_present_data.
  unfold wr_bind, wr_lift, f_write.
  destruct (pack_I (len (vertices m) / 3)) as [e|bv] eqn:Hvc;
    [cbn; discriminate|].
  pose proof (write_vertices_complete (vertices m)) as Hv.
  destruct (write_vertices (vertices m)) as [ov [e|[]]];
    [cbn; discriminate|].
  destruct (pack_I (len (indices m) / 3)) as [e|bi] eqn:Hic;
    [cbn; discriminate|].
  pose proof (write_indices_complete (indices m)) as Hi.
  destruct (write_indices (indices m)) as [oi [e|[]]];
    [cbn; discriminate|].
  destruct (Hv eq_refl) as [Hv1 Hv2]. destruct (Hi eq_refl) as [Hi1 Hi2].
  apply pack_I_complete in Hvc, Hic.
  destruct (uv_data m) as [|u rest] eqn:Huv.
  - intros _. repeat split; try assumption; try lia; try constructor.
    all: try (change (len [] / 2) with 0; lia).
  - destruct (pack_I (len (u :: rest) / 2)) as [e|bu] eqn:Huc;
      [cbn; discriminate|].
    pose proof (write_uvs_complete (u :: rest)) as Hu.
    destruct (write_uvs (u :: rest)) as [ou [e|[]]]; [cbn; discriminate|].
    destruct (Hu eq_refl) as [Hu1 Hu2].
    apply pack_I_complete in Huc.
    intros _. repeat split; try assumption; lia.
Qed.

(** What the vertex loop and the index loop have written when they
    stop: the whole groups before the first group that is incomplete or
    holds a value the field cannot take. *)
Lemma packable_vertices_take vs :
  exists k : nat,
    packable_vertices vs = take (3 * k) vs /\
    (3 * k <= length vs)%nat /\
    Forall (fun x => fits_binary32 x = true) (take (3 * k) vs) /\
    ((length vs < 3 * k + 3)%nat \/
     Exists (fun x => fits_binary32 x = false) (take 3 (drop (3 * k) vs))).
Proof.
  induction vs as [|x|x y|x y z rest IH] using list_ind3;
    try (exists 0%nat; cbn;
         split; [reflexivity|]; split; [lia|];
         split; [constructor | left; lia]).
  cbn [packable_vertices].
  destruct (fits_binary32 x) eqn:Hx;
    [destruct (fits_binary32 y) eqn:Hy;
       [destruct (fits_binary32 z) eqn:Hz|]|]; cbn [andb].
  - destruct IH as (k & Hk & Hle & Hfit & Hnext). exists (S k).
    replace (3 * S k)%nat with (S (S (S (3 * k)))) by lia.
    cbn [take drop length]. rewrite Hk.
    split; [reflexivity|]. split; [lia|].
    split; [now repeat constructor|].
    destruct Hnext as [Hshort|Hbad]; [left; lia | now right].
  - exists 0%nat. cbn [take drop Nat.mul].
    split; [reflexivity|]. split; [cbn; lia|]. split; [constructor|].
    right. do 2 apply List.Exists_cons_tl. now apply List.Exists_cons_hd.
  - exists 0%nat. cbn [take drop Nat.mul].
    split; [reflexivity|]. split; [cbn; lia|]. split; [constructor|].
    right. apply List.Exists_cons_tl. now apply List.Exists_cons_hd.
  - exists 0%nat. cbn [take drop Nat.mul].
    split; [reflexivity|]. split; [cbn; lia|]. split; [constructor|].
    right. now apply List.Exists_cons_hd.
Qed.

Lemma packable_triples_take ixs :
  exists k : nat,
    packable_triples ixs = take (3 * k) ixs /\
    (3 * k <= length ixs)%nat /\
    Forall (fun i => (i < 65536)%N) (take (3 * k) ixs) /\
    ((length ixs < 3 * k + 3)%nat \/
     Exists (fun i => (65536 <= i)%N) (take 3 (drop (3 * k) ixs))).
Proof.
  induction ixs as [|a|a b|a b c rest IH] using list_ind3;
    try (exists 0%nat; cbn;
         split; [reflexivity|]; split; [lia|];
         split; [constructor | left; lia]).
  cbn [packable_triples].
  destruct (N.ltb_spec a 65536) as [Ha|Ha];
    [destruct (N.ltb_spec b 65536) as [Hb|Hb];
       [destruct (N.ltb_spec c 65536) as [Hc|Hc]|]|]; cbn [andb].
  - destruct IH as (k & Hk & Hle & Hfit & Hnext). exists (S k).
    replace (3 * S k)%nat with (S (S (S (3 * k)))) by lia.
    cbn [take drop length]. rewrite Hk.
    split; [reflexivity|]. split; [lia|].
    split; [now repeat constructor|].
    destruct Hnext as [Hshort|Hbad]; [left; lia | now right].
  - exists 0%nat. cbn [take drop Nat.mul].
    split; [reflexivity|]. split; [cbn; lia|]. split; [constructor|].
    right. do 2 apply List.Exists_cons_tl. now apply List.Exists_cons_hd.
  - exists 0%nat. cbn [take drop Nat.mul].
    split; [reflexivity|]. split; [cbn; lia|]. split; [constructor|].
    right. apply List.Exists_cons_tl. now apply List.Exists_cons_hd.
  - exists 0%nat. cbn [take drop Nat.mul].
    split; [reflexivity|]. split; [cbn; lia|]. split; [constructor|].
    right. now apply List.Exists_cons_hd.
Qed.

Lemma write_vertices_failed vs :
  len vs mod 3 <> 0 \/ Exists (fun x => fits_binary32 x = false) vs ->
  wr_failed (write_vertices vs).
Proof.
  intros Hbad. destruct (snd (write_vertices vs)) as [e|[]] eqn:Hs;
    [now exists e|].
  destruct (write_vertices_complete vs Hs) as [Hmod Hfit].
  destruct Hbad as [Hne|Hex]; [contradiction|].
  apply List.Exists_exists in Hex as (x & Hin & Hx).
  rewrite List.Forall_forall in Hfit. specialize (Hfit x Hin). congruence.
Qed.

(** ** A mesh encode that fails *)

Ltac prefix_tac :=
  rewrite ?app_nil_r;
  repeat first
    [ reflexivity
    | apply prefix_nil
    | (apply prefix_app_r; reflexivity)
    | apply prefix_app ].

Lemma pack_I_cases v :
  pack_I v = inr (uint32_bytes v) \/ pack_I v = inl StructError.
Proof.
  unfold pack_I, pack_uint, uint32_bytes.
  destruct ((0 <=? v) && (v <? 256 ^ Z.of_nat 4)); auto.
Qed.

Lemma fst_bind_f_write {T B} (items : list T) (f : unit -> Wr T B) :
  fst (wr_bind (f_write items) f) = items ++ fst (f tt).
Proof. unfold wr_bind, f_write. now destruct (f tt). Qed.

Lemma fst_bind_wr_lift {T A B} (a : A) (f : A -> Wr T B) :
  fst (wr_bind (wr_lift (inr a)) f) = fst (f a).
Proof. unfold wr_bind, wr_lift. now destruct (f a). Qed.

(** The magic and version are always in the file. *)
Lemma dcm_body_magic (m : mesh) : dcm_magic `prefix_of` fst (dcm_body m).
Proof. unfold dcm_body. rewrite fst_bind_f_write. now eexists. Qed.

(** So is the vertex count, when 32 bits can hold it. *)
Lemma dcm_body_vertex_count (m : mesh) :
  len (vertices m) / 3 < 2 ^ 32 ->
  dcm_magic ++ uint32_bytes (len (vertices m) / 3)
    `prefix_of` fst (dcm_body m).
Proof.
  intros Hvc. unfold dcm_body.
  rewrite (pack_I_ok (len (vertices m) / 3))
    by (split; [apply div_nonneg_len; lia | exact Hvc]).
  rewrite fst_bind_f_write, fst_bind_wr_lift, fst_bind_f_write.
  eexists. now rewrite <- app_assoc.
Qed.

Lemma dcm_body_vertices_failed (m : mesh) :
  wr_failed (write_vertices (vertices m)) -> wr_failed (dcm_body m).
Proof.
  intros Hf. unfold dcm_body.
  do 3 (apply wr_failed_bind_r; intros ?).
  now apply wr_failed_bind_l.
Qed.

(** What a complete encode would have written up to the end of the
    index section, cut at the first group of values that a field cannot
    hold. *)
Lemma packable_vertices_prefix vs : packable_vertices vs `prefix_of` vs.
Proof.
  induction vs as [| | |x y z rest IH] using list_ind3;
    try apply prefix_nil.
  cbn [packable_vertices].
  destruct (fits_binary32 x && fits_binary32 y && fits_binary32 z);
    [|apply prefix_nil].
  now do 3 apply prefix_cons.
Qed.

(** When the vertex loop or the index loop fails the encode fails, and
    what has been written stops before the group of values at which the
    loop failed. *)
Lemma dcm_body_loop_failed (m : mesh) :
  wr_failed (write_vertices (vertices m)) \/
  wr_failed (write_indices (indices m)) ->
  wr_failed (dcm_body m) /\
  fst (dcm_body m) `prefix_of`
    dcm_magic ++
    uint32_bytes (len (vertices m) / 3) ++
    flat_map float32_bytes (packable_vertices (vertices m)) ++
    uint32_bytes (len (indices m) / 3) ++
    flat_map uint16_bytes (packable_triples (indices m)).
Proof.
  intros Hf. unfold dcm_body.
  pose proof (fst_write_vertices (vertices m)) as Hfv.
  pose proof (fst_write_indices (indices m)) as Hfi.
  unfold wr_failed in Hf.
  destruct (write_vertices (vertices m)) as [ov rv].
  destruct (write_indices (indices m)) as [oi ri].
  cbn [fst snd] in *. subst ov oi.
  destruct (pack_I_cases (len (vertices m) / 3)) as [-> | ->];
  destruct (pack_I_cases (len (indices m) / 3)) as [-> | ->];
  destruct rv as [ev|[]]; destruct ri as [ei|[]];
  try (exfalso; destruct Hf as [[? ?]|[? ?]]; discriminate);
  unfold wr_bind, wr_lift, f_write; cbn [fst snd app];
  (split; [eexists; reflexivity | prefix_tac]).
Qed.

Lemma dcm_body_indices_failed (m : mesh) :
  wr_failed (write_indices (indices m)) ->
  wr_failed (dcm_body m) /\
  fst (dcm_body m) `prefix_of`
    dcm_magic ++
    uint32_bytes (len (vertices m) / 3) ++
    flat_map float32_bytes (packable_vertices (vertices m)) ++
    uint32_bytes (len (indices m) / 3) ++
    flat_map uint16_bytes (packable_triples (indices m)).
Proof. intros Hf. apply dcm_body_loop_failed. now right. Qed.

(** A failed encode leaves fewer bytes than the complete container
    has. *)
Lemma failed_encode_shorter (m : mesh) written :
  written `prefix_of`
    dcm_magic ++
    uint32_bytes (len (vertices m) / 3) ++
    flat_map float32_bytes (packable_vertices (vertices m)) ++
    uint32_bytes (len (indices m) / 3) ++
    flat_map uint16_bytes (packable_triples (indices m)) ->
  len written < len (dcm_layout m).
Proof.
  intros Hpre. apply prefix_length in Hpre.
  pose proof (prefix_length _ _ (packable_vertices_prefix (vertices m))) as Hv.
  pose proof (prefix_length _ _ (packable_triples_prefix (indices m))) as Hi.
  rewrite len_dcm_layout.
  assert (Hlen : len (dcm_magic ++
    uint32_bytes (len (vertices m) / 3) ++
    flat_map float32_bytes (packable_vertices (vertices m)) ++
    uint32_bytes (len (indices m) / 3) ++
    flat_map uint16_bytes (packable_triples (indices m))) =
    12 + 4 * len (packable_vertices (vertices m)) +
    2 * len (packable_triples (indices m))).
  { rewrite !len_app.
    rewrite (len_flat_map_const float32_bytes 4)
      by (intros a; unfold len; now rewrite length_float32_bytes).
    rewrite (len_flat_map_const uint16_bytes 2)
      by (intros a; unfold len; now rewrite length_uint16_bytes).
    assert (Hu32 : forall n, len (uint32_bytes n) = 4)
      by (intros n; unfold len; now rewrite length_uint32_bytes).
    rewrite !Hu32. change (len dcm_magic) with 4. lia. }
  pose proof (len_nonneg (uv_data m)).
  unfold len in *. lia.
Qed.

(** With the rest of the mesh in order, the encode stops exactly at the
    first triangle holding an index that does not fit, on the
    [struct.error] of that index. *)
Lemma dcm_body_struct_error (m : mesh) :
  len (vertices m) mod 3 = 0 -> len (indices m) mod 3 = 0 ->
  dcm_representable m ->
  Exists (fun i => (65536 <= i)%N) (indices m) ->
  dcm_body m =
    (dcm_magic ++
     uint32_bytes (len (vertices m) / 3) ++
     flat_map float32_bytes (vertices m) ++
     uint32_bytes (len (indices m) / 3) ++
     flat_map uint16_bytes (packable_triples (indices m)),
     inl StructError).
Proof.
  intros Hv Hi (Hvc & Hic & _ & Hvf & _) Hbad. unfold dcm_body.
  rewrite (pack_I_ok (len (vertices m) / 3))
    by (split; [apply div_nonneg_len; lia | exact Hvc]).
  rewrite (pack_I_ok (len (indices m) / 3))
    by (split; [apply div_nonneg_len; lia | exact Hic]).
  rewrite (write_vertices_ok _ Hv Hvf).
  pose proof (fst_write_indices (indices m)) as Hfi.
  pose proof (write_indices_struct_error _ Hi Hbad) as Hsi.
  destruct (write_indices (indices m)) as [oi ri].
  cbn [fst snd] in *. subst oi ri.
  unfold wr_bind, wr_lift, f_write. now cbn [fst snd app].
Qed.

(** C6. A mesh whose index buffer holds a value of 65536 or more is
    never encoded with that value reduced to 16 bits: [struct.pack]
    rejects the value, the encode of the mesh ends with an exception,
    every index written before it is an unreduced value below 65536 of
    the buffer, and [extract_mesh] logs the failure of this one asset
    and returns normally, without the text export or a success record.
    With the rest of the mesh in order the exception is the
    [struct.error] of the index, raised at the first triangle that holds
    such a value. *)
Theorem index_out_of_range_rejected
    (m : mesh) (output_dir : pystr) (w : world) :
  Exists (fun i => (65536 <= i)%N) (indices m) ->
  Forall (fun i => (65536 <= i)%N ->
            pack_H (Z.of_N i) = inl StructError /\
            pack_H (Z.of_N i) <> inr (le_bytes 2 (Z.of_N i mod 65536)))
         (indices m) /\
  (exists e written,
     dcm_body m = (written, inl e) /\
     written `prefix_of`
       dcm_magic ++
       uint32_bytes (len (vertices m) / 3) ++
       flat_map float32_bytes (packable_vertices (vertices m)) ++
       uint32_bytes (len (indices m) / 3) ++
       flat_map uint16_bytes (packable_triples (indices m)) /\
     packable_triples (indices m) `prefix_of` indices m /\
     packable_triples (indices m) <> indices m /\
     Forall (fun i => (i < 65536)%N) (packable_triples (indices m)) /\
     extract_mesh (inr m) output_dir w =
       (inr tt,
        World (<[dcm_path output_dir (sanitize_filename (mesh_name m)) :=
                   Bytes written]> (fs w))
              (logs w ++ [(ERROR, MsgFailedMesh e)]))) /\
  (len (vertices m) mod 3 = 0 -> len (indices m) mod 3 = 0 ->
   dcm_representable m ->
   snd (dcm_body m) = inl StructError).
Proof.
  intros Hbad. split; [|split].
  - apply Forall_forall. intros i _ Hi.
    rewrite (pack_H_fail i Hi). split; [reflexivity | discriminate].
  - destruct (dcm_body_indices_failed m (write_indices_fail_range _ Hbad))
      as [[e He] Hpre].
    exists e, (fst (dcm_body m)).
    split; [destruct (dcm_body m); cbn in *; now subst|].
    split; [exact Hpre|].
    split; [apply packable_triples_prefix|].
    split.
    + intros Heq. pose proof (packable_triples_in_range (indices m)) as Hin.
      rewrite Heq in Hin.
      apply Exists_exists in Hbad as (i & Hi & Hge).
      rewrite Forall_forall in Hin. specialize (Hin i Hi). lia.
    + split; [apply packable_triples_in_range|].
      rewrite extract_mesh_run. cbv zeta. now rewrite He.
  - intros Hv Hi Hrep. now rewrite (dcm_body_struct_error m Hv Hi Hrep Hbad).
Qed.

(** The file of a mesh whose vertex loop stops. *)
Lemma dcm_body_vertices_cut (m : mesh) :
  len (vertices m) / 3 < 2 ^ 32 ->
  wr_failed (write_vertices (vertices m)) ->
  fst (dcm_body m) =
    dcm_magic ++ uint32_bytes (len (vertices m) / 3) ++
    flat_map float32_bytes (packable_vertices (vertices m)).
Proof.
  intros Hvc [e He]. unfold dcm_body.
  rewrite (pack_I_ok (len (vertices m) / 3))
    by (split; [apply div_nonneg_len; lia | exact Hvc]).
  rewrite fst_bind_f_write, fst_bind_wr_lift, fst_bind_f_write.
  rewrite fst_wr_bind, He, fst_write_vertices. reflexivity.
Qed.

(** The file of a mesh whose vertices are written and whose index loop
    stops. *)
Lemma dcm_body_indices_cut (m : mesh) :
  len (vertices m) / 3 < 2 ^ 32 ->
  len (vertices m) mod 3 = 0 ->
  Forall (fun x => fits_binary32 x = true) (vertices m) ->
  len (indices m) / 3 < 2 ^ 32 ->
  wr_failed (write_indices (indices m)) ->
  fst (dcm_body m) =
    dcm_magic ++ uint32_bytes (len (vertices m) / 3) ++
    flat_map float32_bytes (vertices m) ++
    uint32_bytes (len (indices m) / 3) ++
    flat_map uint16_bytes (packable_triples (indices m)).
Proof.
  intros Hvc Hv Hfit Hic [e He]. unfold dcm_body.
  rewrite (pack_I_ok (len (vertices m) / 3))
    by (split; [apply div_nonneg_len; lia | exact Hvc]).
  rewrite (pack_I_ok (len (indices m) / 3))
    by (split; [apply div_nonneg_len; lia | exact Hic]).
  rewrite (write_vertices_ok _ Hv Hfit).
  rewrite fst_bind_f_write, fst_bind_wr_lift, fst_bind_f_write.
  rewrite fst_wr_bind. cbn [fst snd].
  rewrite fst_bind_wr_lift, fst_bind_f_write.
  rewrite fst_wr_bind, He, fst_write_indices. reflexivity.
Qed.

(** C10. The binary mesh encode is not atomic: when the vertex or the
    index buffer of a mesh is not made of whole triples, or an index is
    65536 or more, the output file has been opened and the magic and
    version (and the vertex count, when 32 bits hold it) written before
    the exception is raised; after [extract_mesh] has caught and logged
    the failure, the [.dcm] file is still there with the bytes written so
    far, fewer than the complete container has, and the text export has
    not been attempted. What the file holds is exactly this. When the
    vertex loop stops, at the first vertex that is incomplete or has a
    coordinate a 32-bit float cannot hold: the magic and version, the
    vertex count and the records of the vertices before that one. When
    the vertices are in order and the index loop stops, at the first
    triangle that is incomplete or has an index of 65536 or more: the
    magic and version, the vertex count, every vertex record, the
    triangle count and the records of the triangles before that one. *)
Theorem failed_mesh_encode_leaves_partial_file
    (m : mesh) (output_dir : pystr) (w : world) :
  len (vertices m) mod 3 <> 0 \/ len (indices m) mod 3 <> 0 \/
  Exists (fun i => (65536 <= i)%N) (indices m) ->
  exists e written,
    dcm_body m = (written, inl e) /\
    dcm_magic `prefix_of` written /\
    (len (vertices m) / 3 < 2 ^ 32 ->
     dcm_magic ++ uint32_bytes (len (vertices m) / 3) `prefix_of` written) /\
    len written < len (dcm_layout m) /\
    outcome (export_dreamcast_mesh m
               (dcm_path output_dir (sanitize_filename (mesh_name m)))) w
      = inl e /\
    outcome (extract_mesh (inr m) output_dir) w = inr tt /\
    fs (exec (extract_mesh (inr m) output_dir) w)
      !! dcm_path output_dir (sanitize_filename (mesh_name m))
      = Some (Bytes written) /\
    fs (exec (extract_mesh (inr m) output_dir) w)
      !! obj_path output_dir (sanitize_filename (mesh_name m))
      = fs w !! obj_path output_dir (sanitize_filename (mesh_name m)) /\
    logs (exec (extract_mesh (inr m) output_dir) w)
      = logs w ++ [(ERROR, MsgFailedMesh e)] /\
    (len (vertices m) / 3 < 2 ^ 32 ->
     len (vertices m) mod 3 <> 0 \/
     Exists (fun x => fits_binary32 x = false) (vertices m) ->
     exists k : nat,
       written =
         dcm_magic ++ uint32_bytes (len (vertices m) / 3) ++
         flat_map float32_bytes (take (3 * k) (vertices m)) /\
       (3 * k <= length (vertices m))%nat /\
       Forall (fun x => fits_binary32 x = true) (take (3 * k) (vertices m)) /\
       ((length (vertices m) < 3 * k + 3)%nat \/
        Exists (fun x => fits_binary32 x = false)
          (take 3 (drop (3 * k) (vertices m)))) /\
       len written = 8 + 12 * Z.of_nat k) /\
    (len (vertices m) / 3 < 2 ^ 32 ->
     len (vertices m) mod 3 = 0 ->
     Forall (fun x => fits_binary32 x = true) (vertices m) ->
     len (indices m) / 3 < 2 ^ 32 ->
     exists k : nat,
       written =
         dcm_magic ++ uint32_bytes (len (vertices m) / 3) ++
         flat_map float32_bytes (vertices m) ++
         uint32_bytes (len (indices m) / 3) ++
         flat_map uint16_bytes (take (3 * k) (indices m)) /\
       (3 * k <= length (indices m))%nat /\
       Forall (fun i => (i < 65536)%N) (take (3 * k) (indices m)) /\
       ((length (indices m) < 3 * k + 3)%nat \/
        Exists (fun i => (65536 <= i)%N)
          (take 3 (drop (3 * k) (indices m)))) /\
       len written = 12 + 4 * len (vertices m) + 6 * Z.of_nat k).
Proof.
  intros Hbad.
  assert (Hloop : wr_failed (write_vertices (vertices m)) \/
                  wr_failed (write_indices (indices m))).
  { destruct Hbad as [Hv|[Hi|Hr]].
    - left. now apply write_vertices_fail.
    - right. now apply write_indices_fail_length.
    - right. now apply write_indices_fail_range. }
  destruct (dcm_body_loop_failed m Hloop) as [[e He] Hpre].
  assert (Hf32 : forall l : list pyfloat,
            len (flat_map float32_bytes l) = 4 * len l).
  { intros l. apply len_flat_map_const.
    intros a. unfold len. now rewrite length_float32_bytes. }
  assert (Hu16 : forall l : list N,
            len (flat_map uint16_bytes l) = 2 * len l).
  { intros l. apply len_flat_map_const.
    intros a. unfold len. now rewrite length_uint16_bytes. }
  assert (Hu32 : forall n, len (uint32_bytes n) = 4)
    by (intros n; unfold len; now rewrite length_uint32_bytes).
  exists e, (fst (dcm_body m)).
  split; [destruct (dcm_body m); cbn in *; now subst|].
  split; [apply dcm_body_magic|].
  split; [apply dcm_body_vertex_count|].
  split; [now apply failed_encode_shorter|].
  split; [unfold outcome, export_dreamcast_mesh;
          now rewrite with_open_run|].
  unfold outcome, exec. rewrite extract_mesh_run. cbv zeta. rewrite He.
  cbn [fst snd fs logs].
  split; [reflexivity|].
  split; [apply lookup_insert_eq|].
  split; [apply lookup_insert_ne, dcm_obj_paths_differ|].
  split; [reflexivity|]. split.
  - intros Hvc Hvbad.
    rewrite (dcm_body_vertices_cut m Hvc (write_vertices_failed _ Hvbad)).
    destruct (packable_vertices_take (vertices m))
      as (k & Hk & Hle & Hfit & Hnext).
    exists k. rewrite Hk. split; [reflexivity|]. split; [exact Hle|].
    split; [exact Hfit|]. split; [exact Hnext|].
    rewrite !len_app, Hf32, Hu32. change (len dcm_magic) with 4.
    unfold len. rewrite length_take. lia.
  - intros Hvc Hv Hfit Hic.
    assert (Hibad : wr_failed (write_indices (indices m))).
    { destruct Hbad as [Hne|[Hi|Hr]]; [contradiction| |].
      - now apply write_indices_fail_length.
      - now apply write_indices_fail_range. }
    rewrite (dcm_body_indices_cut m Hvc Hv Hfit Hic Hibad).
    destruct (packable_triples_take (indices m))
      as (k & Hk & Hle & Hok & Hnext).
    exists k. rewrite Hk. split; [reflexivity|]. split; [exact Hle|].
    split; [exact Hok|]. split; [exact Hnext|].
    rewrite !len_app, Hf32, Hu16, !Hu32. change (len dcm_magic) with 4.
    unfold len. rewrite length_take. lia.
Qed.

(** ** File names *)

Lemma str_replace_char (c u : N) (s : pystr) :
  str_replace [c] [u] s = map (fun x => if (c =? x)%N then u else x) s.
Proof.
  unfold str_replace. induction s as [|x s IH]; [reflexivity|].
  cbn [replace_from starts_with length Nat.sub map].
  rewrite IH, andb_true_r. now destruct (c =? x)%N.
Qed.

Lemma fold_replace_chars (cs : list N) (u : N) (s : pystr) :
  fold_left (fun name char => str_replace [char] [u] name) cs s =
  map (fun x => if existsb (N.eqb x) cs then u else x) s.
Proof.
  revert s. induction cs as [|c cs IH]; intros s.
  - cbn. now rewrite map_id.
  - cbn [fold_left existsb]. rewrite IH, str_replace_char, map_map.
    apply map_ext. intros x. rewrite (N.eqb_sym x c).
    destruct (c =? x)%N; cbn [orb]; [|reflexivity].
    now destruct (existsb (N.eqb u) cs).
Qed.

Lemma sanitize_filename_stem (name : pystr) :
  sanitize_filename name = sanitized_stem name.
Proof.
  unfold sanitize_filename, sanitized_stem, is_invalid_char.
  now rewrite fold_replace_chars.
Qed.

Lemma lstrip_spec (s : pystr) :
  (exists l, Forall (fun c => is_space c = true) l /\ s = l ++ lstrip s) /\
  (forall c, head (lstrip s) = Some c -> is_space c = false).
Proof.
  induction s as [|x s [(l & Hl & Hs) Hhead]].
  - split; [now exists [] | intros c; discriminate].
  - cbn [lstrip]. destruct (is_space x) eqn:Hx.
    + split; [|exact Hhead].
      exists (x :: l). split; [now constructor | now rewrite Hs at 1].
    + split; [now exists []|].
      intros c [= <-]. exact Hx.
Qed.

Lemma lstrip_last (s : pystr) c :
  last (lstrip s) = Some c -> last s = Some c.
Proof.
  destruct (lstrip_spec s) as [(l & _ & Hs) _].
  intros Hl. rewrite Hs. apply last_app_Some. now left.
Qed.

Lemma lstrip_suffix (s : pystr) : lstrip s `suffix_of` s.
Proof. destruct (lstrip_spec s) as [(l & _ & Hs) _]. now exists l. Qed.

Lemma head_rev_last {A} (l : list A) : head (rev l) = last l.
Proof.
  induction l as [|x l _] using rev_ind; [reflexivity|].
  now rewrite rev_app_distr, last_snoc.
Qed.

Lemma strip_trimmed (s : pystr) : trimmed s (strip s).
Proof.
  unfold strip, rstrip.
  destruct (lstrip_spec s) as [(l & Hl & Hs) Hhead].
  destruct (lstrip_spec (rev (lstrip s))) as [(r & Hr & Hrs) Hrhead].
  assert (Hmid : lstrip s = rev (lstrip (rev (lstrip s))) ++ rev r).
  { rewrite <- rev_app_distr, <- Hrs. now rewrite rev_involutive. }
  split; [|split].
  - exists l, (rev r). split; [exact Hl|]. split.
    + apply Forall_forall. intros c Hc. rewrite Forall_forall in Hr.
      apply Hr. apply list_elem_of_In, in_rev, list_elem_of_In.
      exact Hc.
    + now rewrite <- Hmid.
  - intros c Hc. destruct (rev (lstrip (rev (lstrip s)))) as [|y t] eqn:Ht;
      [discriminate|].
    apply Hhead. rewrite Hmid. cbn in Hc |- *. exact Hc.
  - intros c Hc. apply Hrhead. now rewrite <- head_rev_last, rev_involutive in Hc.
Qed.

(** After [extract_mesh] the [.dcm] file of the mesh holds what its
    encode wrote, whatever was there before. *)
Lemma extract_mesh_dcm_file (m : mesh) (out : pystr) (w : world) :
  fs (exec (extract_mesh (inr m) out) w)
    !! dcm_path out (sanitize_filename (mesh_name m))
  = Some (Bytes (fst (dcm_body m))).
Proof.
  unfold exec. rewrite extract_mesh_run. cbv zeta.
  destruct (snd (dcm_body m)); [apply lookup_insert_eq|].
  destruct (snd (obj_body m)); cbn [snd fs];
    (rewrite lookup_insert_ne by (apply not_eq_sym, dcm_obj_paths_differ);
     apply lookup_insert_eq).
Qed.

Lemma sanitize_filename_specified (name : pystr) :
  sanitize_filename name = specified_stem name.
Proof. now rewrite sanitize_filename_stem. Qed.

(** C8. The file name stem of an asset is its name with every
    occurrence of the nine characters less-than, greater-than, colon,
    double quote, slash, backslash, bar, question mark and star replaced
    by an underscore, and then leading and trailing whitespace trimmed;
    no other character is changed and none of the nine is left; [a/b:c]
    gives [a_b_c]; tabs, line ends and no-break spaces at the ends are
    dropped while an underscore at an end stays; distinct names can give
    the same stem, and two assets with the same stem are written to the
    same path, where (when the file system takes the file name) the
    content of the second replaces that of the first. *)
Theorem sanitize_filename_spec (name : pystr) :
  sanitize_filename name =
    strip (map (fun c =>
                  if existsb (N.eqb c) [60; 62; 58; 34; 47; 92; 124; 63; 42]%N
                  then 95%N else c) name) /\
  sanitize_filename name = specified_stem name /\
  trimmed (map (fun c => if existsb (N.eqb c) reserved_chars then 95%N else c)
               name)
          (sanitize_filename name) /\
  Forall (fun c => ~ In c reserved_chars) (sanitize_filename name) /\
  sanitize_filename (py "a/b:c") = py "a_b_c" /\
  sanitize_filename [9; 160; 97; 32; 98; 12288; 10]%N = [97; 32; 98]%N /\
  sanitize_filename [47; 97; 8203]%N = [95; 97; 8203]%N /\
  (py "a/b" <> py "a:b" /\
   sanitize_filename (py "a/b") = sanitize_filename (py "a:b")) /\
  forall (m1 m2 : mesh) (output_dir : pystr) (w : world),
    mesh_name m1 = name ->
    sanitize_filename (mesh_name m2) = sanitize_filename name ->
    accepted_file_name (sanitize_filename name ++ py ".dcm") ->
    dcm_path output_dir (sanitize_filename (mesh_name m2)) =
      dcm_path output_dir (sanitize_filename name) /\
    fs (exec (extract_mesh (inr m1) output_dir) w)
      !! dcm_path output_dir (sanitize_filename name)
      = Some (Bytes (fst (dcm_body m1))) /\
    fs (exec (extract_mesh (inr m2) output_dir)
          (exec (extract_mesh (inr m1) output_dir) w))
      !! dcm_path output_dir (sanitize_filename name)
      = Some (Bytes (fst (dcm_body m2))).
Proof.
  split; [apply sanitize_filename_specified|].
  split; [apply sanitize_filename_specified|].
  split; [rewrite sanitize_filename_specified; apply strip_trimmed|].
  split.
  { rewrite sanitize_filename_specified. unfold specified_stem.
    destruct (strip_trimmed
                (map (fun c => if existsb (N.eqb c) reserved_chars
                               then 95%N else c) name))
      as [(l & r & _ & _ & Hs) _].
    apply List.Forall_forall. intros c Hc Hres.
    assert (Hin : In c (map (fun c => if existsb (N.eqb c) reserved_chars
                                      then 95%N else c) name)).
    { rewrite Hs. apply in_or_app. right. apply in_or_app. now left. }
    apply in_map_iff in Hin as (x & Hx & _).
    assert (Hc' : existsb (N.eqb c) reserved_chars = true).
    { apply existsb_exists. exists c. split; [exact Hres | apply N.eqb_refl]. }
    destruct (existsb (N.eqb x) reserved_chars) eqn:Hxr.
    - subst c. discriminate.
    - subst c. congruence. }
  split; [reflexivity|].
  split; [reflexivity|].
  split; [reflexivity|].
  split; [split; [discriminate | reflexivity]|].
  intros m1 m2 out w Hn1 Hn2 _.
  split; [now rewrite Hn2|].
  split; [rewrite <- Hn1; apply extract_mesh_dcm_file|].
  rewrite <- Hn2. apply extract_mesh_dcm_file.
Qed.

(** ** Stems and paths *)

Lemma lstrip_fixed (s : pystr) :
  (forall c, head s = Some c -> is_space c = false) -> lstrip s = s.
Proof.
  destruct s as [|x s]; [reflexivity|].
  intros Hh. cbn [lstrip]. now rewrite (Hh x eq_refl).
Qed.

Lemma rstrip_fixed (s : pystr) :
  (forall c, last s = Some c -> is_space c = false) -> rstrip s = s.
Proof.
  intros Hl. unfold rstrip. rewrite lstrip_fixed; [apply rev_involutive|].
  intros c Hc. apply Hl. now rewrite <- head_rev_last.
Qed.

Lemma strip_fixed (s : pystr) :
  (forall c, head s = Some c -> is_space c = false) ->
  (forall c, last s = Some c -> is_space c = false) ->
  strip s = s.
Proof.
  intros Hh Hl. unfold strip. rewrite (lstrip_fixed s Hh).
  now apply rstrip_fixed.
Qed.

Lemma strip_idempotent (s : pystr) : strip (strip s) = strip s.
Proof.
  destruct (strip_trimmed s) as (_ & Hh & Hl). now apply strip_fixed.
Qed.

Lemma strip_elements (s : pystr) (P : N -> Prop) :
  Forall P s -> Forall P (strip s).
Proof.
  intros Hall. destruct (strip_trimmed s) as ((l & r & _ & _ & Hs) & _).
  rewrite Hs in Hall.
  apply Forall_app in Hall as [_ Hall].
  now apply Forall_app in Hall as [Hall _].
Qed.

Lemma replaced_char_valid (c : N) :
  is_invalid_char (if is_invalid_char c then underscore else c) = false.
Proof. destruct (is_invalid_char c) eqn:Hc; [reflexivity | exact Hc]. Qed.

Lemma sanitized_stem_valid (name : pystr) :
  Forall (fun c => is_invalid_char c = false) (sanitize_filename name).
Proof.
  rewrite sanitize_filename_stem. unfold sanitized_stem.
  apply strip_elements, Forall_map, Forall_forall.
  intros c _. apply replaced_char_valid.
Qed.

Lemma map_valid_fixed (s : pystr) :
  Forall (fun c => is_invalid_char c = false) s ->
  map (fun c => if is_invalid_char c then underscore else c) s = s.
Proof.
  induction 1 as [|c s Hc _ IH]; [reflexivity|].
  cbn [map]. now rewrite Hc, IH.
Qed.

(** ** Where the files go *)

Lemma starts_with_sep (b : pystr) :
  starts_with [sep] b = match b with c :: _ => (sep =? c)%N | [] => false end.
Proof. destruct b as [|c b]; [reflexivity|]. cbn. now rewrite andb_true_r. Qed.

Lemma ends_with_sep_false (a : pystr) (x : N) :
  last a = Some x -> x <> sep -> ends_with [sep] a = false.
Proof.
  intros Hlast Hx. unfold ends_with. rewrite starts_with_sep.
  pose proof (head_rev_last a) as Hh. rewrite Hlast in Hh.
  destruct (rev a) as [|y r]; [reflexivity|].
  cbn in Hh. injection Hh as ->.
  apply N.eqb_neq. now apply not_eq_sym.
Qed.

Lemma path_join_below (a b : pystr) (x : N) :
  last a = Some x -> x <> sep ->
  (forall c, head b = Some c -> c <> sep) ->
  path_join a b = a ++ [sep] ++ b.
Proof.
  intros Hlast Hx Hb. unfold path_join.
  rewrite starts_with_sep, (ends_with_sep_false a x Hlast Hx).
  assert (Hne : (match a with [] => true | _ => false end) = false)
    by (destruct a; [discriminate | reflexivity]).
  rewrite Hne. cbn [orb].
  destruct b as [|c b]; [reflexivity|].
  destruct (N.eqb_spec sep c) as [<-|_]; [|reflexivity].
  now contradiction (Hb sep eq_refl).
Qed.

Lemma basename_after_sep (a b : pystr) :
  existsb (N.eqb sep) b = false -> basename (a ++ sep :: b) = b.
Proof.
  intros Hb. induction a as [|c a IH].
  - cbn [app basename]. rewrite Hb. now rewrite N.eqb_refl.
  - cbn [app basename].
    assert (Hex : existsb (N.eqb sep) (a ++ sep :: b) = true).
    { apply existsb_exists. exists sep. split; [|apply N.eqb_refl].
      apply in_or_app. right. now left. }
    now rewrite Hex.
Qed.

Lemma no_sep_existsb (s : pystr) :
  sep ∉ s -> existsb (N.eqb sep) s = false.
Proof.
  intros Hno. destruct (existsb (N.eqb sep) s) eqn:Hex; [|reflexivity].
  apply existsb_exists in Hex as (c & Hin & Heq).
  apply N.eqb_eq in Heq as <-. now apply list_elem_of_In in Hin.
Qed.

(** A file of a kind directory: its path is the directory, a separator
    and the file name, and its base name is the file name. *)
Lemma kind_path_shape (out kind stem ext : pystr) (x y : N) :
  last kind = Some x -> x <> sep ->
  head ext = Some y -> y <> sep ->
  sep ∉ stem -> existsb (N.eqb sep) ext = false ->
  path_join (path_join out kind) (stem ++ ext) =
    path_join out kind ++ [sep] ++ stem ++ ext /\
  basename (path_join (path_join out kind) (stem ++ ext)) = stem ++ ext.
Proof.
  intros Hk Hx He Hy Hstem Hext.
  assert (Hjoin : path_join (path_join out kind) (stem ++ ext) =
                  path_join out kind ++ [sep] ++ stem ++ ext).
  { apply (path_join_below _ _ x).
    - apply (suffix_last kind); [apply path_join_suffix | exact Hk].
    - exact Hx.
    - intros c Hc Heq. subst c. destruct stem as [|s0 stem].
      + cbn in Hc. rewrite He in Hc. now injection Hc as ->.
      + cbn in Hc. injection Hc as ->. apply Hstem. now left. }
  split; [exact Hjoin|].
  rewrite Hjoin. change ([sep] ++ stem ++ ext) with (sep :: stem ++ ext).
  apply basename_after_sep.
  rewrite existsb_app, Hext, (no_sep_existsb stem Hstem). reflexivity.
Qed.

Lemma sanitized_stem_no_sep (name : pystr) : sep ∉ sanitize_filename name.
Proof.
  intros Hin. pose proof (sanitized_stem_valid name) as Hvalid.
  rewrite Forall_forall in Hvalid. specialize (Hvalid sep Hin). discriminate.
Qed.

Lemma extract_material_run (d : material) (out : pystr) (w : world) :
  extract_material (inr d) out w =
  (inr tt,
   World (<[mat_path out (sanitize_filename (mat_name d)) :=
              Json (json_encodable (md_shader (material_record d)))
                   (material_record d)]> (fs w))
         (logs w ++
          [if json_encodable (md_shader (material_record d))
           then (INFO, MsgExtractedMaterial (sanitize_filename (mat_name d)))
           else (ERROR, MsgFailedMaterial TypeError)])).
Proof.
  unfold extract_material, try_except, bind, lift, os_makedirs, ret, store,
    log, raise, mat_path, material_record.
  cbv beta iota zeta. cbn [fs logs md_shader].
  destruct (json_encodable _); reflexivity.
Qed.


(** ** The driver *)

(** A [try] block whose handler only logs never lets an exception out. *)
Lemma try_except_log_run (body : M unit) (msg : exn -> message) (w : world) :
  try_except body (fun e => log ERROR (msg e)) w =
  match body w with
  | (inl e, w') => (inr tt, World (fs w') (logs w' ++ [(ERROR, msg e)]))
  | (inr _, w') => (inr tt, w')
  end.
Proof.
  unfold try_except, log. destruct (body w) as [[e|[]] w']; reflexivity.
Qed.

Lemma try_except_log_outcome (body : M unit) (msg : exn -> message) w :
  outcome (try_except body (fun e => log ERROR (msg e))) w = inr tt.
Proof.
  unfold outcome. rewrite try_except_log_run.
  destruct (body w) as [[e|[]] w']; reflexivity.
Qed.

Lemma for_each_total {A} (body : A -> M unit) (xs : list A) (w : world) :
  (forall x w', outcome (body x) w' = inr tt) ->
  for_each xs body w = (inr tt, run_each body xs w).
Proof.
  intros Htot. revert w. induction xs as [|x xs IH]; intros w; [reflexivity|].
  cbn [for_each run_each fold_left]. unfold bind.
  specialize (Htot x w). unfold outcome, exec in *.
  destruct (body x w) as [[e|[]] w']; cbn in *; [discriminate|].
  apply IH.
Qed.

Lemma run_each_app {A} (body : A -> M unit) (xs ys : list A) (w : world) :
  run_each body (xs ++ ys) w = run_each body ys (run_each body xs w).
Proof. unfold run_each. apply fold_left_app. Qed.

Lemma run_each_concat {A} (body : A -> M unit) (xss : list (list A)) w :
  (forall x w', outcome (body x) w' = inr tt) ->
  run_each (fun xs => for_each xs body) xss w = run_each body (concat xss) w.
Proof.
  intros Htot.
  revert w. induction xss as [|xs xss IH]; intros w; [reflexivity|].
  cbn [concat]. rewrite run_each_app.
  change (run_each (fun xs => for_each xs body) (xs :: xss) w)
    with (run_each (fun xs => for_each xs body) xss
            (exec (for_each xs body) w)).
  unfold exec at 1. rewrite (for_each_total body xs w Htot). cbn [snd].
  apply IH.
Qed.

Section Driver.

Variable max_size : Z.
Variable command_exists : pystr -> bool.
Variable subprocess_run : list pystr -> M unit.
Variable image_resize : image -> Z * Z -> image.
Variable unitypack_load : pystr -> exn + bundle.
Variable math_log2 : Z -> pyfloat.
Variable dir_exists : pystr -> bool.

#[local] Abbreviation dispatch_ :=
  (dispatch max_size command_exists subprocess_run image_resize math_log2
     dir_exists).
#[local] Abbreviation extract_assets_ :=
  (extract_assets max_size command_exists subprocess_run image_resize
     unitypack_load math_log2 dir_exists).

(** No exception leaves the handling of one object. *)
Lemma dispatch_outcome (output_dir : pystr) (obj : object) (w : world) :
  outcome (dispatch_ output_dir obj) w = inr tt.
Proof.
  destruct obj; cbn [dispatch];
    [unfold extract_texture | unfold extract_audio | unfold extract_mesh
     | unfold extract_material | reflexivity];
    apply try_except_log_outcome.
Qed.

(** A failure to open or parse the bundle is logged and raised again. *)
Lemma extract_assets_fatal (unity_file output_dir : pystr) (w : world) e :
  unitypack_load unity_file = inl e ->
  extract_assets_ unity_file output_dir w =
  (inl e, World (fs w) (logs w ++ [(INFO, MsgOpening unity_file);
                                   (ERROR, MsgFailedProcess e)])).
Proof.
  intros Hload.
  unfold extract_assets, bind, os_makedirs, ret, log, try_except, lift, raise.
  rewrite Hload. cbn [fs logs]. now rewrite <- app_assoc.
Qed.

(** Once the bundle is loaded every object is handled, in order. *)
Lemma extract_assets_loaded (unity_file output_dir : pystr) (w : world) b :
  unitypack_load unity_file = inr b ->
  extract_assets_ unity_file output_dir w =
  (inr tt, run_each (dispatch_ output_dir) (concat b) (opened unity_file w)).
Proof.
  intros Hload.
  assert (Hassets : forall (asset : list object) w',
            outcome (for_each asset (dispatch_ output_dir)) w' = inr tt).
  { intros asset w'. unfold outcome.
    now rewrite (for_each_total _ asset w' (dispatch_outcome output_dir)). }
  unfold extract_assets, bind, os_makedirs, ret, log, try_except, lift.
  rewrite Hload. cbn [fs logs]. fold (opened unity_file w).
  rewrite (for_each_total
             (fun asset => for_each asset (dispatch_ output_dir)) b _ Hassets).
  f_equal. apply (run_each_concat (dispatch_ output_dir)).
  apply dispatch_outcome.
Qed.

End Driver.

(** ** The audio container *)

Lemma raw_wav_paths_differ out name : raw_path out name <> wav_path out name.
Proof.
  apply (paths_differ_by_last _ _ 119%N 118%N); [| |discriminate].
  - apply (suffix_last (py ".raw")); [apply path_join_ext | reflexivity].
  - apply (suffix_last (py ".wav")); [apply path_join_ext | reflexivity].
Qed.

Lemma raw_adx_paths_differ out name : raw_path out name <> adx_path out name.
Proof.
  apply (paths_differ_by_last _ _ 119%N 120%N); [| |discriminate].
  - apply (suffix_last (py ".raw")); [apply path_join_ext | reflexivity].
  - apply (suffix_last (py ".adx")); [apply path_join_ext | reflexivity].
Qed.

Lemma wav_adx_paths_differ out name : wav_path out name <> adx_path out name.
Proof.
  apply (paths_differ_by_last _ _ 118%N 120%N); [| |discriminate].
  - apply (suffix_last (py ".wav")); [apply path_join_ext | reflexivity].
  - apply (suffix_last (py ".adx")); [apply path_join_ext | reflexivity].
Qed.

Lemma wav_header_ok (nchannels framerate n : Z) :
  1 <= nchannels -> nchannels * 2 < 2 ^ 16 ->
  1 <= framerate -> framerate < 2 ^ 32 ->
  nchannels * framerate * 2 < 2 ^ 32 ->
  0 <= n -> 36 + n < 2 ^ 32 ->
  wav_header nchannels framerate n =
  inr (riff_tag ++ le_bytes 4 (36 + n) ++ wave_tag ++ fmt_tag ++
       le_bytes 4 16 ++ le_bytes 2 1 ++ le_bytes 2 nchannels ++
       le_bytes 4 framerate ++ le_bytes 4 (nchannels * framerate * 2) ++
       le_bytes 2 (nchannels * 2) ++ le_bytes 2 16 ++ data_tag ++
       le_bytes 4 n).
Proof.
  intros Hc1 Hc2 Hr1 Hr2 Hbr Hn1 Hn2.
  unfold wav_header, wav_form, pack_I, pack_H.
  rewrite (pack_uint_ok 4 (36 + n)) by (change (256 ^ Z.of_nat 4) with (2 ^ 32); lia).
  rewrite (pack_uint_ok 4 16) by (change (256 ^ Z.of_nat 4) with (2 ^ 32); lia).
  rewrite (pack_uint_ok 2 1) by (change (256 ^ Z.of_nat 2) with (2 ^ 16); lia).
  rewrite (pack_uint_ok 2 nchannels)
    by (change (256 ^ Z.of_nat 2) with (2 ^ 16); lia).
  rewrite (pack_uint_ok 4 framerate)
    by (change (256 ^ Z.of_nat 4) with (2 ^ 32); lia).
  rewrite (pack_uint_ok 4 (nchannels * framerate * 2))
    by (change (256 ^ Z.of_nat 4) with (2 ^ 32); nia).
  rewrite (pack_uint_ok 2 (nchannels * 2))
    by (change (256 ^ Z.of_nat 2) with (2 ^ 16); lia).
  rewrite (pack_uint_ok 2 (2 * 8))
    by (change (256 ^ Z.of_nat 2) with (2 ^ 16); lia).
  rewrite (pack_uint_ok 4 n) by (change (256 ^ Z.of_nat 4) with (2 ^ 32); lia).
  unfold or_else. change (2 * 8) with 16.
  now rewrite <- !app_assoc.
Qed.

(** The [wave] module accepts any buffer: the header gives the number of
    bytes written, whole frames or not. *)
Lemma wave_write_ok (a : audio) :
  wav_representable a ->
  wave_write (channels a) (frequency a) (samples a) =
  (wav_layout (channels a) (frequency a) (samples a), inr tt).
Proof.
  intros (Hc1 & Hc2 & Hr1 & Hr2 & Hbr & Hn).
  unfold wave_write, wav_layout.
  destruct (Z.ltb_spec (channels a) 1); [lia|].
  destruct (Z.leb_spec (frequency a) 0); [lia|].
  pose proof (len_nonneg (samples a)) as Hlen.
  assert (Hframes : 0 <= len (samples a) / (channels a * 2) * (channels a * 2)
                    <= len (samples a)).
  { split.
    - apply Z.mul_nonneg_nonneg; [apply Z.div_pos|]; lia.
    - rewrite Z.mul_comm. apply Z.mul_div_le. lia. }
  rewrite (wav_header_ok _ _ _ Hc1 Hc2 Hr1 Hr2 Hbr (proj1 Hframes))
    by lia.
  rewrite (wav_header_ok _ _ _ Hc1 Hc2 Hr1 Hr2 Hbr Hlen Hn).
  destruct (Z.eqb_spec (len (samples a) / (channels a * 2) * (channels a * 2))
                       (len (samples a))) as [->|_];
    now rewrite <- !app_assoc.
Qed.

(** The only checks are those of the setters of the [wave] module. *)
Lemma wave_write_bad_metadata (nchannels framerate : Z) (data : list byte) :
  nchannels < 1 \/ framerate <= 0 ->
  wave_write nchannels framerate data = ([], inl WaveError).
Proof.
  intros Hbad. unfold wave_write.
  destruct (Z.ltb_spec nchannels 1); [reflexivity|].
  destruct (Z.leb_spec framerate 0); [reflexivity|lia].
Qed.

Section AudioEncoder.

Variable command_exists : pystr -> bool.
Variable subprocess_run : list pystr -> M unit.

#[local] Abbreviation extract_audio_ :=
  (extract_audio command_exists subprocess_run).

(** What [extract_audio] does with a decoded record when neither
    compressor is installed, by how the [wave] module ends and by
    whether an [.adx] file is already there. *)
Lemma extract_audio_run (a : audio) (out : pystr) (w : world) :
  command_exists (py "adxtool") = false ->
  command_exists (py "sox") = false ->
  extract_audio_ (inr a) out w =
  let name := sanitize_filename (audio_name a) in
  let written := wave_write (channels a) (frequency a) (samples a) in
  let files :=
    <[wav_path out name := Bytes (fst written)]>
      (<[raw_path out name := Bytes (samples a)]> (fs w)) in
  match snd written with
  | inl e => (inr tt, World files (logs w ++ [(ERROR, MsgFailedAudio e)]))
  | inr _ =>
      (inr tt,
       World (match fs w !! adx_path out name with
              | Some _ => delete (wav_path out name)
                            (delete (raw_path out name) files)
              | None => delete (raw_path out name) files
              end)
             (logs w ++ [(WARNING, MsgNoAdpcmConverter);
                         (INFO, MsgExtractedAudio name)]))
  end.
Proof.
  intros Hadx Hsox. cbv zeta.
  pose proof (raw_wav_paths_differ out (sanitize_filename (audio_name a)))
    as Hrw.
  pose proof (raw_adx_paths_differ out (sanitize_filename (audio_name a)))
    as Hra.
  pose proof (wav_adx_paths_differ out (sanitize_filename (audio_name a)))
    as Hwa.
  unfold raw_path, wav_path, adx_path in *.
  unfold extract_audio, raw_to_wav, convert_to_adpcm.
  rewrite Hadx, Hsox.
  unfold try_except, bind, lift, os_makedirs, ret, store, read_bytes,
    with_open, os_remove, os_path_exists, log.
  unfold bind, store, lift.
  cbv beta iota zeta. cbn [fs logs].
  rewrite lookup_insert_eq. cbv beta iota. cbn [fs logs].
  destruct (wave_write (channels a) (frequency a) (samples a))
    as [bytes [e|[]]]; cbn [fst snd fs logs]; [reflexivity|].
  rewrite lookup_insert_ne by (apply not_eq_sym, Hrw).
  rewrite lookup_insert_eq. cbv beta iota. cbn [fs logs].
  rewrite lookup_delete_ne by exact Hra.
  rewrite lookup_insert_ne by exact Hwa.
  rewrite lookup_insert_ne by exact Hra.
  destruct (fs w !! _) as [c|] eqn:Hstale.
  - rewrite bool_decide_eq_true_2 by eauto. cbv beta iota. cbn [fs logs].
    rewrite lookup_delete_ne by exact Hrw.
    rewrite lookup_insert_eq. cbv beta iota. cbn [fs logs].
    now rewrite <- app_assoc.
  - rewrite bool_decide_eq_false_2 by apply is_Some_None.
    cbv beta iota. cbn [fs logs]. now rewrite <- app_assoc.
Qed.

Lemma wav_layout_fields (nchannels framerate : Z) (data : list byte) :
  0 <= nchannels < 2 ^ 16 -> 0 <= framerate < 2 ^ 32 ->
  0 <= len data < 2 ^ 32 ->
  le_value (take 2 (drop 22 (wav_layout nchannels framerate data)))
    = nchannels /\
  le_value (take 4 (drop 24 (wav_layout nchannels framerate data)))
    = framerate /\
  le_value (take 4 (drop 40 (wav_layout nchannels framerate data)))
    = len data /\
  drop 44 (wav_layout nchannels framerate data) = data.
Proof.
  intros Hc Hr Hn. unfold wav_layout.
  cbn [app riff_tag wave_tag fmt_tag data_tag le_bytes skipn firstn].
  split; [exact (le_value_le_bytes 2 nchannels Hc)|].
  split; [exact (le_value_le_bytes 4 framerate Hr)|].
  split; [exact (le_value_le_bytes 4 (len data) Hn) | reflexivity].
Qed.

(** The run of [extract_audio] on a record the header can describe, with
    no compressor installed and no [.adx] file in the way. *)
Lemma extract_audio_degraded (a : audio) (out : pystr) (w : world) :
  command_exists (py "adxtool") = false ->
  command_exists (py "sox") = false ->
  wav_representable a ->
  fs w !! adx_path out (sanitize_filename (audio_name a)) = None ->
  extract_audio_ (inr a) out w =
  (inr tt,
   World (delete (raw_path out (sanitize_filename (audio_name a)))
            (<[wav_path out (sanitize_filename (audio_name a)) :=
                 Bytes (wav_layout (channels a) (frequency a) (samples a))]>
               (<[raw_path out (sanitize_filename (audio_name a)) :=
                    Bytes (samples a)]> (fs w))))
         (logs w ++ [(WARNING, MsgNoAdpcmConverter);
                     (INFO, MsgExtractedAudio
                              (sanitize_filename (audio_name a)))])).
Proof.
  intros Hadx Hsox Hrep Hstale.
  rewrite (extract_audio_run a out w Hadx Hsox). cbv zeta.
  now rewrite (wave_write_ok a Hrep), Hstale.
Qed.

Lemma extract_audio_degraded_wav (a : audio) (out : pystr) (w : world) :
  command_exists (py "adxtool") = false ->
  command_exists (py "sox") = false ->
  wav_representable a ->
  fs w !! adx_path out (sanitize_filename (audio_name a)) = None ->
  fs (exec (extract_audio_ (inr a) out) w)
    !! wav_path out (sanitize_filename (audio_name a))
  = Some (Bytes (wav_layout (channels a) (frequency a) (samples a))).
Proof.
  intros Hadx Hsox Hrep Hstale. unfold exec.
  rewrite (extract_audio_degraded a out w Hadx Hsox Hrep Hstale).
  cbn [snd fs].
  rewrite lookup_delete_ne by apply raw_wav_paths_differ.
  apply lookup_insert_eq.
Qed.

(** C7, as amended. When neither [adxtool] nor [sox] is installed, a
    record whose channel count, sample rate and size the WAV header can
    hold, and for which no [.adx] file is already in the output
    directory, still gets its uncompressed PCM container: the [.wav]
    file holds the 44-byte header followed by the samples unchanged, the
    header carries the channel count (offset 22) and the sample rate
    (offset 24) of the source, and the run records a warning and the
    extraction, not a failure. *)
Theorem degraded_audio_keeps_wav
    (a : audio) (output_dir : pystr) (w : world) :
  command_exists (py "adxtool") = false ->
  command_exists (py "sox") = false ->
  wav_representable a ->
  fs w !! adx_path output_dir (sanitize_filename (audio_name a)) = None ->
  let name := sanitize_filename (audio_name a) in
  let w' := exec (extract_audio_ (inr a) output_dir) w in
  let wav := wav_layout (channels a) (frequency a) (samples a) in
  outcome (extract_audio_ (inr a) output_dir) w = inr tt /\
  fs w' !! wav_path output_dir name = Some (Bytes wav) /\
  le_value (take 2 (drop 22 wav)) = channels a /\
  le_value (take 4 (drop 24 wav)) = frequency a /\
  le_value (take 4 (drop 40 wav)) = len (samples a) /\
  drop 44 wav = samples a /\
  logs w' = logs w ++ [(WARNING, MsgNoAdpcmConverter);
                       (INFO, MsgExtractedAudio name)] /\
  fs w' !! adx_path output_dir name = None /\
  fs w' !! raw_path output_dir name = None.
Proof.
  intros Hadx Hsox Hrep Hstale name w' wav.
  pose proof (extract_audio_degraded a output_dir w Hadx Hsox Hrep Hstale)
    as Hrun.
  pose proof Hrep as (Hc1 & Hc2 & Hr1 & Hr2 & Hbr & Hn).
  pose proof (len_nonneg (samples a)) as Hlen.
  destruct (wav_layout_fields (channels a) (frequency a) (samples a))
    as (F1 & F2 & F3 & F4); [lia | lia | lia |].
  split; [unfold outcome; now rewrite Hrun|].
  split; [now apply extract_audio_degraded_wav|].
  split; [exact F1|]. split; [exact F2|]. split; [exact F3|].
  split; [exact F4|].
  subst w'. unfold exec. rewrite Hrun. cbn [snd fs logs].
  split; [reflexivity|]. split.
  - rewrite lookup_delete_ne by apply raw_adx_paths_differ.
    rewrite lookup_insert_ne by apply wav_adx_paths_differ.
    rewrite lookup_insert_ne by apply raw_adx_paths_differ.
    exact Hstale.
  - apply lookup_delete_eq.
Qed.

(** C2, as amended. The sample buffer is not checked: for every record
    whose channel count, sample rate and size the WAV header can hold,
    whatever the buffer (empty, or of a length that is not a multiple of
    the channel count), [raw_to_wav] completes and writes the header
    followed by the buffer unchanged, the data size of the header being
    the number of bytes written; with no compressor installed and no
    [.adx] file in the way, [extract_audio] does not fail on it: it
    returns normally, the [.wav] file is there with these bytes, and the
    log gains the warning and the record of the extraction and no error
    record. The only checks are those of the [wave] module on the
    channel count and the sample rate. *)
Theorem sample_buffer_is_not_validated
    (a : audio) (output_dir : pystr) (w : world) :
  wav_representable a ->
  command_exists (py "adxtool") = false ->
  command_exists (py "sox") = false ->
  fs w !! adx_path output_dir (sanitize_filename (audio_name a)) = None ->
  let name := sanitize_filename (audio_name a) in
  let stored :=
    World (<[raw_path output_dir name := Bytes (samples a)]> (fs w)) (logs w) in
  outcome (raw_to_wav (raw_path output_dir name) (wav_path output_dir name)
             (frequency a) (channels a)) stored = inr tt /\
  fs (exec (raw_to_wav (raw_path output_dir name) (wav_path output_dir name)
              (frequency a) (channels a)) stored)
    !! wav_path output_dir name
    = Some (Bytes (wav_layout (channels a) (frequency a) (samples a))) /\
  le_value (take 4 (drop 40
              (wav_layout (channels a) (frequency a) (samples a))))
    = len (samples a) /\
  drop 44 (wav_layout (channels a) (frequency a) (samples a)) = samples a /\
  outcome (extract_audio_ (inr a) output_dir) w = inr tt /\
  fs (exec (extract_audio_ (inr a) output_dir) w) !! wav_path output_dir name
    = Some (Bytes (wav_layout (channels a) (frequency a) (samples a))) /\
  logs (exec (extract_audio_ (inr a) output_dir) w)
    = logs w ++ [(WARNING, MsgNoAdpcmConverter);
                 (INFO, MsgExtractedAudio name)] /\
  ~ audio_encode_failed output_dir a w
      (exec (extract_audio_ (inr a) output_dir) w) /\
  (forall nchannels framerate data,
     nchannels < 1 \/ framerate <= 0 ->
     wave_write nchannels framerate data = ([], inl WaveError)).
Proof.
  intros Hrep Hadx Hsox Hstale name stored.
  pose proof Hrep as (Hc1 & Hc2 & Hr1 & Hr2 & Hbr & Hn).
  pose proof (len_nonneg (samples a)) as Hlen.
  destruct (wav_layout_fields (channels a) (frequency a) (samples a))
    as (_ & _ & F3 & F4); [lia | lia | lia |].
  assert (Hrun : raw_to_wav (raw_path output_dir name)
                   (wav_path output_dir name) (frequency a) (channels a)
                   stored =
                 (inr tt,
                  World (<[wav_path output_dir name :=
                             Bytes (wav_layout (channels a) (frequency a)
                                      (samples a))]> (fs stored))
                        (logs stored))).
  { unfold raw_to_wav, bind, read_bytes. subst stored. cbn [fs logs].
    rewrite lookup_insert_eq, with_open_run, (wave_write_ok a Hrep).
    reflexivity. }
  split; [unfold outcome; now rewrite Hrun|].
  split; [unfold exec; rewrite Hrun; apply lookup_insert_eq|].
  split; [exact F3|]. split; [exact F4|].
  pose proof (extract_audio_degraded a output_dir w Hadx Hsox Hrep Hstale)
    as Hfull.
  split; [unfold outcome; now rewrite Hfull|].
  split; [now apply extract_audio_degraded_wav|].
  split; [unfold exec; now rewrite Hfull|].
  split; [|intros; now apply wave_write_bad_metadata].
  intros (_ & Hnone & _).
  rewrite (extract_audio_degraded_wav a output_dir w Hadx Hsox Hrep Hstale)
    in Hnone.
  discriminate.
Qed.

End AudioEncoder.

(** C2, counterexample. An empty buffer, and a buffer of one sample for
    three channels, both fail the checks the specification asks for; yet
    with no compressor installed their encode does not fail: each gets
    its [.wav] file, and the log holds the warning and the extraction
    record. *)
Lemma unchecked_buffers_are_encoded :
  buffer_rejected_by_spec silent_audio /\
  buffer_rejected_by_spec ragged_audio /\
  ~ audio_encode_failed (py "out") silent_audio empty_world
      (exec (extract_audio no_command no_subprocess (inr silent_audio)
               (py "out")) empty_world) /\
  ~ audio_encode_failed (py "out") ragged_audio empty_world
      (exec (extract_audio no_command no_subprocess (inr ragged_audio)
               (py "out")) empty_world) /\
  fs (exec (extract_audio no_command no_subprocess (inr silent_audio)
              (py "out")) empty_world) !! py "out/audio/beep.wav" =
    Some (Bytes [ "R"; "I"; "F"; "F"; x24; x00; x00; x00;
                  "W"; "A"; "V"; "E"; "f"; "m"; "t"; " ";
                  x10; x00; x00; x00; x01; x00; x01; x00;
                  x22; x56; x00; x00; x44; xac; x00; x00;
                  x02; x00; x10; x00; "d"; "a"; "t"; "a";
                  x00; x00; x00; x00 ]%byte) /\
  logs (exec (extract_audio no_command no_subprocess (inr silent_audio)
                (py "out")) empty_world) =
    [(WARNING, MsgNoAdpcmConverter); (INFO, MsgExtractedAudio (py "beep"))] /\
  fs (exec (extract_audio no_command no_subprocess (inr ragged_audio)
              (py "out")) empty_world) !! py "out/audio/beep.wav" =
    Some (Bytes (wav_layout 3 22050 [x01; x02])) /\
  logs (exec (extract_audio no_command no_subprocess (inr ragged_audio)
                (py "out")) empty_world) =
    [(WARNING, MsgNoAdpcmConverter); (INFO, MsgExtractedAudio (py "beep"))].
Proof.
  assert (Hs : wav_representable silent_audio)
    by (unfold wav_representable, silent_audio, len; cbn; lia).
  assert (Hr : wav_representable ragged_audio)
    by (unfold wav_representable, ragged_audio, len; cbn; lia).
  pose proof (extract_audio_degraded_wav no_command no_subprocess
                silent_audio (py "out") empty_world eq_refl eq_refl Hs
                (lookup_empty _)) as Hws.
  pose proof (extract_audio_degraded_wav no_command no_subprocess
                ragged_audio (py "out") empty_world eq_refl eq_refl Hr
                (lookup_empty _)) as Hwr.
  split; [now left|].
  split; [right; vm_compute; discriminate|].
  split; [intros (_ & Hnone & _); rewrite Hws in Hnone; discriminate|].
  split; [intros (_ & Hnone & _); rewrite Hwr in Hnone; discriminate|].
  split; [exact Hws|].
  split; [unfold exec;
          now rewrite (extract_audio_degraded no_command no_subprocess
                         silent_audio (py "out") empty_world eq_refl eq_refl
                         Hs (lookup_empty _))|].
  split; [exact Hwr|].
  unfold exec.
  now rewrite (extract_audio_degraded no_command no_subprocess
                 ragged_audio (py "out") empty_world eq_refl eq_refl Hr
                 (lookup_empty _)).
Qed.

(** ** The texture container *)

Lemma Z_of_byte_range (b : byte) : 0 <= Z_of_byte b <= 255.
Proof.
  unfold Z_of_byte. pose proof (Byte.to_N_bounded b). lia.
Qed.

Lemma rgb565_fits_16_bits (r g b : Z) :
  0 <= r <= 255 -> 0 <= g <= 255 -> 0 <= b <= 255 ->
  0 <= rgb565 r g b < 65536.
Proof.
  intros Hr Hg Hb.
  assert (Hok : fields_ok (r / 8) (g / 4) (b / 8) = true).
  { apply fields_ok_all;
      (split; [apply Z.div_pos; lia | apply Z.div_lt_upper_bound; lia]). }
  unfold fields_ok in Hok. cbv zeta in Hok.
  replace (Z.lor (Z.lor (Z.shiftl (r / 8) 11) (Z.shiftl (g / 4) 5)) (b / 8))
    with (rgb565 r g b) in Hok
    by (unfold rgb565; now rewrite !shiftr_channel by lia).
  repeat (apply andb_prop in Hok; destruct Hok as [Hok ?]).
  split; [now apply Z.leb_le | now apply Z.ltb_lt].
Qed.

Lemma wr_for_ok {T A} (f : A -> list T) (body : A -> Wr T unit) (xs : list A) :
  (forall x, body x = (f x, inr tt)) ->
  wr_for xs body = (flat_map f xs, inr tt).
Proof.
  intros Hbody. induction xs as [|x xs IH]; [reflexivity|].
  cbn [wr_for flat_map]. now rewrite Hbody, IH.
Qed.

Lemma write_pixels_ok (img : image) (width height : Z) :
  write_pixels img width height = (packed_pixels img width height, inr tt).
Proof.
  unfold write_pixels, packed_pixels.
  apply wr_for_ok. intros y. apply wr_for_ok. intros x.
  destruct (getpixel img x y) as [[r g] b].
  rewrite (pack_uint_ok 2)
    by (change (256 ^ Z.of_nat 2) with 65536;
        apply rgb565_fits_16_bits; apply Z_of_byte_range).
  unfold wr_bind, wr_lift, f_write. reflexivity.
Qed.

(** An image whose sides fit 16 bits is written completely. *)
Lemma pvr_body_ok (img : image) :
  0 <= fst (img_size img) < 65536 -> 0 <= snd (img_size img) < 65536 ->
  pvr_body img = (pvr_layout img, inr tt).
Proof.
  intros Hw Hh. unfold pvr_body, pvr_layout.
  destruct (img_size img) as [width height]. cbn [fst snd] in *.
  unfold pack_I, pack_H, pack_B.
  rewrite (pack_uint_ok 4 8) by (cbn; lia).
  rewrite (pack_uint_ok 2 width)
    by (change (256 ^ Z.of_nat 2) with 65536; lia).
  rewrite (pack_uint_ok 2 height)
    by (change (256 ^ Z.of_nat 2) with 65536; lia).
  rewrite (pack_uint_ok 1 1) by (cbn; lia).
  rewrite write_pixels_ok.
  unfold wr_bind, wr_lift, f_write. cbn [fst snd app].
  reflexivity.
Qed.

(** ** Changes to the files *)

Lemma lookup_apply_ops (path : pystr) (ops : list fs_op)
    (files : gmap (list N) content) :
  apply_ops ops files !! path =
  match last_change path ops with
  | Some c => c
  | None => files !! path
  end.
Proof.
  revert files. induction ops as [|op ops IH]; intros files; [reflexivity|].
  unfold apply_ops in *. cbn [fold_left last_change]. rewrite IH.
  destruct (last_change path ops) as [c|]; [reflexivity|].
  destruct op as [p c|p]; cbn [apply_op]; destruct (decide (p = path)) as [->|Hne].
  - apply lookup_insert_eq.
  - now apply lookup_insert_ne.
  - apply lookup_delete_eq.
  - now apply lookup_delete_ne.
Qed.

(** Making the same changes a second time changes nothing. *)
Lemma apply_ops_idempotent (ops : list fs_op) (files : gmap (list N) content) :
  apply_ops ops (apply_ops ops files) = apply_ops ops files.
Proof.
  apply map_eq. intros path. rewrite !lookup_apply_ops.
  now destruct (last_change path ops).
Qed.

Lemma lookup_insert_insert_is_Some (p q : pystr) (c d : content)
    (m : gmap (list N) content) :
  exists v, <[p := c]> (<[q := d]> m) !! q = Some v.
Proof.
  destruct (decide (p = q)) as [->|Hne].
  - exists c. apply lookup_insert_eq.
  - exists d. rewrite lookup_insert_ne by exact Hne. apply lookup_insert_eq.
Qed.

(** ** The paths of the texture files *)

Lemma replace_from_png_suffix (new t : pystr) (k : nat) :
  (k <= length t)%nat ->
  new `suffix_of` replace_from (py ".png") new k (t ++ py ".png").
Proof.
  change (py ".png") with [46; 112; 110; 103]%N.
  revert k. induction t as [|c t IH]; intros k Hk.
  - assert (k = 0%nat) as -> by (cbn in Hk; lia).
    cbn. rewrite app_nil_r. reflexivity.
  - destruct k as [|k].
    + cbn [app replace_from].
      destruct (starts_with [46; 112; 110; 103]%N
                  (c :: t ++ [46; 112; 110; 103]%N)) eqn:Hsw.
      * apply suffix_app_r.
        destruct t as [|a [|b [|d t]]];
          try (cbn in Hsw; rewrite ?andb_false_r in Hsw; discriminate).
        apply IH. cbn. lia.
      * apply suffix_cons_r. apply IH. lia.
    + cbn [app replace_from]. apply IH. cbn in Hk. lia.
Qed.

(** Replacing the extension [.png] of a name gives a name that ends with
    the new extension. *)
Lemma str_replace_png_suffix (new s : pystr) :
  py ".png" `suffix_of` s ->
  new `suffix_of` str_replace (py ".png") new s.
Proof.
  intros [t ->]. apply replace_from_png_suffix. lia.
Qed.

Lemma basename_no_sep (p : pystr) :
  existsb (N.eqb sep) p = false -> basename p = p.
Proof.
  destruct p as [|c p]; [reflexivity|].
  cbn [existsb basename]. intros Hno.
  apply orb_false_elim in Hno as [Hc Hp]. rewrite Hp.
  rewrite N.eqb_sym in Hc. now rewrite Hc.
Qed.

Lemma basename_suffix (ext p : pystr) :
  existsb (N.eqb sep) ext = false ->
  ext `suffix_of` p -> ext `suffix_of` basename p.
Proof.
  intros Hext [t ->]. induction t as [|c t IH].
  - cbn [app]. now rewrite basename_no_sep.
  - cbn [app basename].
    destruct (existsb (N.eqb sep) (t ++ ext)); [exact IH|].
    destruct (c =? sep)%N; [now exists t | now exists (c :: t)].
Qed.

Lemma pvr_input_path_png out name resized :
  py ".png" `suffix_of` pvr_input_path out name resized.
Proof.
  unfold pvr_input_path, png_path. destruct resized.
  - transitivity (py "_resized.png"); [now exists (py "_resized")|].
    apply str_replace_png_suffix, path_join_ext.
  - apply path_join_ext.
Qed.

Lemma pvr_path_pvr out name resized :
  py ".pvr" `suffix_of` pvr_path out name resized.
Proof.
  unfold pvr_path.
  etransitivity; [|apply path_join_suffix].
  apply str_replace_png_suffix, basename_suffix; [reflexivity|].
  apply pvr_input_path_png.
Qed.

Lemma pvr_input_paths_differ out name resized :
  pvr_path out name resized <> pvr_input_path out name resized.
Proof.
  apply (paths_differ_by_last _ _ 114%N 103%N); [| |discriminate].
  - apply (suffix_last (py ".pvr")); [apply pvr_path_pvr | reflexivity].
  - apply (suffix_last (py ".png"));
      [apply pvr_input_path_png | reflexivity].
Qed.

Lemma pvr_info_paths_differ out name resized :
  pvr_path out name resized <> vq_info_path out name.
Proof.
  apply (paths_differ_by_last _ _ 114%N 111%N); [| |discriminate].
  - apply (suffix_last (py ".pvr")); [apply pvr_path_pvr | reflexivity].
  - apply (suffix_last (py ".info")); [|reflexivity].
    unfold vq_info_path. now eexists.
Qed.

(** ** Paths derived by replacing the extension *)

Lemma starts_with_before_sep (old a b : pystr) :
  existsb (N.eqb sep) old = false ->
  old <> [] ->
  starts_with old (a ++ sep :: b) = starts_with old a.
Proof.
  revert a. induction old as [|o os IH]; intros a Hns Hne; [congruence|].
  cbn [existsb] in Hns. apply orb_false_elim in Hns as [Ho Hos].
  destruct a as [|c a]; cbn [app starts_with].
  - rewrite N.eqb_sym in Ho. now rewrite Ho.
  - destruct os as [|o' os'].
    + cbn [starts_with]. reflexivity.
    + rewrite (IH a Hos); [reflexivity | discriminate].
Qed.

(** Replacing in a path whose directory part holds no occurrence
    changes the file name only. *)
Lemma str_replace_file_name (old new dir file : pystr) :
  existsb (N.eqb sep) old = false -> old <> [] ->
  contains old dir = false ->
  str_replace old new (dir ++ sep :: file) =
  dir ++ sep :: str_replace old new file.
Proof.
  intros Hns Hne. unfold str_replace.
  induction dir as [|c dir IH]; intros Hno.
  - pose proof (starts_with_before_sep old [] file Hns Hne) as Hsw.
    cbn [app] in Hsw. cbn [app replace_from]. rewrite Hsw.
    destruct old as [|o os]; [congruence | reflexivity].
  - cbn [contains] in Hno. apply orb_false_elim in Hno as [Hsw Hrest].
    pose proof (starts_with_before_sep old (c :: dir) file Hns Hne) as Hsw'.
    cbn [app] in Hsw'. cbn [app replace_from]. rewrite Hsw', Hsw.
    now rewrite (IH Hrest).
Qed.

Lemma replace_from_no_sep (old new s : pystr) (k : nat) :
  existsb (N.eqb sep) new = false -> existsb (N.eqb sep) s = false ->
  existsb (N.eqb sep) (replace_from old new k s) = false.
Proof.
  intros Hnew. revert k. induction s as [|c s IH]; intros k Hs;
    [reflexivity|].
  cbn [existsb] in Hs. apply orb_false_elim in Hs as [Hc Hs].
  cbn [replace_from]. destruct k as [|k]; [|now apply IH].
  destruct (starts_with old (c :: s)).
  - rewrite existsb_app, Hnew. now apply IH.
  - cbn [existsb]. rewrite Hc. now apply IH.
Qed.

Lemma dir_part_after_sep (dir file : pystr) :
  existsb (N.eqb sep) file = false ->
  dir_part (dir ++ sep :: file) = dir ++ [sep].
Proof.
  intros Hfile. unfold dir_part. rewrite (basename_after_sep dir file Hfile).
  replace (dir ++ sep :: file) with ((dir ++ [sep]) ++ file)
    by (now rewrite <- app_assoc).
  rewrite length_app.
  replace (length (dir ++ [sep]) + length file - length file)%nat
    with (length (dir ++ [sep])) by lia.
  apply take_app_length.
Qed.

(** A path derived from a file by replacing [.png] lies in the
    directory of the file when the directory part holds no [.png]. *)
Lemma replaced_path_beside (new dir file : pystr) :
  existsb (N.eqb sep) new = false ->
  existsb (N.eqb sep) file = false ->
  contains (py ".png") dir = false ->
  str_replace (py ".png") new (dir ++ sep :: file) =
    dir ++ sep :: str_replace (py ".png") new file /\
  existsb (N.eqb sep) (str_replace (py ".png") new file) = false /\
  dir_part (str_replace (py ".png") new (dir ++ sep :: file)) =
    dir_part (dir ++ sep :: file).
Proof.
  intros Hnew Hfile Hdir.
  assert (Hrep : str_replace (py ".png") new (dir ++ sep :: file) =
                 dir ++ sep :: str_replace (py ".png") new file)
    by (apply str_replace_file_name; [reflexivity | discriminate | exact Hdir]).
  assert (Hns : existsb (N.eqb sep) (str_replace (py ".png") new file) = false)
    by (now apply replace_from_no_sep).
  split; [exact Hrep|]. split; [exact Hns|].
  now rewrite Hrep, !dir_part_after_sep.
Qed.

Lemma png_path_shape out name :
  png_path out (sanitize_filename name) =
    path_join out (py "textures") ++ sep :: sanitize_filename name ++ py ".png" /\
  existsb (N.eqb sep) (sanitize_filename name ++ py ".png") = false.
Proof.
  destruct (kind_path_shape out (py "textures") (sanitize_filename name)
              (py ".png") 115%N 46%N eq_refl ltac:(discriminate) eq_refl
              ltac:(discriminate) (sanitized_stem_no_sep _) eq_refl)
    as [Hshape _].
  split; [exact Hshape|].
  rewrite existsb_app, (no_sep_existsb _ (sanitized_stem_no_sep name)).
  reflexivity.
Qed.

(** ** Running [extract_texture] *)

Section TextureEncoder.

Variable max_size : Z.
Variable command_exists : pystr -> bool.
Variable subprocess_run : list pystr -> M unit.
Variable image_resize : image -> Z * Z -> image.
Variable math_log2 : Z -> pyfloat.
Variable dir_exists : pystr -> bool.

#[local] Abbreviation extract_texture_ :=
  (extract_texture max_size command_exists subprocess_run image_resize
     math_log2 dir_exists).

(** The resized copy lies beside the saved image when the path of the
    texture directory holds no [.png]. *)
Lemma resized_copy_creatable out name :
  contains (py ".png") (path_join out (py "textures")) = false ->
  can_create dir_exists (png_path out (sanitize_filename name))
    (pvr_input_path out (sanitize_filename name) true) = true.
Proof.
  intros Hdir. unfold can_create, pvr_input_path.
  destruct (png_path_shape out name) as [Hshape Hfile].
  rewrite Hshape.
  destruct (replaced_path_beside (py "_resized.png")
              (path_join out (py "textures"))
              (sanitize_filename name ++ py ".png") eq_refl Hfile Hdir)
    as (_ & _ & Hsame).
  now rewrite bool_decide_eq_true_2.
Qed.

Lemma extract_texture_run (t : texture) (img : image) (out : pystr) (w : world) :
  command_exists (py "pvr_converter") = false ->
  tex_image t = Some img ->
  extract_texture_ (inr t) out w =
  let name := sanitize_filename (tex_name t) in
  let saved := <[png_path out name := Png img]> (fs w) in
  let logged := logs w ++ [(INFO, MsgExtractedTexture name)] in
  match nearest_power_of_2 math_log2 max_size (img_size img) with
  | inl e => (inr tt, World saved (logged ++ [(ERROR, MsgFailedTexture e)]))
  | inr size =>
      let resized := bool_decide (size <> img_size img) in
      let encoded := if resized then image_resize img size else img in
      let input := pvr_input_path out name resized in
      if resized && negb (can_create dir_exists (png_path out name) input)
      then
        (inr tt,
         World saved
               (logged ++ [(ERROR, MsgFailedTexture FileNotFoundError)]))
      else
      let staged :=
        if resized then <[input := Png encoded]> saved else saved in
      let packed :=
        <[pvr_path out name resized := Bytes (fst (pvr_body encoded))]>
          staged in
      match snd (pvr_body encoded) with
      | inl e =>
          (inr tt, World packed (logged ++ [(ERROR, MsgFailedTexture e)]))
      | inr _ =>
          (inr tt,
           World (<[vq_info_path out name :=
                      Text (py "VQ compressed version of " ++
                            basename (png_path out name) ++ [10%N])]>
                    (if contains (py "resized") input
                     then delete input packed else packed))
                 (logged ++ [(INFO, MsgVqPlaceholder (png_path out name))]))
      end
  end.
Proof.
  intros Htool Himg. cbv zeta.
  unfold pvr_path, pvr_input_path, vq_info_path, png_path.
  unfold extract_texture, try_except, bind, lift.
  cbv beta iota zeta. rewrite Himg.
  unfold convert_to_pvr, convert_to_vq, create_simple_pvr, create_beside.
  rewrite Htool.
  unfold bind, lift, os_makedirs, ret, store, image_open,
    with_open, os_remove, log, raise.
  unfold bind, store, lift.
  cbv beta iota zeta. cbn [fs logs].
  rewrite lookup_insert_eq. cbv beta iota. cbn [fs logs].
  destruct (nearest_power_of_2 math_log2 max_size (img_size img))
    as [e|size]; [reflexivity|].
  destruct (bool_decide (size <> img_size img)) eqn:Hres;
    cbv beta iota; cbn [fs logs andb negb].
  - destruct (can_create dir_exists _ _); cbn [negb];
      [|reflexivity].
    cbv beta iota. cbn [fs logs]. rewrite lookup_insert_eq.
    cbv beta iota. cbn [fs logs].
    destruct (pvr_body (image_resize img size)) as [bytes [e|[]]];
      cbn [fst snd]; [reflexivity|].
    destruct (contains _ _); cbv beta iota; cbn [fs logs];
      [|now rewrite <- app_assoc].
    match goal with
    | |- context [<[?p := ?c]> (<[?q := ?d]> ?m) !! ?q] =>
        destruct (lookup_insert_insert_is_Some p q c d m) as [v ->]
    end.
    cbv beta iota. cbn [fs logs]. now rewrite <- app_assoc.
  - rewrite lookup_insert_eq. cbv beta iota. cbn [fs logs].
    destruct (pvr_body img) as [bytes [e|[]]];
      cbn [fst snd]; [reflexivity|].
    destruct (contains _ _); cbv beta iota; cbn [fs logs];
      [|now rewrite <- app_assoc].
    match goal with
    | |- context [<[?p := ?c]> (<[?q := ?d]> ?m) !! ?q] =>
        destruct (lookup_insert_insert_is_Some p q c d m) as [v ->]
    end.
    cbv beta iota. cbn [fs logs]. now rewrite <- app_assoc.
Qed.

Lemma extract_texture_skipped (t : texture) (out : pystr) (w : world) :
  tex_image t = None ->
  extract_texture_ (inr t) out w =
  (inr tt, World (fs w) (logs w ++ [(WARNING, MsgSkippingTexture (tex_name t))])).
Proof.
  intros Himg. unfold extract_texture, try_except, bind, lift.
  cbv beta iota zeta. now rewrite Himg.
Qed.

(** With the fallback encoder, the files a texture leaves are the result
    of changes that depend on the texture alone, not on the files that
    were there. *)
Lemma extract_texture_changes (t : texture) (out : pystr) :
  command_exists (py "pvr_converter") = false ->
  exists ops, forall w,
    fs (exec (extract_texture_ (inr t) out) w) = apply_ops ops (fs w).
Proof.
  intros Htool. unfold exec.
  destruct (tex_image t) as [img|] eqn:Himg.
  - set (name := sanitize_filename (tex_name t)).
    destruct (nearest_power_of_2 math_log2 max_size (img_size img))
      as [e|size] eqn:Hsize.
    { exists [Put (png_path out name) (Png img)]. intros w.
      rewrite (extract_texture_run t img out w Htool Himg). cbv zeta.
      now rewrite Hsize. }
    set (resized := bool_decide (size <> img_size img)).
    set (encoded := if resized then image_resize img size else img).
    set (input := pvr_input_path out name resized).
    destruct (resized && negb (can_create dir_exists (png_path out name) input))
      eqn:Hcut.
    { exists [Put (png_path out name) (Png img)]. intros w.
      rewrite (extract_texture_run t img out w Htool Himg). cbv zeta.
      rewrite Hsize. fold name resized encoded input. now rewrite Hcut. }
    set (stage := if resized then [Put input (Png encoded)] else []).
    set (pack := [Put (pvr_path out name resized)
                      (Bytes (fst (pvr_body encoded)))]).
    assert (Hstage : forall files,
              (if resized then <[input := Png encoded]> files else files) =
              apply_ops stage files)
      by (intros files; subst stage; now destruct resized).
    destruct (snd (pvr_body encoded)) as [e|[]] eqn:Hbody.
    { exists ([Put (png_path out name) (Png img)] ++ stage ++ pack).
      intros w. rewrite (extract_texture_run t img out w Htool Himg).
      cbv zeta. rewrite Hsize. fold name resized encoded input.
      rewrite Hcut, Hbody. cbn [snd fs]. rewrite Hstage.
      unfold apply_ops. now rewrite !fold_left_app. }
    exists ([Put (png_path out name) (Png img)] ++ stage ++ pack ++
            (if contains (py "resized") input then [Remove input] else []) ++
            [Put (vq_info_path out name)
                 (Text (py "VQ compressed version of " ++
                        basename (png_path out name) ++ [10%N]))]).
    intros w. rewrite (extract_texture_run t img out w Htool Himg).
    cbv zeta. rewrite Hsize. fold name resized encoded input.
    rewrite Hcut, Hbody. cbn [snd fs]. rewrite Hstage.
    unfold apply_ops. rewrite !fold_left_app.
    now destruct (contains (py "resized") input).
  - exists []. intros w. now rewrite (extract_texture_skipped t out w Himg).
Qed.

(** Encoding the same texture again leaves every file as the first
    encode left it. *)
Lemma extract_texture_idempotent (t : texture) (out : pystr) (w : world) :
  command_exists (py "pvr_converter") = false ->
  fs (exec (extract_texture_ (inr t) out)
        (exec (extract_texture_ (inr t) out) w)) =
  fs (exec (extract_texture_ (inr t) out) w).
Proof.
  intros Htool. destruct (extract_texture_changes t out Htool) as [ops Hops].
  rewrite !Hops. apply apply_ops_idempotent.
Qed.

Lemma clamped_side_fits (c d : Z) :
  0 < c < 65536 -> 0 <= Z.min (2 ^ Z.log2_up d) c < 65536.
Proof.
  intros Hc.
  pose proof (Z.pow_nonneg 2 (Z.log2_up d) ltac:(lia)). lia.
Qed.

(** What [extract_texture] does with the fallback encoder once the size
    is known, the resized copy can be created and the container is
    written in full. *)
Lemma extract_texture_encoded (t : texture) (img : image) (size : Z * Z)
    (out : pystr) (w : world) :
  command_exists (py "pvr_converter") = false ->
  tex_image t = Some img ->
  nearest_power_of_2 math_log2 max_size (img_size img) = inr size ->
  let name := sanitize_filename (tex_name t) in
  let resized := bool_decide (size <> img_size img) in
  let encoded := if resized then image_resize img size else img in
  let input := pvr_input_path out name resized in
  (resized = true ->
   can_create dir_exists (png_path out name) input = true) ->
  snd (pvr_body encoded) = inr tt ->
  extract_texture_ (inr t) out w =
  (inr tt,
   World (<[vq_info_path out name :=
              Text (py "VQ compressed version of " ++
                    basename (png_path out name) ++ [10%N])]>
            (if contains (py "resized") input
             then delete input
                    (<[pvr_path out name resized :=
                         Bytes (fst (pvr_body encoded))]>
                       (if resized
                        then <[input := Png encoded]>
                               (<[png_path out name := Png img]> (fs w))
                        else <[png_path out name := Png img]> (fs w)))
             else <[pvr_path out name resized :=
                      Bytes (fst (pvr_body encoded))]>
                    (if resized
                     then <[input := Png encoded]>
                            (<[png_path out name := Png img]> (fs w))
                     else <[png_path out name := Png img]> (fs w))))
         (logs w ++ [(INFO, MsgExtractedTexture name);
                     (INFO, MsgVqPlaceholder (png_path out name))])).
Proof.
  intros Htool Himg Hsize name resized encoded input Hcreate Hbody.
  rewrite (extract_texture_run t img out w Htool Himg). cbv zeta.
  rewrite Hsize. fold name resized encoded input.
  assert (Hcut : resized &&
                 negb (can_create dir_exists (png_path out name) input)
                 = false).
  { destruct resized; [|reflexivity]. now rewrite (Hcreate eq_refl). }
  rewrite Hcut, Hbody. now rewrite <- app_assoc.
Qed.

(** The container of a texture that has been encoded with the fallback
    encoder. *)
Lemma extract_texture_pvr_file (t : texture) (img : image) (size : Z * Z)
    (out : pystr) (w : world) :
  command_exists (py "pvr_converter") = false ->
  tex_image t = Some img ->
  nearest_power_of_2 math_log2 max_size (img_size img) = inr size ->
  let resized := bool_decide (size <> img_size img) in
  let encoded := if resized then image_resize img size else img in
  (resized = true ->
   can_create dir_exists (png_path out (sanitize_filename (tex_name t)))
     (pvr_input_path out (sanitize_filename (tex_name t)) resized) = true) ->
  snd (pvr_body encoded) = inr tt ->
  fs (exec (extract_texture_ (inr t) out) w)
    !! pvr_path out (sanitize_filename (tex_name t)) resized
  = Some (Bytes (fst (pvr_body encoded))).
Proof.
  intros Htool Himg Hsize resized encoded Hcreate Hbody. unfold exec.
  rewrite (extract_texture_encoded t img size out w Htool Himg Hsize
             Hcreate Hbody).
  cbn [snd fs]. fold resized encoded.
  rewrite lookup_insert_ne
    by (apply not_eq_sym, pvr_info_paths_differ).
  destruct (contains _ _).
  - rewrite lookup_delete_ne
      by (apply not_eq_sym, pvr_input_paths_differ).
    apply lookup_insert_eq.
  - apply lookup_insert_eq.
Qed.

(** C9. With the fallback encoder, encoding a texture is deterministic
    and idempotent: a second run on the same texture leaves every file
    exactly as the first run left it, whatever the texture and the
    output directory. For a texture with an image of positive sides, a
    ceiling that fits 16 bits, a resampler that returns an image of the
    size asked for, a logarithm whose ceiling is exact at both sides and
    a texture directory whose path holds no [.png] (so that a resized
    copy is created beside the saved image), both runs leave at the same
    output path the same bytes: the magic, the header size 8, the 16-bit
    width and height of the normalised size, the format and data-type
    tags, two padding bytes, and the packed pixels of the (resized)
    image. *)
Theorem fallback_texture_encoding_idempotent
    (t : texture) (output_dir : pystr) (w : world) :
  command_exists (py "pvr_converter") = false ->
  let run := exec (extract_texture_ (inr t) output_dir) in
  fs (run (run w)) = fs (run w) /\
  forall img,
    tex_image t = Some img ->
    0 < fst (img_size img) -> 0 < snd (img_size img) ->
    0 < max_size < 65536 ->
    (forall i s, img_size (image_resize i s) = s) ->
    log2_ceiling_exact math_log2 (fst (img_size img)) ->
    log2_ceiling_exact math_log2 (snd (img_size img)) ->
    contains (py ".png") (path_join output_dir (py "textures")) = false ->
    exists size,
      nearest_power_of_2 math_log2 max_size (img_size img) = inr size /\
      let resized := bool_decide (size <> img_size img) in
      let encoded := if resized then image_resize img size else img in
      let pvr :=
        pvr_path output_dir (sanitize_filename (tex_name t)) resized in
      img_size encoded = size /\
      fs (run w) !! pvr = Some (Bytes (pvr_layout encoded)) /\
      fs (run (run w)) !! pvr = Some (Bytes (pvr_layout encoded)) /\
      pvr_layout encoded =
        pvr_magic ++ le_bytes 4 8 ++
        le_bytes 2 (fst size) ++ le_bytes 2 (snd size) ++
        [x01; x01; x00; x00] ++
        packed_pixels encoded (fst size) (snd size).
Proof.
  intros Htool run.
  split; [apply extract_texture_idempotent, Htool|].
  intros img Himg Hw Hh Hmax Hresize Hew Heh Hdir.
  pose proof (nearest_power_of_2_value math_log2 max_size
                (fst (img_size img)) (snd (img_size img)) Hw Hh Hew Heh)
    as Hsize.
  rewrite <- surjective_pairing in Hsize.
  set (size := (Z.min (2 ^ Z.log2_up (fst (img_size img))) max_size,
                Z.min (2 ^ Z.log2_up (snd (img_size img))) max_size)) in *.
  exists size. split; [exact Hsize|].
  intros resized encoded pvr.
  assert (Henc : img_size encoded = size).
  { subst encoded resized.
    destruct (bool_decide_reflect (size <> img_size img)) as [Hne|Heq].
    - apply Hresize.
    - destruct (decide (size = img_size img)) as [->|Hne];
        [reflexivity | contradiction]. }
  assert (Hbody : pvr_body encoded = (pvr_layout encoded, inr tt)).
  { apply pvr_body_ok; rewrite Henc; subst size; cbn [fst snd];
      now apply clamped_side_fits. }
  assert (Hfile : forall w0,
            fs (run w0) !! pvr = Some (Bytes (pvr_layout encoded))).
  { intros w0. subst run pvr resized.
    rewrite (extract_texture_pvr_file t img size output_dir w0 Htool Himg
               Hsize);
      fold encoded; try now rewrite Hbody.
    intros ->. now apply resized_copy_creatable. }
  split; [exact Henc|]. split; [apply Hfile|]. split; [apply Hfile|].
  unfold pvr_layout. now rewrite Henc.
Qed.

End TextureEncoder.

(** ** The driver and the outputs *)

Section DriverOutputs.

Variable max_size : Z.
Variable command_exists : pystr -> bool.
Variable subprocess_run : list pystr -> M unit.
Variable image_resize : image -> Z * Z -> image.
Variable unitypack_load : pystr -> exn + bundle.
Variable math_log2 : Z -> pyfloat.
Variable dir_exists : pystr -> bool.

#[local] Abbreviation dispatch_ :=
  (dispatch max_size command_exists subprocess_run image_resize math_log2
     dir_exists).
#[local] Abbreviation extract_assets_ :=
  (extract_assets max_size command_exists subprocess_run image_resize
     unitypack_load math_log2 dir_exists).


End DriverOutputs.

(** C7, counterexample. With no compressor installed, a record with
    70000 channels does not get a WAV container: the header cannot
    count the channels, the [wave] module raises and the asset is
    recorded as failed. And when an [.adx] file of the same name is
    already in the output directory, the [.wav] file that has been
    written is removed again. *)
Lemma degraded_audio_can_lose_wav :
  logs (exec (extract_audio no_command no_subprocess (inr wide_audio)
                (py "out")) empty_world) =
    [(ERROR, MsgFailedAudio StructError)] /\
  fs (exec (extract_audio no_command no_subprocess (inr wide_audio)
              (py "out")) empty_world) !! py "out/audio/wide.wav" =
    Some (Bytes (riff_tag ++ riff_tag)) /\
  fs (exec (extract_audio no_command no_subprocess (inr stereo_audio)
              (py "out")) world_with_adx) !! py "out/audio/step.wav" = None /\
  logs (exec (extract_audio no_command no_subprocess (inr stereo_audio)
                (py "out")) world_with_adx) =
    [(WARNING, MsgNoAdpcmConverter); (INFO, MsgExtractedAudio (py "step"))].
Proof.
  assert (Hwide : wave_write (channels wide_audio) (frequency wide_audio)
                    (samples wide_audio) =
                  (riff_tag ++ riff_tag, inl StructError))
    by (vm_compute; reflexivity).
  assert (Hstale : fs world_with_adx
                     !! adx_path (py "out")
                          (sanitize_filename (audio_name stereo_audio))
                   = Some (Bytes []))
    by (apply lookup_singleton_eq).
  unfold exec.
  rewrite (extract_audio_run no_command no_subprocess wide_audio (py "out")
             empty_world eq_refl eq_refl).
  rewrite (extract_audio_run no_command no_subprocess stereo_audio (py "out")
             world_with_adx eq_refl eq_refl).
  cbv zeta. rewrite Hwide, Hstale.
  rewrite (wave_write_ok stereo_audio)
    by (unfold wav_representable, stereo_audio, len; cbn; lia).
  cbn [fst snd fs logs].
  split; [reflexivity|].
  split; [apply (lookup_insert_eq _ (wav_path (py "out") (py "wide")))|].
  split; [apply (lookup_delete_eq _ (wav_path (py "out") (py "step")))|].
  reflexivity.
Qed.

(** C5, counterexample. A mesh that meets every condition of the contract
    (buffers of whole triples, indices below 65536, no UV data) but has
    a coordinate beyond the range of a 32-bit float is not encoded:
    [struct.pack] raises [OverflowError] once the magic and the vertex
    count are written, and [extract_mesh] records the failure. *)
Lemma oversized_coordinate_is_not_encoded :
  well_formed_mesh far_mesh /\
  dcm_body far_mesh = (dcm_magic ++ uint32_bytes 1, inl OverflowError) /\
  dcm_body far_mesh <> (dcm_layout far_mesh, inr tt) /\
  logs (exec (extract_mesh (inr far_mesh) (py "out")) empty_world) =
    [(ERROR, MsgFailedMesh OverflowError)].
Proof.
  assert (Hbody : dcm_body far_mesh =
                  (dcm_magic ++ uint32_bytes 1, inl OverflowError))
    by (vm_compute; reflexivity).
  split; [unfold well_formed_mesh; repeat split; try reflexivity;
          repeat (apply List.Forall_cons; [reflexivity|]);
          apply List.Forall_nil|].
  split; [exact Hbody|].
  split; [rewrite Hbody; discriminate|].
  unfold exec. rewrite extract_mesh_run. cbv zeta. now rewrite Hbody.
Qed.

(** * The theorems at sample inputs *)

Ltac sample_facts :=
  repeat first
    [ split
    | reflexivity
    | apply List.Forall_nil
    | apply List.Forall_cons
    | apply lookup_empty
    | (vm_compute; reflexivity)
    | (vm_compute; lia) ].

Ltac conj_assumption :=
  repeat match goal with |- _ /\ _ => split end; assumption.

Lemma sample_mesh_well_formed :
  well_formed_mesh sample_mesh /\ dcm_representable sample_mesh.
Proof. unfold well_formed_mesh, dcm_representable. sample_facts. Defined.


Lemma export_dreamcast_mesh_layout_witness :
  well_formed_mesh sample_mesh /\ dcm_representable sample_mesh /\
  dcm_body sample_mesh = (dcm_layout sample_mesh, inr tt) /\
  fs (exec (export_dreamcast_mesh sample_mesh (py "out/models/tri.dcm"))
        empty_world) !! py "out/models/tri.dcm"
    = Some (Bytes (dcm_layout sample_mesh)) /\
  le_value (uint32_bytes (len (vertices sample_mesh) / 3)) = 1 /\
  le_value (uint32_bytes (len (indices sample_mesh) / 3)) = 1 /\
  le_value (uint32_bytes (len (uv_data sample_mesh) / 2)) = 0 /\
  len (dcm_layout sample_mesh) = 34.
Proof.
  destruct sample_mesh_well_formed as [Hwf Hrep].
  destruct (export_dreamcast_mesh_layout sample_mesh
              (py "out/models/tri.dcm") empty_world Hwf Hrep)
    as (H1 & _ & H3 & H4 & H5 & H6 & _ & _ & _ & H10).
  destruct (H10 eq_refl eq_refl eq_refl) as (_ & _ & _ & H34).
  split; [exact Hwf|]. split; [exact Hrep|]. split; [exact H1|].
  split; [exact H3|]. split; [exact H4|]. split; [exact H5|].
  split; [exact H6 | exact H34].
Defined.

Lemma index_out_of_range_rejected_witness :
  Exists (fun i => (65536 <= i)%N) (indices overflowing_mesh) /\
  (exists e written,
     dcm_body overflowing_mesh = (written, inl e) /\
     extract_mesh (inr overflowing_mesh) (py "out") empty_world =
       (inr tt,
        World (<[dcm_path (py "out")
                   (sanitize_filename (mesh_name overflowing_mesh)) :=
                   Bytes written]> (fs empty_world))
              (logs empty_world ++ [(ERROR, MsgFailedMesh e)]))) /\
  snd (dcm_body overflowing_mesh) = inl StructError.
Proof.
  assert (Hbad : Exists (fun i => (65536 <= i)%N) (indices overflowing_mesh)).
  { do 4 apply List.Exists_cons_tl. apply List.Exists_cons_hd.
    vm_compute. discriminate. }
  destruct (index_out_of_range_rejected overflowing_mesh (py "out")
              empty_world Hbad)
    as (_ & (e & written & Hbody & _ & _ & _ & _ & Hrun) & Hkind).
  split; [exact Hbad|].
  split; [exists e, written; split; assumption|].
  apply Hkind; unfold dcm_representable; sample_facts.
Defined.

Lemma failed_mesh_encode_leaves_partial_file_witness :
  len (vertices truncated_mesh) mod 3 <> 0 /\
  exists e written,
    dcm_body truncated_mesh = (written, inl e) /\
    dcm_magic `prefix_of` written /\
    len written < len (dcm_layout truncated_mesh) /\
    fs (exec (extract_mesh (inr truncated_mesh) (py "out")) empty_world)
      !! dcm_path (py "out") (sanitize_filename (mesh_name truncated_mesh))
      = Some (Bytes written) /\
    fs (exec (extract_mesh (inr truncated_mesh) (py "out")) empty_world)
      !! obj_path (py "out") (sanitize_filename (mesh_name truncated_mesh))
      = None /\
    logs (exec (extract_mesh (inr truncated_mesh) (py "out")) empty_world)
      = [(ERROR, MsgFailedMesh e)] /\
    exists k : nat,
      written =
        dcm_magic ++ uint32_bytes (len (vertices truncated_mesh) / 3) ++
        flat_map float32_bytes (take (3 * k) (vertices truncated_mesh)) /\
      len written = 8 + 12 * Z.of_nat k.
Proof.
  assert (Hodd : len (vertices truncated_mesh) mod 3 <> 0)
    by (vm_compute; discriminate).
  destruct (failed_mesh_encode_leaves_partial_file truncated_mesh (py "out")
              empty_world (or_introl Hodd))
    as (e & written & H1 & H2 & _ & H4 & _ & _ & H7 & H8 & H9 & Hcut & _).
  destruct (Hcut ltac:(vm_compute; reflexivity) (or_introl Hodd))
    as (k & Hk & _ & _ & _ & Hlen).
  split; [exact Hodd|].
  exists e, written.
  split; [exact H1|]. split; [exact H2|]. split; [exact H4|].
  split; [exact H7|]. split; [exact H8|]. split; [exact H9|].
  exists k. split; [exact Hk | exact Hlen].
Defined.

Lemma tri_dcm_accepted :
  accepted_file_name (sanitize_filename (py "tri") ++ py ".dcm").
Proof.
  split; [|vm_compute; discriminate].
  repeat (apply List.Forall_cons;
          [split; [reflexivity | intros [Hlo _]; vm_compute in Hlo;
                                 now apply Hlo]|]).
  apply List.Forall_nil.
Defined.

Lemma sanitize_filename_spec_witness :
  sanitize_filename (py " a/b:c ") = specified_stem (py " a/b:c ") /\
  sanitize_filename (mesh_name (Mesh (py "tri ") [] [] None)) =
    sanitize_filename (mesh_name sample_mesh) /\
  accepted_file_name (sanitize_filename (py "tri") ++ py ".dcm") /\
  fs (exec (extract_mesh (inr (Mesh (py "tri ") [] [] None)) (py "out"))
        (exec (extract_mesh (inr sample_mesh) (py "out")) empty_world))
    !! dcm_path (py "out") (sanitize_filename (py "tri"))
    = Some (Bytes (fst (dcm_body (Mesh (py "tri ") [] [] None)))).
Proof.
  destruct (sanitize_filename_spec (py " a/b:c ")) as (_ & H1 & _).
  destruct (sanitize_filename_spec (py "tri"))
    as (_ & _ & _ & _ & _ & _ & _ & _ & Hlast).
  destruct (Hlast sample_mesh (Mesh (py "tri ") [] [] None) (py "out")
              empty_world eq_refl eq_refl tri_dcm_accepted) as (_ & _ & H3).
  split; [exact H1|]. split; [reflexivity|].
  split; [exact tri_dcm_accepted | exact H3].
Defined.


Lemma stereo_audio_representable : wav_representable stereo_audio.
Proof. unfold wav_representable, stereo_audio, len. cbn. lia. Defined.

Lemma degraded_audio_keeps_wav_witness :
  no_command (py "adxtool") = false /\ no_command (py "sox") = false /\
  wav_representable stereo_audio /\
  fs empty_world
    !! adx_path (py "out") (sanitize_filename (audio_name stereo_audio))
    = None /\
  fs (exec (extract_audio no_command no_subprocess (inr stereo_audio)
              (py "out")) empty_world)
    !! wav_path (py "out") (sanitize_filename (audio_name stereo_audio))
    = Some (Bytes (wav_layout 2 44100 (samples stereo_audio))) /\
  le_value (take 2 (drop 22 (wav_layout 2 44100 (samples stereo_audio)))) = 2 /\
  le_value (take 4 (drop 24 (wav_layout 2 44100 (samples stereo_audio))))
    = 44100 /\
  logs (exec (extract_audio no_command no_subprocess (inr stereo_audio)
                (py "out")) empty_world)
    = [(WARNING, MsgNoAdpcmConverter); (INFO, MsgExtractedAudio (py "step"))].
Proof.
  destruct (degraded_audio_keeps_wav no_command no_subprocess stereo_audio
              (py "out") empty_world eq_refl eq_refl
              stereo_audio_representable (lookup_empty _))
    as (_ & Hwav & Hch & Hrate & _ & _ & Hlogs & _).
  split; [reflexivity|]. split; [reflexivity|].
  split; [exact stereo_audio_representable|].
  split; [apply lookup_empty|].
  split; [exact Hwav|]. split; [exact Hch|]. split; [exact Hrate|].
  exact Hlogs.
Defined.

Lemma silent_audio_representable : wav_representable silent_audio.
Proof. unfold wav_representable, silent_audio, len. cbn. lia. Defined.

Lemma sample_buffer_is_not_validated_witness :
  wav_representable silent_audio /\
  no_command (py "adxtool") = false /\ no_command (py "sox") = false /\
  fs empty_world
    !! adx_path (py "out") (sanitize_filename (audio_name silent_audio))
    = None /\
  samples silent_audio = [] /\
  fs (exec (extract_audio no_command no_subprocess (inr silent_audio)
              (py "out")) empty_world)
    !! wav_path (py "out") (sanitize_filename (audio_name silent_audio))
    = Some (Bytes (wav_layout 1 22050 [])) /\
  logs (exec (extract_audio no_command no_subprocess (inr silent_audio)
                (py "out")) empty_world)
    = [(WARNING, MsgNoAdpcmConverter); (INFO, MsgExtractedAudio (py "beep"))] /\
  ~ audio_encode_failed (py "out") silent_audio empty_world
      (exec (extract_audio no_command no_subprocess (inr silent_audio)
               (py "out")) empty_world).
Proof.
  destruct (sample_buffer_is_not_validated no_command no_subprocess
              silent_audio (py "out") empty_world
              silent_audio_representable eq_refl eq_refl (lookup_empty _))
    as (_ & _ & _ & _ & _ & Hwav & Hlogs & Hok & _).
  split; [exact silent_audio_representable|].
  split; [reflexivity|]. split; [reflexivity|].
  split; [apply lookup_empty|]. split; [reflexivity|].
  split; [exact Hwav|]. split; [exact Hlogs | exact Hok].
Defined.

Lemma fallback_texture_encoding_idempotent_witness :
  no_command (py "pvr_converter") = false /\
  tex_image orange_texture = Some orange_image /\
  0 < fst (img_size orange_image) /\ 0 < snd (img_size orange_image) /\
  0 < 512 < 65536 /\
  (forall i s, img_size (crop_resize i s) = s) /\
  log2_ceiling_exact tabulated_log2 (fst (img_size orange_image)) /\
  log2_ceiling_exact tabulated_log2 (snd (img_size orange_image)) /\
  contains (py ".png") (path_join (py "out") (py "textures")) = false /\
  fs (exec (extract_texture 512 no_command no_subprocess crop_resize
              tabulated_log2 no_other_directory (inr orange_texture)
              (py "out"))
        (exec (extract_texture 512 no_command no_subprocess crop_resize
                 tabulated_log2 no_other_directory (inr orange_texture)
                 (py "out")) empty_world)) =
  fs (exec (extract_texture 512 no_command no_subprocess crop_resize
              tabulated_log2 no_other_directory (inr orange_texture)
              (py "out")) empty_world) /\
  fs (exec (extract_texture 512 no_command no_subprocess crop_resize
              tabulated_log2 no_other_directory (inr orange_texture)
              (py "out")) empty_world)
    !! pvr_path (py "out") (sanitize_filename (tex_name orange_texture)) true
    = Some (Bytes (pvr_layout (crop_resize orange_image (4, 2)))).
Proof.
  destruct (fallback_texture_encoding_idempotent 512 no_command no_subprocess
              crop_resize tabulated_log2 no_other_directory orange_texture
              (py "out") empty_world eq_refl)
    as [Hidem Hfile].
  destruct (Hfile orange_image eq_refl ltac:(cbn; lia) ltac:(cbn; lia)
              ltac:(lia) (fun i s => eq_refl) eq_refl eq_refl eq_refl)
    as (size & Hsize & _ & Hfirst & _).
  assert (Heq : size = (4, 2)) by (vm_compute in Hsize; congruence).
  subst size.
  split; [reflexivity|]. split; [reflexivity|].
  split; [cbn; lia|]. split; [cbn; lia|]. split; [lia|].
  split; [reflexivity|]. split; [reflexivity|]. split; [reflexivity|].
  split; [reflexivity|]. split; [exact Hidem | exact Hfirst].
Defined.

(** * Further properties of the converter *)

(** ** File names *)

(** X1. Sanitising is idempotent: a stem that [sanitize_filename]
    returned is returned unchanged when sanitised again. The stem holds
    none of the nine invalid characters (so no path separator), it is
    not longer than the name, and neither its first nor its last
    character is whitespace. *)
Theorem sanitize_filename_idempotent (name : pystr) :
  sanitize_filename (sanitize_filename name) = sanitize_filename name /\
  Forall (fun c => is_invalid_char c = false) (sanitize_filename name) /\
  (sep ∉ sanitize_filename name) /\
  (length (sanitize_filename name) <= length name)%nat /\
  (forall c, head (sanitize_filename name) = Some c -> is_space c = false) /\
  (forall c, last (sanitize_filename name) = Some c -> is_space c = false).
Proof.
  pose proof (sanitized_stem_valid name) as Hvalid.
  split; [|split; [exact Hvalid|split; [|split]]].
  - rewrite (sanitize_filename_stem (sanitize_filename name)).
    unfold sanitized_stem. rewrite (map_valid_fixed _ Hvalid).
    rewrite sanitize_filename_stem. apply strip_idempotent.
  - intros Hin. rewrite Forall_forall in Hvalid.
    specialize (Hvalid sep Hin). discriminate.
  - rewrite sanitize_filename_stem. unfold sanitized_stem.
    destruct (strip_trimmed
                (map (fun c => if is_invalid_char c then underscore else c)
                   name)) as ((l & r & _ & _ & Hs) & _).
    apply (f_equal (@length N)) in Hs.
    rewrite length_map, !length_app in Hs. lia.
  - rewrite sanitize_filename_stem. apply strip_trimmed.
Qed.

(** X2. [extract_mesh] and [extract_material] change no file but their
    own: for a mesh only the [.dcm] and [.obj] files of its stem, for a
    material only the [.json] file of its stem. Whatever the name of the
    asset, each of these files lies directly in the [models] or
    [materials] directory of the output directory: its path is that
    directory, a separator and the stem with its extension, and no
    character of the name acts as a path separator. *)
Theorem mesh_and_material_files_stay_in_place
    (m : mesh) (d : material) (output_dir : pystr) (w : world) (p : pystr) :
  (fs (exec (extract_mesh (inr m) output_dir) w) !! p <> fs w !! p ->
   p = dcm_path output_dir (sanitize_filename (mesh_name m)) \/
   p = obj_path output_dir (sanitize_filename (mesh_name m))) /\
  (fs (exec (extract_material (inr d) output_dir) w) !! p <> fs w !! p ->
   p = mat_path output_dir (sanitize_filename (mat_name d))) /\
  dcm_path output_dir (sanitize_filename (mesh_name m)) =
    path_join output_dir (py "models") ++ [sep] ++
    sanitize_filename (mesh_name m) ++ py ".dcm" /\
  obj_path output_dir (sanitize_filename (mesh_name m)) =
    path_join output_dir (py "models") ++ [sep] ++
    sanitize_filename (mesh_name m) ++ py ".obj" /\
  mat_path output_dir (sanitize_filename (mat_name d)) =
    path_join output_dir (py "materials") ++ [sep] ++
    sanitize_filename (mat_name d) ++ py ".json" /\
  basename (dcm_path output_dir (sanitize_filename (mesh_name m))) =
    sanitize_filename (mesh_name m) ++ py ".dcm" /\
  basename (obj_path output_dir (sanitize_filename (mesh_name m))) =
    sanitize_filename (mesh_name m) ++ py ".obj" /\
  basename (mat_path output_dir (sanitize_filename (mat_name d))) =
    sanitize_filename (mat_name d) ++ py ".json".
Proof.
  destruct (kind_path_shape output_dir (py "models")
              (sanitize_filename (mesh_name m)) (py ".dcm") 115%N 46%N
              eq_refl ltac:(discriminate) eq_refl ltac:(discriminate)
              (sanitized_stem_no_sep _) eq_refl) as [Hd1 Hd2].
  destruct (kind_path_shape output_dir (py "models")
              (sanitize_filename (mesh_name m)) (py ".obj") 115%N 46%N
              eq_refl ltac:(discriminate) eq_refl ltac:(discriminate)
              (sanitized_stem_no_sep _) eq_refl) as [Ho1 Ho2].
  destruct (kind_path_shape output_dir (py "materials")
              (sanitize_filename (mat_name d)) (py ".json") 115%N 46%N
              eq_refl ltac:(discriminate) eq_refl ltac:(discriminate)
              (sanitized_stem_no_sep _) eq_refl) as [Hm1 Hm2].
  split; [|split].
  - intros Hchanged.
    destruct (decide (p = dcm_path output_dir
                            (sanitize_filename (mesh_name m)))) as [|Hnd];
      [now left|].
    destruct (decide (p = obj_path output_dir
                            (sanitize_filename (mesh_name m)))) as [|Hno];
      [now right|].
    exfalso. apply Hchanged. unfold exec. rewrite extract_mesh_run. cbv zeta.
    destruct (snd (dcm_body m)); [|destruct (snd (obj_body m))];
      cbn [snd fs]; now rewrite ?lookup_insert_ne by (apply not_eq_sym; assumption).
  - intros Hchanged.
    destruct (decide (p = mat_path output_dir
                            (sanitize_filename (mat_name d)))) as [|Hnm];
      [assumption|].
    exfalso. apply Hchanged. unfold exec. rewrite extract_material_run.
    cbn [snd fs]. now rewrite lookup_insert_ne by (apply not_eq_sym; assumption).
  - unfold dcm_path, obj_path, mat_path. repeat split; assumption.
Qed.

(** ** The dimension normaliser *)







(** ** When the mesh exports complete *)

(** X4. The binary export of a mesh completes exactly when the mesh is
    well formed (buffers of whole triples and pairs, indices below
    65536) and its counts and coordinates fit the 32-bit fields. When it
    completes, the text export that follows completes as well, so
    [extract_mesh] ends in one of two ways only: both files written in
    full and the extraction recorded, or the failure recorded, a cut
    [.dcm] file and the [.obj] file not touched. An [.obj] file is never
    written beside a [.dcm] file that is not complete. *)
Theorem mesh_exports_complete_together
    (m : mesh) (output_dir : pystr) (w : world) :
  (snd (dcm_body m) = inr tt <-> well_formed_mesh m /\ dcm_representable m) /\
  (snd (dcm_body m) = inr tt -> snd (obj_body m) = inr tt) /\
  ((dcm_body m = (dcm_layout m, inr tt) /\
    snd (obj_body m) = inr tt /\
    exec (extract_mesh (inr m) output_dir) w =
      World (<[obj_path output_dir (sanitize_filename (mesh_name m)) :=
                 ObjText (fst (obj_body m))]>
               (<[dcm_path output_dir (sanitize_filename (mesh_name m)) :=
                    Bytes (dcm_layout m)]> (fs w)))
            (logs w ++
             [(INFO, MsgExtractedMesh (sanitize_filename (mesh_name m)))])) \/
   (exists e,
      snd (dcm_body m) = inl e /\
      exec (extract_mesh (inr m) output_dir) w =
        World (<[dcm_path output_dir (sanitize_filename (mesh_name m)) :=
                   Bytes (fst (dcm_body m))]> (fs w))
              (logs w ++ [(ERROR, MsgFailedMesh e)]))).
Proof.
  assert (Hiff : snd (dcm_body m) = inr tt <->
                 well_formed_mesh m /\ dcm_representable m).
  { split; [apply dcm_body_complete|].
    intros [Hwf Hrep]. now rewrite (dcm_body_ok m Hwf Hrep). }
  assert (Hobj : snd (dcm_body m) = inr tt -> snd (obj_body m) = inr tt).
  { intros Hok. apply obj_body_ok. now apply dcm_body_complete. }
  split; [exact Hiff|]. split; [exact Hobj|].
  unfold exec. rewrite extract_mesh_run. cbv zeta.
  destruct (snd (dcm_body m)) as [e|[]] eqn:Hdcm.
  - right. exists e. split; reflexivity.
  - left. destruct (proj1 Hiff eq_refl) as [Hwf Hrep].
    pose proof (dcm_body_ok m Hwf Hrep) as Hbody.
    rewrite (Hobj eq_refl), Hbody. cbn [fst snd]. repeat split; reflexivity.
Qed.

(** ** Reading the text mesh back *)

Lemma len_cons3_div {A} (x y z : A) l :
  len (x :: y :: z :: l) / 3 = len l / 3 + 1.
Proof.
  rewrite !len_cons. replace (len l + 1 + 1 + 1) with (len l + 1 * 3) by lia.
  now rewrite Z.div_add by lia.
Qed.

Lemma len_cons2_div {A} (x y : A) l : len (x :: y :: l) / 2 = len l / 2 + 1.
Proof.
  rewrite !len_cons. replace (len l + 1 + 1) with (len l + 1 * 2) by lia.
  now rewrite Z.div_add by lia.
Qed.

Lemma obj_read_app l1 l2 :
  obj_read (l1 ++ l2) =
  ((obj_read l1).1.1 ++ (obj_read l2).1.1,
  (obj_read l1).1.2 ++ (obj_read l2).1.2,
  (obj_read l1).2 ++ (obj_read l2).2).
Proof.
  induction l1 as [|l l1 IH]; cbn [app obj_read].
  - now destruct (obj_read l2) as [[? ?] ?].
  - rewrite IH. destruct (obj_read l1) as [[v1 u1] i1].
    destruct (obj_read l2) as [[v2 u2] i2]. now destruct l.
Qed.

Lemma obj_face_indices_app l1 l2 :
  obj_face_indices (l1 ++ l2) = obj_face_indices l1 ++ obj_face_indices l2.
Proof.
  induction l1 as [|l l1 IH]; [reflexivity|].
  destruct l; cbn [app obj_face_indices]; now rewrite IH.
Qed.

Lemma obj_vertices_read vs :
  snd (obj_vertices vs) = inr tt ->
  obj_read (fst (obj_vertices vs)) = (vs, [], []) /\
  obj_face_indices (fst (obj_vertices vs)) = [] /\
  len (fst (obj_vertices vs)) = len vs / 3.
Proof.
  induction vs as [|x|x y|x y z rest IH] using list_ind3;
    intros Hok; try discriminate.
  - now repeat split.
  - cbn [obj_vertices] in *. unfold wr_bind, f_write in *.
    destruct (obj_vertices rest) as [o [e|[]]]; [discriminate|].
    cbn [fst snd app] in *. destruct (IH eq_refl) as (Hr & Hf & Hl).
    cbn [obj_read obj_face_indices]. rewrite Hr, Hf.
    repeat split. rewrite len_cons3_div, len_cons. lia.
Qed.

Lemma obj_uvs_read uvs :
  snd (obj_uvs uvs) = inr tt ->
  obj_read (fst (obj_uvs uvs)) = ([], uvs, []) /\
  obj_face_indices (fst (obj_uvs uvs)) = [] /\
  len (fst (obj_uvs uvs)) = len uvs / 2.
Proof.
  induction uvs as [|u|u v rest IH] using list_ind2;
    intros Hok; try discriminate.
  - now repeat split.
  - cbn [obj_uvs] in *. unfold wr_bind, f_write in *.
    destruct (obj_uvs rest) as [o [e|[]]]; [discriminate|].
    cbn [fst snd app] in *. destruct (IH eq_refl) as (Hr & Hf & Hl).
    cbn [obj_read obj_face_indices]. rewrite Hr, Hf.
    repeat split. rewrite len_cons2_div, len_cons. lia.
Qed.

Lemma obj_faces_read ixs :
  snd (obj_faces ixs) = inr tt ->
  obj_read (fst (obj_faces ixs)) = ([], [], map Z.of_N ixs) /\
  obj_face_indices (fst (obj_faces ixs)) =
    map (fun i => Z.of_N i + 1) ixs /\
  len (fst (obj_faces ixs)) = len ixs / 3.
Proof.
  induction ixs as [|a|a b|a b c rest IH] using list_ind3;
    intros Hok; try discriminate.
  - now repeat split.
  - cbn [obj_faces] in *. unfold wr_bind, f_write in *.
    destruct (obj_faces rest) as [o [e|[]]]; [discriminate|].
    cbn [fst snd app] in *. destruct (IH eq_refl) as (Hr & Hf & Hl).
    cbn [obj_read obj_face_indices map]. rewrite Hr, Hf.
    replace (Z.of_N a + 1 - 1) with (Z.of_N a) by lia.
    replace (Z.of_N b + 1 - 1) with (Z.of_N b) by lia.
    replace (Z.of_N c + 1 - 1) with (Z.of_N c) by lia.
    repeat split. rewrite len_cons3_div, len_cons. lia.
Qed.

(** X5. Whenever the text export of a mesh completes, the lines written
    hold the whole mesh: reading the [v], [vt] and [f] lines back, with
    the face indices shifted down by one, gives the vertex buffer, the UV
    buffer and the index buffer again. The face indices are the buffer's
    indices plus one, hence all at least 1, and there are two comment
    lines, one line per vertex, one per UV pair and one per triangle. *)
Theorem obj_export_reads_back (m : mesh) :
  snd (obj_body m) = inr tt ->
  obj_read (fst (obj_body m)) =
    (vertices m, uv_data m, map Z.of_N (indices m)) /\
  obj_face_indices (fst (obj_body m)) =
    map (fun i => Z.of_N i + 1) (indices m) /\
  Forall (fun i => 1 <= i) (obj_face_indices (fst (obj_body m))) /\
  len (fst (obj_body m)) =
    2 + len (vertices m) / 3 + len (uv_data m) / 2 + len (indices m) / 3.
Proof.
  unfold obj_body. rewrite uv_present_data.
  pose proof (obj_vertices_read (vertices m)) as Hv.
  pose proof (obj_faces_read (indices m)) as Hi.
  assert (Hu : forall uvs,
    snd (match uvs with [] => wr_ret tt | _ => obj_uvs uvs end) = inr tt ->
    obj_read (fst (match uvs with [] => wr_ret tt | _ => obj_uvs uvs end)) =
      ([], uvs, []) /\
    obj_face_indices
      (fst (match uvs with [] => wr_ret tt | _ => obj_uvs uvs end)) = [] /\
    len (fst (match uvs with [] => wr_ret tt | _ => obj_uvs uvs end)) =
      len uvs / 2).
  { intros [|u rest]; [now repeat split | apply obj_uvs_read]. }
  specialize (Hu (uv_data m)).
  destruct (uv_data m) as [|u rest] eqn:Huv.
  all: unfold wr_bind, f_write in *.
  all: destruct (obj_vertices (vertices m)) as [ov [e|[]]];
    [cbn; discriminate|].
  all: destruct (obj_faces (indices m)) as [oi [e|[]]].
  all: try (destruct (obj_uvs (u :: rest)) as [ou [e'|[]]]).
  all: cbn [fst snd wr_ret app] in *; try discriminate.
  all: intros _.
  all: destruct (Hv eq_refl) as (Hv1 & Hv2 & Hv3).
  all: destruct (Hi eq_refl) as (Hi1 & Hi2 & Hi3).
  all: destruct (Hu eq_refl) as (Hu1 & Hu2 & Hu3).
  all: cbn [obj_read obj_face_indices].
  all: rewrite ?obj_read_app, ?obj_face_indices_app, ?Hv1, ?Hi1, ?Hu1,
         ?Hv2, ?Hi2, ?Hu2.
  all: cbn [fst snd app]; rewrite ?app_nil_r.
  all: split; [reflexivity|]; split; [reflexivity|]; split.
  all: try (apply List.Forall_forall; intros i Hin;
            apply in_map_iff in Hin as (n & <- & _); lia).
  all: rewrite !len_cons, !len_app, Hv3, Hi3.
  - replace (len (@nil pyfloat) / 2) with 0 by reflexivity. lia.
  - rewrite Hu3, !len_cons. lia.
Qed.

Lemma obj_export_reads_back_witness :
  snd (obj_body sample_mesh) = inr tt /\
  obj_read (fst (obj_body sample_mesh)) =
    (vertices sample_mesh, uv_data sample_mesh,
     map Z.of_N (indices sample_mesh)).
Proof.
  assert (H : snd (obj_body sample_mesh) = inr tt) by reflexivity.
  split; [exact H|]. exact (proj1 (obj_export_reads_back sample_mesh H)).
Defined.

(** ** What a material file records *)

Lemma material_properties_spec (props : list (pystr * pyvalue)) k v' :
  In (k, v') (material_properties props) <->
  exists v, In (k, v) props /\
    ((is_scalar v = true /\ v' = v) \/
     (exists repr, v = VObject repr /\ v' = VStr repr)).
Proof.
  induction props as [|[k0 v0] rest IH].
  - split; [intros [] | intros (v & [] & _)].
  - split.
    + intros Hin.
      assert (Hrest : In (k, v') (material_properties rest) ->
                      exists v, In (k, v) ((k0, v0) :: rest) /\
                        ((is_scalar v = true /\ v' = v) \/
                         (exists repr, v = VObject repr /\ v' = VStr repr))).
      { intros H. apply IH in H as (v & Hv & Hcase).
        exists v. split; [now right | exact Hcase]. }
      destruct v0; cbn [material_properties] in Hin;
        try (destruct Hin as [Heq|Hin]; [|now apply Hrest]);
        try (now apply Hrest).
      all: injection Heq as <- <-.
      all: eexists; split; [now left|].
      all: try (left; split; reflexivity).
      right. now eexists.
    + intros (v & [Heq|Hin] & Hcase).
      * injection Heq as -> ->.
        destruct Hcase as [[Henc ->]|(repr & -> & ->)].
        -- destruct v; try discriminate; now left.
        -- now left.
      * assert (Hrest : In (k, v') (material_properties rest))
          by (apply IH; now exists v).
        destruct v0; cbn [material_properties];
          try (now right); exact Hrest.
Qed.

Lemma material_properties_encodable (props : list (pystr * pyvalue)) :
  Forall (fun kv => is_scalar kv.2 = true) (material_properties props).
Proof.
  induction props as [|[k v] rest IH]; [constructor|].
  destruct v; cbn [material_properties]; try exact IH;
    now apply List.Forall_cons.
Qed.

Lemma material_properties_fixed (props : list (pystr * pyvalue)) :
  Forall (fun kv => is_scalar kv.2 = true) props ->
  material_properties props = props.
Proof.
  induction 1 as [|[k v] rest Hv _ IH]; [reflexivity|].
  cbn [snd] in Hv. destruct v; try discriminate;
    cbn [material_properties]; now rewrite IH.
Qed.

Lemma is_scalar_encodable (v : pyvalue) :
  is_scalar v = true -> json_encodable v = true.
Proof. now destruct v. Qed.

(** X6. The material file records a property exactly when its value is
    an integer, a float, a string or a boolean (kept as it is) or an
    object with attributes (kept as its string form); everything else,
    such as [None], a list or a dict, is left out. So every recorded
    property can be encoded, and the only thing that can cut the file
    short is the shader: the file is complete and the extraction logged
    exactly when the shader is absent or is a value [json.dump] can
    encode (a number, a string, a boolean, [None], or a list or dict of
    such values with keys that are not containers), and otherwise an
    incomplete file is left and a [TypeError] is logged. In both cases
    no exception leaves [extract_material]. *)
Theorem material_file_records_scalars
    (d : material) (output_dir : pystr) (w : world) :
  let record := material_record d in
  let props := match properties d with Some ps => ps | None => [] end in
  (forall k v',
     In (k, v') (md_properties record) <->
     exists v, In (k, v) props /\
       ((is_scalar v = true /\ v' = v) \/
        (exists repr, v = VObject repr /\ v' = VStr repr))) /\
  Forall (fun kv => is_scalar kv.2 = true /\ json_encodable kv.2 = true)
         (md_properties record) /\
  material_properties (md_properties record) = md_properties record /\
  (json_encodable VNone = true /\
   json_encodable (VList [VInt 1; VStr (py "a"); VNone]) = true /\
   json_encodable (VDict [(VStr (py "k"), VList [VBool true])]) = true /\
   json_encodable (VList [VObject (py "o")]) = false /\
   json_encodable (VDict [(VList [], VInt 1)]) = false /\
   json_encodable (VObject (py "o")) = false /\
   json_encodable VOther = false) /\
  exists complete : bool,
    (complete = true <->
     forall s, shader d = Some s -> json_encodable s = true) /\
    extract_material (inr d) output_dir w =
      (inr tt,
       World (<[mat_path output_dir (sanitize_filename (mat_name d)) :=
                  Json complete record]> (fs w))
             (logs w ++
              [if complete
               then (INFO,
                     MsgExtractedMaterial (sanitize_filename (mat_name d)))
               else (ERROR, MsgFailedMaterial TypeError)])).
Proof.
  cbv zeta.
  assert (Henc : Forall (fun kv => is_scalar kv.2 = true)
                   (md_properties (material_record d))).
  { unfold material_record. cbn [md_properties].
    destruct (properties d); [apply material_properties_encodable|constructor]. }
  split; [|split; [|split; [|split]]].
  - intros k v'. unfold material_record. cbn [md_properties].
    destruct (properties d) as [ps|]; [apply material_properties_spec|].
    split; [intros [] | intros (v & [] & _)].
  - eapply List.Forall_impl; [|exact Henc].
    intros kv Hkv. split; [exact Hkv | now apply is_scalar_encodable].
  - now apply material_properties_fixed.
  - repeat split; reflexivity.
  - exists (json_encodable (md_shader (material_record d))). split.
    + unfold material_record. cbn [md_shader].
      destruct (shader d) as [s|].
      * split; [intros Hs s' [= <-]; exact Hs | intros Hs; now apply Hs].
      * split; [intros _ s' [=] | reflexivity].
    + apply extract_material_run.
Qed.

(** ** Audio records and the compressor *)

Section AudioTools.

Variable command_exists : pystr -> bool.
Variable subprocess_run : list pystr -> M unit.

(** [extract_audio] on a decoded record, step by step, whatever is
    installed. *)
Lemma extract_audio_steps (a : audio) (out : pystr) (w : world) :
  extract_audio command_exists subprocess_run (inr a) out w =
  let name := sanitize_filename (audio_name a) in
  let written := wave_write (channels a) (frequency a) (samples a) in
  let files :=
    <[wav_path out name := Bytes (fst written)]>
      (<[raw_path out name := Bytes (samples a)]> (fs w)) in
  let failed e w' :=
    (inr tt, World (fs w') (logs w' ++ [(ERROR, MsgFailedAudio e)])) in
  let cleanup w' :=
    match fs w' !! raw_path out name with
    | None => failed FileNotFoundError w'
    | Some _ =>
        let kept := delete (raw_path out name) (fs w') in
        if bool_decide (is_Some (kept !! adx_path out name)) then
          match kept !! wav_path out name with
          | Some _ =>
              (inr tt, World (delete (wav_path out name) kept)
                             (logs w' ++ [(INFO, MsgExtractedAudio name)]))
          | None => failed FileNotFoundError (World kept (logs w'))
          end
        else (inr tt, World kept (logs w' ++ [(INFO, MsgExtractedAudio name)]))
    end in
  match snd written with
  | inl e => failed e (World files (logs w))
  | inr _ =>
      match adpcm_command command_exists (wav_path out name)
              (adx_path out name) with
      | Some cmd =>
          match subprocess_run cmd (World files (logs w)) with
          | (inl e, w') => failed e w'
          | (inr _, w') => cleanup w'
          end
      | None =>
          cleanup (World files (logs w ++ [(WARNING, MsgNoAdpcmConverter)]))
      end
  end.
Proof.
  cbv zeta.
  unfold raw_path, wav_path, adx_path, adpcm_command.
  unfold extract_audio, raw_to_wav, convert_to_adpcm.
  unfold try_except, bind, lift, os_makedirs, ret, store, read_bytes,
    with_open, os_remove, os_path_exists.
  unfold bind, store, lift.
  cbv beta iota zeta. cbn [fs logs].
  rewrite lookup_insert_eq. cbv beta iota. cbn [fs logs].
  destruct (wave_write (channels a) (frequency a) (samples a))
    as [bytes [e|[]]]; cbn [fst snd fs logs]; [reflexivity|].
  destruct (command_exists (py "adxtool"));
    [|destruct (command_exists (py "sox"))].
  1,2: destruct (subprocess_run _ _) as [[e|[]] w']; [reflexivity|].
  all: unfold log; cbn [fs logs].
  all: repeat first
    [ reflexivity
    | match goal with
      | |- context [match ?m !! ?p with _ => _ end] =>
          let E := fresh "E" in
          destruct (m !! p) eqn:E; cbn [fs logs] in *; rewrite ?E
      | |- context [if bool_decide ?P then _ else _] =>
          let E := fresh "E" in
          destruct (bool_decide P) eqn:E; cbn [fs logs] in *; rewrite ?E
      end ].
  all: congruence.
Qed.

(** X7. When the WAV file cannot be written, [extract_audio] stops
    there whatever is installed: no compressor is run, the failure is
    logged, and the temporary [.raw] file with the samples stays behind
    next to what was written of the [.wav] file; an [.adx] file is left
    as it was. A channel count below 1 or a sample rate of 0 or less is
    such a case: the error is the [wave] module's and the [.wav] file is
    empty. *)
Theorem unwritable_wav_stops_audio_extraction
    (a : audio) (e : exn) (output_dir : pystr) (w : world) :
  snd (wave_write (channels a) (frequency a) (samples a)) = inl e ->
  let name := sanitize_filename (audio_name a) in
  let written := fst (wave_write (channels a) (frequency a) (samples a)) in
  let run := extract_audio command_exists subprocess_run (inr a) output_dir in
  outcome run w = inr tt /\
  fs (exec run w) =
    <[wav_path output_dir name := Bytes written]>
      (<[raw_path output_dir name := Bytes (samples a)]> (fs w)) /\
  logs (exec run w) = logs w ++ [(ERROR, MsgFailedAudio e)] /\
  fs (exec run w) !! raw_path output_dir name = Some (Bytes (samples a)) /\
  fs (exec run w) !! wav_path output_dir name = Some (Bytes written) /\
  fs (exec run w) !! adx_path output_dir name =
    fs w !! adx_path output_dir name /\
  (channels a < 1 \/ frequency a <= 0 -> e = WaveError /\ written = []).
Proof.
  intros Hfail name written run. unfold outcome, exec. subst run.
  rewrite extract_audio_steps. cbv zeta. rewrite Hfail. cbn [fst snd fs logs].
  fold name.
  pose proof (raw_wav_paths_differ output_dir name) as Hrw.
  pose proof (raw_adx_paths_differ output_dir name) as Hra.
  pose proof (wav_adx_paths_differ output_dir name) as Hwa.
  repeat split.
  - rewrite lookup_insert_ne by (apply not_eq_sym, Hrw).
    apply lookup_insert_eq.
  - apply lookup_insert_eq.
  - rewrite lookup_insert_ne by exact Hwa.
    now rewrite lookup_insert_ne by exact Hra.
  - rewrite (wave_write_bad_metadata _ _ _ H) in Hfail. now injection Hfail.
  - subst written. now rewrite (wave_write_bad_metadata _ _ _ H).
Qed.

(** X8. With a compressor installed and a WAV file that could be
    written, [extract_audio] runs [adxtool -e wav adx] when [adxtool] is
    installed and [sox wav -t ima adx] only when it is not. If the
    command fails, the failure is logged and nothing is cleaned up:
    the files stay as the command left them. If it succeeds and the
    [.raw] and [.wav] files are still there, the [.raw] file is removed,
    and the [.wav] file is removed exactly when an [.adx] file exists
    afterwards; the extraction is logged in both cases. *)
Theorem compressor_result_decides_cleanup
    (a : audio) (cmd : list pystr) (output_dir : pystr) (w : world) :
  let name := sanitize_filename (audio_name a) in
  let raw := raw_path output_dir name in
  let wav := wav_path output_dir name in
  let adx := adx_path output_dir name in
  wav_representable a ->
  adpcm_command command_exists wav adx = Some cmd ->
  let run := extract_audio command_exists subprocess_run (inr a) output_dir in
  let ready :=
    World (<[wav := Bytes (wav_layout (channels a) (frequency a) (samples a))]>
             (<[raw := Bytes (samples a)]> (fs w))) (logs w) in
  (if command_exists (py "adxtool")
   then cmd = [py "adxtool"; py "-e"; wav; adx]
   else cmd = [py "sox"; wav; py "-t"; py "ima"; adx]) /\
  (forall e w',
     subprocess_run cmd ready = (inl e, w') ->
     run w =
       (inr tt, World (fs w') (logs w' ++ [(ERROR, MsgFailedAudio e)]))) /\
  (forall w',
     subprocess_run cmd ready = (inr tt, w') ->
     is_Some (fs w' !! raw) -> is_Some (fs w' !! wav) ->
     run w =
       (inr tt,
        World (if bool_decide (is_Some (fs w' !! adx))
               then delete wav (delete raw (fs w'))
               else delete raw (fs w'))
              (logs w' ++ [(INFO, MsgExtractedAudio name)]))).
Proof.
  intros name raw wav adx Hrep Hcmd run ready.
  pose proof (raw_wav_paths_differ output_dir name) as Hrw.
  pose proof (raw_adx_paths_differ output_dir name) as Hra.
  fold raw wav adx in Hrw, Hra.
  split; [|split].
  - unfold adpcm_command in Hcmd.
    destruct (command_exists (py "adxtool")); [congruence|].
    destruct (command_exists (py "sox")); congruence.
  - intros e w' Htool. subst run. rewrite extract_audio_steps. cbv zeta.
    rewrite (wave_write_ok a Hrep). cbn [fst snd].
    fold name. fold raw wav adx. rewrite Hcmd.
    fold ready. now rewrite Htool.
  - intros w' Htool [craw Hraw] [cwav Hwav].
    subst run. rewrite extract_audio_steps. cbv zeta.
    rewrite (wave_write_ok a Hrep). cbn [fst snd].
    fold name. fold raw wav adx. rewrite Hcmd.
    fold ready. rewrite Htool, Hraw.
    rewrite (lookup_delete_ne (fs w') raw adx) by exact Hra.
    rewrite (lookup_delete_ne (fs w') raw wav) by exact Hrw.
    rewrite Hwav. now destruct (bool_decide _).
Qed.

End AudioTools.

Lemma unwritable_wav_stops_audio_extraction_witness :
  snd (wave_write (channels mute_audio) (frequency mute_audio)
         (samples mute_audio)) = inl WaveError /\
  logs (exec (extract_audio only_sox blank_encoder (inr mute_audio)
                (py "out")) empty_world) =
    [(ERROR, MsgFailedAudio WaveError)].
Proof.
  assert (H : snd (wave_write (channels mute_audio) (frequency mute_audio)
                     (samples mute_audio)) = inl WaveError) by reflexivity.
  split; [exact H|].
  exact (proj1 (proj2 (proj2
    (unwritable_wav_stops_audio_extraction only_sox blank_encoder
       mute_audio WaveError (py "out") empty_world H)))).
Defined.

Lemma compressor_result_decides_cleanup_witness :
  wav_representable stereo_audio /\
  adpcm_command only_sox
    (wav_path (py "out") (sanitize_filename (audio_name stereo_audio)))
    (adx_path (py "out") (sanitize_filename (audio_name stereo_audio))) =
    Some [py "sox"; py "out/audio/step.wav"; py "-t"; py "ima";
          py "out/audio/step.adx"] /\
  [py "sox"; py "out/audio/step.wav"; py "-t"; py "ima";
   py "out/audio/step.adx"] =
  [py "sox";
   wav_path (py "out") (sanitize_filename (audio_name stereo_audio));
   py "-t"; py "ima";
   adx_path (py "out") (sanitize_filename (audio_name stereo_audio))].
Proof.
  assert (Hrep : wav_representable stereo_audio)
    by (unfold wav_representable, stereo_audio, len; cbn; lia).
  assert (Hcmd : adpcm_command only_sox
    (wav_path (py "out") (sanitize_filename (audio_name stereo_audio)))
    (adx_path (py "out") (sanitize_filename (audio_name stereo_audio))) =
    Some [py "sox"; py "out/audio/step.wav"; py "-t"; py "ima";
          py "out/audio/step.adx"]) by reflexivity.
  split; [exact Hrep|]. split; [exact Hcmd|].
  exact (proj1 (compressor_result_decides_cleanup only_sox blank_encoder
                  stereo_audio _ (py "out") empty_world Hrep Hcmd)).
Defined.

(** ** The pixel dump *)

Lemma take_drop_take {A} (l : list A) (a b c : nat) :
  (b + a <= c)%nat -> take a (drop b (take c l)) = take a (drop b l).
Proof.
  revert a b c. induction l as [|h t IH]; intros a b c Hle.
  - now rewrite take_nil.
  - destruct c as [|c].
    + assert (a = 0%nat) as -> by lia. reflexivity.
    + destruct b as [|b]; cbn [take drop].
      * destruct a as [|a]; [reflexivity|]. cbn [take]. f_equal.
        apply (IH a 0%nat c). lia.
      * apply IH. lia.
Qed.

Lemma pack_uint_outside n v :
  v < 0 \/ 256 ^ Z.of_nat n <= v -> pack_uint n v = inl StructError.
Proof.
  intros H. unfold pack_uint.
  destruct (Z.leb_spec 0 v); destruct (Z.ltb_spec v (256 ^ Z.of_nat n));
    try reflexivity; lia.
Qed.

Lemma length_flat_map_const {A B} (g : A -> list B) (k : nat) (l : list A) :
  (forall a, length (g a) = k) -> length (flat_map g l) = (k * length l)%nat.
Proof.
  intros Hk. induction l as [|a l IH]; cbn [flat_map length]; [lia|].
  rewrite length_app, Hk, IH. lia.
Qed.

(** The chunk of the [i]-th element in a concatenation of chunks of one
    length. *)
Lemma flat_map_chunk {A B} (g : A -> list B) (k : nat) (l : list A) i a :
  (forall a, length (g a) = k) -> nth_error l i = Some a ->
  take k (drop (k * i) (flat_map g l)) = g a.
Proof.
  intros Hk. revert i. induction l as [|h t IH]; intros i Hi.
  - now destruct i.
  - destruct i as [|i]; cbn [nth_error flat_map] in *.
    + injection Hi as ->. rewrite Nat.mul_0_r, drop_0.
      rewrite take_app_le by (rewrite Hk; lia).
      apply take_ge. rewrite Hk. lia.
    + replace (k * S i)%nat with (length (g h) + k * i)%nat
        by (rewrite Hk; lia).
      rewrite drop_app_add. now apply IH.
Qed.

Lemma nth_error_range (n : Z) (i : nat) :
  (i < Z.to_nat n)%nat -> nth_error (range n) i = Some (Z.of_nat i).
Proof.
  intros Hi. unfold range.
  rewrite (nth_error_nth' _ (Z.of_nat 0))
    by (rewrite length_map, length_seq; exact Hi).
  now rewrite map_nth, seq_nth.
Qed.

Lemma length_range (n : Z) : length (range n) = Z.to_nat n.
Proof. unfold range. now rewrite length_map, length_seq. Qed.

Lemma packed_pixels_length (img : image) (width height : Z) :
  0 <= width -> 0 <= height ->
  len (packed_pixels img width height) = 2 * width * height.
Proof.
  intros Hw Hh. unfold len, packed_pixels.
  rewrite (length_flat_map_const _ (2 * Z.to_nat width)).
  - rewrite length_range. lia.
  - intros y. rewrite (length_flat_map_const _ 2), length_range; [lia|].
    intros x. destruct (getpixel img x y) as [[r g] b].
    apply length_le_bytes.
Qed.

Lemma packed_pixels_at (img : image) (width height x y : Z) :
  0 <= x < width -> 0 <= y < height ->
  take 2 (drop (Z.to_nat (2 * (y * width + x)))
            (packed_pixels img width height)) =
  let '(r, g, b) := getpixel img x y in
  le_bytes 2 (rgb565 (Z_of_byte r) (Z_of_byte g) (Z_of_byte b)).
Proof.
  intros Hx Hy. unfold packed_pixels.
  set (cell := fun y x : Z =>
    let '(r, g, b) := getpixel img x y in
    le_bytes 2 (rgb565 (Z_of_byte r) (Z_of_byte g) (Z_of_byte b))).
  set (row := fun y : Z => flat_map (cell y) (range width)).
  change (take 2 (drop (Z.to_nat (2 * (y * width + x)))
                    (flat_map row (range height))) = cell y x).
  assert (Hcell : forall y' x', length (cell y' x') = 2%nat).
  { intros y' x'. subst cell. cbv beta.
    destruct (getpixel img x' y') as [[r g] b]. apply length_le_bytes. }
  assert (Hrow : forall y', length (row y') = (2 * Z.to_nat width)%nat).
  { intros y'. subst row. cbv beta.
    now rewrite (length_flat_map_const _ 2), length_range by apply Hcell. }
  replace (Z.to_nat (2 * (y * width + x)))
    with (2 * Z.to_nat width * Z.to_nat y + 2 * Z.to_nat x)%nat by nia.
  rewrite <- drop_drop.
  rewrite <- (take_drop_take _ 2 (2 * Z.to_nat x) (2 * Z.to_nat width))
    by lia.
  rewrite (flat_map_chunk row (2 * Z.to_nat width) (range height)
             (Z.to_nat y) y Hrow)
    by (rewrite nth_error_range by lia; f_equal; lia).
  subst row. cbv beta.
  apply (flat_map_chunk (cell y) 2 (range width) (Z.to_nat x) x (Hcell y)).
  rewrite nth_error_range by lia. f_equal. lia.
Qed.

(** X9. [png_to_raw_rgb565] never fails on a readable image: it leaves
    two bytes per pixel, row by row, so that the pixel at column [x] of
    row [y] is the 16-bit little-endian RGB565 value at byte offset
    [2 * (y * width + x)]. [create_simple_pvr] writes the same bytes
    after its sixteen-byte header when both sides fit 16 bits, and when a
    side does not, it stops with a [struct.error] after the magic and
    the header size (or after the width as well), leaving a file
    without pixels. *)
Theorem raw_pixel_dump_is_row_major
    (img : image) (png out : pystr) (w : world) :
  fs w !! png = Some (Png img) ->
  let width := fst (img_size img) in
  let height := snd (img_size img) in
  let px := packed_pixels img width height in
  png_to_raw_rgb565 png out w =
    (inr tt, World (<[out := Bytes px]> (fs w)) (logs w)) /\
  (0 <= width -> 0 <= height -> len px = 2 * width * height) /\
  (forall x y, 0 <= x < width -> 0 <= y < height ->
     forall r g b, getpixel img x y = (r, g, b) ->
     take 2 (drop (Z.to_nat (2 * (y * width + x))) px) =
       le_bytes 2 (rgb565 (Z_of_byte r) (Z_of_byte g) (Z_of_byte b)) /\
     le_value (take 2 (drop (Z.to_nat (2 * (y * width + x))) px)) =
       rgb565 (Z_of_byte r) (Z_of_byte g) (Z_of_byte b)) /\
  (0 <= width < 65536 -> 0 <= height < 65536 ->
   len (pvr_header width height) = 16 /\
   create_simple_pvr png out w =
     (inr tt,
      World (<[out := Bytes (pvr_header width height ++ px)]> (fs w))
            (logs w))) /\
  (width < 0 \/ 65536 <= width ->
   create_simple_pvr png out w =
     (inl StructError,
      World (<[out := Bytes (pvr_magic ++ le_bytes 4 8)]> (fs w)) (logs w))) /\
  (0 <= width < 65536 -> height < 0 \/ 65536 <= height ->
   create_simple_pvr png out w =
     (inl StructError,
      World (<[out := Bytes (pvr_magic ++ le_bytes 4 8 ++ le_bytes 2 width)]>
               (fs w)) (logs w))).
Proof.
  intros Hpng width height px.
  split; [|split; [|split; [|split; [|split]]]].
  - unfold png_to_raw_rgb565, bind, image_open. rewrite Hpng.
    rewrite (surjective_pairing (img_size img)).
    rewrite with_open_run, write_pixels_ok. reflexivity.
  - apply packed_pixels_length.
  - intros x y Hx Hy r g b Hpix. subst px.
    rewrite (packed_pixels_at img width height x y Hx Hy), Hpix.
    split; [reflexivity|]. apply le_value_le_bytes.
    change (256 ^ Z.of_nat 2) with 65536.
    apply rgb565_fits_16_bits; apply Z_of_byte_range.
  - intros Hw Hh. split.
    + unfold pvr_header, len.
      rewrite !length_app, !length_le_bytes. reflexivity.
    + unfold create_simple_pvr, bind, image_open. rewrite Hpng.
      rewrite with_open_run, (pvr_body_ok img Hw Hh).
      unfold pvr_layout, pvr_header. fold width height px.
      cbn [fst snd]. now rewrite <- !app_assoc.
  - intros Hw. unfold create_simple_pvr, bind, image_open. rewrite Hpng.
    rewrite with_open_run. unfold pvr_body.
    subst width. destruct (img_size img) as [wd ht]. cbn [fst] in Hw.
    unfold pack_I, pack_H.
    rewrite (pack_uint_ok 4 8) by (cbn; lia).
    rewrite (pack_uint_outside 2 wd)
      by (change (256 ^ Z.of_nat 2) with 65536; lia).
    reflexivity.
  - intros Hw Hh. unfold create_simple_pvr, bind, image_open. rewrite Hpng.
    rewrite with_open_run. unfold pvr_body.
    subst width height. destruct (img_size img) as [wd ht].
    cbn [fst snd] in Hw, Hh |- *.
    unfold pack_I, pack_H.
    rewrite (pack_uint_ok 4 8) by (cbn; lia).
    rewrite (pack_uint_ok 2 wd)
      by (change (256 ^ Z.of_nat 2) with 65536; lia).
    rewrite (pack_uint_outside 2 ht)
      by (change (256 ^ Z.of_nat 2) with 65536; lia).
    reflexivity.
Qed.

Lemma raw_pixel_dump_is_row_major_witness :
  fs world_with_png !! py "out/textures/wall.png" = Some (Png orange_image) /\
  png_to_raw_rgb565 (py "out/textures/wall.png") (py "out/textures/wall.raw")
    world_with_png =
  (inr tt,
   World (<[py "out/textures/wall.raw" :=
              Bytes (packed_pixels orange_image 3 2)]> (fs world_with_png))
         (logs world_with_png)).
Proof.
  assert (H : fs world_with_png !! py "out/textures/wall.png" =
              Some (Png orange_image)) by apply lookup_singleton_eq.
  split; [exact H|].
  exact (proj1 (raw_pixel_dump_is_row_major orange_image
                  (py "out/textures/wall.png") (py "out/textures/wall.raw")
                  world_with_png H)).
Defined.

(** ** The files a texture leaves *)

Lemma starts_with_app (p s b : pystr) :
  starts_with p s = true -> starts_with p (s ++ b) = true.
Proof.
  revert s. induction p as [|c p IH]; intros s H; [reflexivity|].
  destruct s as [|d s]; [discriminate|]. cbn [app starts_with] in *.
  apply andb_true_iff in H as [-> H]. now rewrite IH.
Qed.

Lemma starts_with_refl (p b : pystr) : starts_with p (p ++ b) = true.
Proof.
  induction p as [|c p IH]; [reflexivity|].
  cbn [app starts_with]. now rewrite N.eqb_refl, IH.
Qed.

Lemma contains_app_l (p s b : pystr) :
  contains p s = true -> contains p (s ++ b) = true.
Proof.
  induction s as [|c s IH]; intros H.
  - cbn [contains] in H. rewrite orb_false_r in H.
    destruct p; [|discriminate]. now destruct b.
  - cbn [app contains] in *. apply orb_true_iff in H as [H|H].
    + pose proof (starts_with_app p (c :: s) b H) as Hs.
      cbn [app] in Hs. now rewrite Hs.
    + rewrite (IH H). apply orb_true_r.
Qed.

Lemma contains_app_r (p k s : pystr) :
  contains p s = true -> contains p (k ++ s) = true.
Proof.
  intros H. induction k as [|c k IH]; [exact H|].
  cbn [app contains]. rewrite IH. apply orb_true_r.
Qed.

Lemma contains_suffix (p s t : pystr) :
  s `suffix_of` t -> contains p s = true -> contains p t = true.
Proof. intros [k ->]. apply contains_app_r. Qed.

Lemma replace_from_length (old new s : pystr) (k : nat) :
  (1 <= length old <= length new)%nat ->
  (length s <= length (replace_from old new k s) + k)%nat.
Proof.
  intros Hlen. revert k. induction s as [|c s IH]; intros k; [cbn; lia|].
  cbn [replace_from length]. destruct k as [|k].
  - destruct (starts_with old (c :: s)).
    + rewrite length_app. specialize (IH (length old - 1)%nat). lia.
    + cbn [length]. specialize (IH 0%nat). lia.
  - specialize (IH k). lia.
Qed.

Lemma replace_from_longer (old new t : pystr) (k : nat) :
  (1 <= length old < length new)%nat -> (k <= length t)%nat ->
  (length (t ++ old) < length (replace_from old new k (t ++ old)) + k)%nat.
Proof.
  intros Hlen. revert k. induction t as [|c t IH]; intros k Hk.
  - assert (k = 0%nat) as -> by (cbn in Hk; lia). cbn [app].
    destruct old as [|c old]; [cbn in Hlen; lia|].
    pose proof (starts_with_refl (c :: old) []) as Hsw.
    rewrite app_nil_r in Hsw.
    cbn [replace_from]. rewrite Hsw, length_app. cbn [length] in *.
    lia.
  - cbn [app replace_from length]. destruct k as [|k].
    + destruct (starts_with old (c :: t ++ old)).
      * pose proof (replace_from_length old new (t ++ old)
                      (length old - 1)%nat) as Hge.
        rewrite (length_app new). lia.
      * cbn [length]. specialize (IH 0%nat). lia.
    + cbn [length] in Hk. specialize (IH k). lia.
Qed.

Lemma resized_copy_differs out name :
  pvr_input_path out name true <> png_path out name.
Proof.
  unfold pvr_input_path, str_replace.
  destruct (path_join_ext (path_join out (py "textures")) name (py ".png"))
    as [t Ht].
  unfold png_path. rewrite Ht. intros Heq.
  pose proof (replace_from_longer (py ".png") (py "_resized.png") t 0%nat)
    as Hlong.
  rewrite Heq in Hlong. cbn [length py] in Hlong.
  assert (H : (1 <= length (py ".png") < length (py "_resized.png"))%nat)
    by (cbn; lia).
  specialize (Hlong H). lia.
Qed.

Lemma resized_copy_named_resized out name :
  contains (py "resized") (pvr_input_path out name true) = true.
Proof.
  apply (contains_suffix _ (py "_resized.png")); [|reflexivity].
  apply str_replace_png_suffix, path_join_ext.
Qed.

Lemma png_info_paths_differ out name resized :
  pvr_input_path out name resized <> vq_info_path out name.
Proof.
  apply (paths_differ_by_last _ _ 103%N 111%N); [| |discriminate].
  - apply (suffix_last (py ".png"));
      [apply pvr_input_path_png | reflexivity].
  - apply (suffix_last (py ".info")); [|reflexivity].
    unfold vq_info_path. now eexists.
Qed.

Lemma png_pvr_paths_differ out name resized :
  png_path out name <> pvr_path out name resized.
Proof.
  apply (paths_differ_by_last _ _ 103%N 114%N); [| |discriminate].
  - apply (suffix_last (py ".png")); [apply path_join_ext | reflexivity].
  - apply (suffix_last (py ".pvr")); [apply pvr_path_pvr | reflexivity].
Qed.

Section TextureFiles.

Variable max_size : Z.
Variable command_exists : pystr -> bool.
Variable subprocess_run : list pystr -> M unit.
Variable image_resize : image -> Z * Z -> image.
Variable math_log2 : Z -> pyfloat.
Variable dir_exists : pystr -> bool.

(** X10. After a texture has been encoded with the fallback encoder
    (an image of positive sides, a ceiling that fits 16 bits, a
    logarithm whose ceiling is exact at both sides, and a texture
    directory whose path holds no [.png]), the container and the marker
    file are there, and a resized copy, if one was made, has been
    removed again. The saved PNG is still there in all cases but one:
    when the image needed no resizing and the path of the PNG contains
    the word resized (as it does whenever the sanitised name contains
    it), the PNG itself is removed. When a resized copy is needed and
    cannot be created, because the replacement of [.png] has changed the
    directory part of the path to a directory that is not there, the
    failure is logged and only the saved PNG is left. *)
Theorem saved_png_survives_unless_named_resized
    (t : texture) (img : image) (output_dir : pystr) (w : world) :
  command_exists (py "pvr_converter") = false ->
  tex_image t = Some img ->
  0 < fst (img_size img) -> 0 < snd (img_size img) ->
  0 < max_size < 65536 ->
  (forall i s, img_size (image_resize i s) = s) ->
  log2_ceiling_exact math_log2 (fst (img_size img)) ->
  log2_ceiling_exact math_log2 (snd (img_size img)) ->
  let name := sanitize_filename (tex_name t) in
  let png := png_path output_dir name in
  let run :=
    extract_texture max_size command_exists subprocess_run image_resize
      math_log2 dir_exists (inr t) output_dir in
  let after := fs (exec run w) in
  exists size,
    nearest_power_of_2 math_log2 max_size (img_size img) = inr size /\
    let resized := bool_decide (size <> img_size img) in
    (contains (py ".png") (path_join output_dir (py "textures")) = false ->
     after !! png =
       (if negb resized && contains (py "resized") png
        then None else Some (Png img)) /\
     (resized = true ->
      after !! pvr_input_path output_dir name true = None) /\
     is_Some (after !! pvr_path output_dir name resized) /\
     is_Some (after !! vq_info_path output_dir name)) /\
    (resized = true ->
     can_create dir_exists png (pvr_input_path output_dir name true)
       = false ->
     run w =
       (inr tt,
        World (<[png := Png img]> (fs w))
              (logs w ++ [(INFO, MsgExtractedTexture name);
                          (ERROR, MsgFailedTexture FileNotFoundError)]))) /\
    (contains (py "resized") name = true ->
     contains (py "resized") png = true).
Proof.
  intros Htool Himg Hw Hh Hmax Hresize Hew Heh name png run after.
  pose proof (nearest_power_of_2_value math_log2 max_size
                (fst (img_size img)) (snd (img_size img)) Hw Hh Hew Heh)
    as Hsize.
  rewrite <- surjective_pairing in Hsize.
  set (size := (Z.min (2 ^ Z.log2_up (fst (img_size img))) max_size,
                Z.min (2 ^ Z.log2_up (snd (img_size img))) max_size)) in *.
  exists size. split; [exact Hsize|]. intros resized.
  set (encoded := if resized then image_resize img size else img).
  assert (Henc : img_size encoded = size).
  { subst encoded resized.
    destruct (bool_decide_reflect (size <> img_size img)) as [Hne|Heq].
    - apply Hresize.
    - destruct (decide (size = img_size img)) as [->|Hne];
        [reflexivity | contradiction]. }
  assert (Hbody : pvr_body encoded = (pvr_layout encoded, inr tt)).
  { apply pvr_body_ok; rewrite Henc; subst size; cbn [fst snd];
      now apply clamped_side_fits. }
  split; [|split].
  - intros Hdir.
    assert (Hcreate : resized = true ->
              can_create dir_exists (png_path output_dir name)
                (pvr_input_path output_dir name resized) = true).
    { intros ->. now apply resized_copy_creatable. }
    assert (Hafter : after =
      <[vq_info_path output_dir name :=
          Text (py "VQ compressed version of " ++ basename png ++ [10%N])]>
        (if contains (py "resized") (pvr_input_path output_dir name resized)
         then delete (pvr_input_path output_dir name resized)
                (<[pvr_path output_dir name resized :=
                     Bytes (pvr_layout encoded)]>
                   (if resized
                    then <[pvr_input_path output_dir name resized :=
                             Png encoded]> (<[png := Png img]> (fs w))
                    else <[png := Png img]> (fs w)))
         else <[pvr_path output_dir name resized :=
                  Bytes (pvr_layout encoded)]>
                (if resized
                 then <[pvr_input_path output_dir name resized :=
                          Png encoded]> (<[png := Png img]> (fs w))
                 else <[png := Png img]> (fs w)))).
    { subst after run. unfold exec.
      rewrite (extract_texture_encoded max_size command_exists subprocess_run
                 image_resize math_log2 dir_exists t img size output_dir w
                 Htool Himg Hsize Hcreate);
        fold name resized encoded; [|now rewrite Hbody].
      rewrite Hbody. cbn [fst snd fs]. reflexivity. }
    pose proof (png_info_paths_differ output_dir name false) as Hpi.
    pose proof (png_info_paths_differ output_dir name true) as Hti.
    pose proof (png_pvr_paths_differ output_dir name resized) as Hpp.
    pose proof (pvr_input_paths_differ output_dir name true) as Htp.
    pose proof (pvr_info_paths_differ output_dir name resized) as Hvi.
    pose proof (resized_copy_differs output_dir name) as Htg.
    pose proof (resized_copy_named_resized output_dir name) as Htr.
    change (pvr_input_path output_dir name false) with png in Hpi.
    fold png in Hpp, Htg.
    rewrite Hafter. clear Hafter.
    split; [|split; [|split]].
    + rewrite lookup_insert_ne by (apply not_eq_sym, Hpi).
      destruct resized.
      * rewrite Htr.
        rewrite lookup_delete_ne by exact Htg.
        rewrite lookup_insert_ne by (apply not_eq_sym, Hpp).
        rewrite lookup_insert_ne by exact Htg.
        cbn [negb andb]. apply lookup_insert_eq.
      * change (pvr_input_path output_dir name false) with png.
        cbn [negb andb]. destruct (contains (py "resized") png).
        -- apply lookup_delete_eq.
        -- rewrite lookup_insert_ne by (apply not_eq_sym, Hpp).
           apply lookup_insert_eq.
    + intros ->. rewrite Htr.
      rewrite lookup_insert_ne by (apply not_eq_sym, Hti).
      apply lookup_delete_eq.
    + rewrite lookup_insert_ne by (apply not_eq_sym, Hvi).
      destruct (contains (py "resized")
                  (pvr_input_path output_dir name resized)).
      * rewrite lookup_delete_ne
          by (apply not_eq_sym, pvr_input_paths_differ).
        rewrite lookup_insert_eq. eauto.
      * rewrite lookup_insert_eq. eauto.
    + rewrite lookup_insert_eq. eauto.
  - intros Hres Hno. subst run.
    rewrite (extract_texture_run max_size command_exists subprocess_run
               image_resize math_log2 dir_exists t img output_dir w Htool
               Himg).
    cbv zeta. rewrite Hsize. fold name png resized.
    rewrite Hres, Hno. cbn [andb negb]. now rewrite <- app_assoc.
  - intros Hname. subst png. unfold png_path.
    apply (contains_suffix _ (name ++ py ".png"));
      [apply path_join_suffix | now apply contains_app_l].
Qed.

End TextureFiles.

Lemma saved_png_survives_unless_named_resized_witness :
  fs (exec (extract_texture 512 no_command no_subprocess crop_resize
              tabulated_log2 no_other_directory (inr resized_logo)
              (py "out")) empty_world)
    !! png_path (py "out") (sanitize_filename (tex_name resized_logo)) = None.
Proof.
  destruct (saved_png_survives_unless_named_resized 512 no_command
              no_subprocess crop_resize tabulated_log2 no_other_directory
              resized_logo
              (Image (2, 2) (fun _ _ => (xff, x80, x00))) (py "out")
              empty_world eq_refl eq_refl)
    as (size & Hsize & Hfiles & _);
    [cbn; lia | cbn; lia | lia | reflexivity | reflexivity | reflexivity |].
  injection Hsize as <-.
  exact (proj1 (Hfiles eq_refl)).
Defined.

(** ** The exit status *)

Lemma length_read_failures (objs : list object) :
  Forall (fun obj => is_Some (read_failure obj)) objs ->
  length (omap read_failure objs) = length objs.
Proof.
  induction 1 as [|obj objs [r Hr] _ IH]; [reflexivity|].
  cbn [omap list_omap length]. rewrite Hr. cbn [length]. now rewrite IH.
Qed.

Section ExitStatus.

Variable max_size : Z.
Variable command_exists : pystr -> bool.
Variable subprocess_run : list pystr -> M unit.
Variable image_resize : image -> Z * Z -> image.
Variable unitypack_load : pystr -> exn + bundle.
Variable math_log2 : Z -> pyfloat.
Variable dir_exists : pystr -> bool.

#[local] Abbreviation dispatch' :=
  (dispatch max_size command_exists subprocess_run image_resize math_log2
     dir_exists).
#[local] Abbreviation main' :=
  (main max_size command_exists subprocess_run image_resize unitypack_load
     math_log2 dir_exists).

Lemma dispatch_unreadable (output_dir : pystr) (obj : object) r (w : world) :
  read_failure obj = Some r ->
  exec (dispatch' output_dir obj) w = World (fs w) (logs w ++ [r]).
Proof.
  destruct obj as [[e|t]|[e|a]|[e|m]|[e|m]|other]; intros [= <-];
    reflexivity.
Qed.

Lemma run_each_unreadable (output_dir : pystr) (objs : list object)
    (w : world) :
  Forall (fun obj => is_Some (read_failure obj)) objs ->
  run_each (dispatch' output_dir) objs w =
  World (fs w) (logs w ++ omap read_failure objs).
Proof.
  intros Hall. revert w.
  induction Hall as [|obj objs [r Hr] _ IH]; intros w.
  - cbn. rewrite app_nil_r. now destruct w.
  - unfold run_each in *. cbn [fold_left omap list_omap].
    rewrite IH, (dispatch_unreadable output_dir obj r w Hr), Hr.
    cbn [fs logs]. now rewrite <- app_assoc.
Qed.

(** X11. The exit status of the program tells only whether the bundle
    could be loaded. When loading fails, the failure is logged and
    printed and the status is 1. When the bundle is loaded, the status
    is 0 and the success line is printed whatever happened to the
    objects: even when no object at all can be read, in which case no
    file is written and the log holds one error record per object. *)
Theorem exit_status_ignores_asset_failures (input output : pystr) (w : world) :
  (forall e, unitypack_load input = inl e ->
     main' input output w =
       ProcessResult 1 [PrintedError e]
         (World (fs w) (logs w ++ [(INFO, MsgOpening input);
                                   (ERROR, MsgFailedProcess e)]))) /\
  (forall b, unitypack_load input = inr b ->
     main' input output w =
       ProcessResult 0 [PrintedSuccess output]
         (run_each (dispatch' output) (concat b) (opened input w)) /\
     (Forall (fun obj => is_Some (read_failure obj)) (concat b) ->
      main' input output w =
        ProcessResult 0 [PrintedSuccess output]
          (World (fs w)
             (logs w ++ (INFO, MsgOpening input) ::
                        omap read_failure (concat b))) /\
      length (omap read_failure (concat b)) = length (concat b))).
Proof.
  split.
  - intros e Hload. unfold main.
    now rewrite (extract_assets_fatal max_size command_exists subprocess_run
                   image_resize unitypack_load math_log2 dir_exists input
                   output w e Hload).
  - intros b Hload.
    assert (Hmain : main' input output w =
              ProcessResult 0 [PrintedSuccess output]
                (run_each (dispatch' output) (concat b) (opened input w))).
    { unfold main.
      now rewrite (extract_assets_loaded max_size command_exists
                     subprocess_run image_resize unitypack_load math_log2
                     dir_exists input output w b Hload). }
    split; [exact Hmain|]. intros Hall. split.
    + rewrite Hmain, (run_each_unreadable output (concat b) _ Hall).
      unfold opened. cbn [fs logs]. now rewrite <- app_assoc.
    + apply length_read_failures, Hall.
Qed.

End ExitStatus.

(** ** Textures and the external converter *)

Lemma raw_input_paths_differ out name resized :
  pvr_raw_path out name resized <> pvr_input_path out name resized.
Proof.
  apply (paths_differ_by_last _ _ 119%N 103%N); [| |discriminate].
  - apply (suffix_last (py ".raw")); [|reflexivity].
    apply str_replace_png_suffix, pvr_input_path_png.
  - apply (suffix_last (py ".png"));
      [apply pvr_input_path_png | reflexivity].
Qed.

Section TextureTool.

Variable max_size : Z.
Variable command_exists : pystr -> bool.
Variable subprocess_run : list pystr -> M unit.
Variable image_resize : image -> Z * Z -> image.
Variable math_log2 : Z -> pyfloat.
Variable dir_exists : pystr -> bool.

(** The pixel dump lies beside the image it is made from when the path
    of the texture directory holds no [.png]. *)
Lemma raw_dump_creatable out name resized :
  contains (py ".png") (path_join out (py "textures")) = false ->
  can_create dir_exists (pvr_input_path out (sanitize_filename name) resized)
    (pvr_raw_path out (sanitize_filename name) resized) = true.
Proof.
  intros Hdir. unfold can_create, pvr_raw_path, pvr_input_path.
  destruct (png_path_shape out name) as [Hshape Hfile].
  rewrite Hshape.
  destruct resized.
  - destruct (replaced_path_beside (py "_resized.png")
                (path_join out (py "textures"))
                (sanitize_filename name ++ py ".png") eq_refl Hfile Hdir)
      as (Hrep & Hns & _).
    rewrite Hrep.
    destruct (replaced_path_beside (py ".raw")
                (path_join out (py "textures"))
                (str_replace (py ".png") (py "_resized.png")
                   (sanitize_filename name ++ py ".png")) eq_refl Hns Hdir)
      as (_ & _ & Hsame).
    now rewrite bool_decide_eq_true_2.
  - destruct (replaced_path_beside (py ".raw")
                (path_join out (py "textures"))
                (sanitize_filename name ++ py ".png") eq_refl Hfile Hdir)
      as (_ & _ & Hsame).
    now rewrite bool_decide_eq_true_2.
Qed.

(** [extract_texture] on a texture with an image when [pvr_converter]
    is installed, step by step. *)
Lemma extract_texture_with_tool
    (t : texture) (img : image) (size : Z * Z) (out : pystr) (w : world) :
  command_exists (py "pvr_converter") = true ->
  tex_image t = Some img ->
  nearest_power_of_2 math_log2 max_size (img_size img) = inr size ->
  (bool_decide (size <> img_size img) = true ->
   can_create dir_exists (png_path out (sanitize_filename (tex_name t)))
     (pvr_input_path out (sanitize_filename (tex_name t)) true) = true) ->
  can_create dir_exists
    (pvr_input_path out (sanitize_filename (tex_name t))
       (bool_decide (size <> img_size img)))
    (pvr_raw_path out (sanitize_filename (tex_name t))
       (bool_decide (size <> img_size img))) = true ->
  let name := sanitize_filename (tex_name t) in
  let resized := bool_decide (size <> img_size img) in
  let encoded := if resized then image_resize img size else img in
  let input := pvr_input_path out name resized in
  let raw := pvr_raw_path out name resized in
  let saved := <[png_path out name := Png img]> (fs w) in
  let staged := if resized then <[input := Png encoded]> saved else saved in
  let ready :=
    World (<[raw := Bytes (packed_pixels encoded (fst (img_size encoded))
                             (snd (img_size encoded)))]> staged)
          (logs w ++ [(INFO, MsgExtractedTexture name)]) in
  let failed e w' :=
    (inr tt, World (fs w') (logs w' ++ [(ERROR, MsgFailedTexture e)])) in
  let marked files w' :=
    (inr tt,
     World (<[vq_info_path out name :=
                Text (py "VQ compressed version of " ++
                      basename (png_path out name) ++ [10%N])]> files)
           (logs w' ++ [(INFO, MsgVqPlaceholder (png_path out name))])) in
  extract_texture max_size command_exists subprocess_run image_resize
    math_log2 dir_exists (inr t) out w =
  match subprocess_run [py "pvr_converter"; raw; pvr_path out name resized]
          ready with
  | (inl e, w') => failed e w'
  | (inr _, w') =>
      match fs w' !! raw with
      | None => failed FileNotFoundError w'
      | Some _ =>
          let kept := delete raw (fs w') in
          if contains (py "resized") input then
            match kept !! input with
            | None => failed FileNotFoundError (World kept (logs w'))
            | Some _ => marked (delete input kept) w'
            end
          else marked kept w'
      end
  end.
Proof.
  intros Htool Himg Hsize Hcopy Hdump. cbv zeta.
  unfold pvr_raw_path, pvr_path, pvr_input_path, vq_info_path, png_path in *.
  unfold extract_texture, try_except, bind, lift.
  cbv beta iota zeta. rewrite Himg.
  unfold convert_to_pvr, convert_to_vq, png_to_raw_rgb565, create_beside.
  rewrite Htool.
  unfold bind, lift, os_makedirs, ret, store, image_open,
    with_open, os_remove, log, raise.
  unfold bind, store, lift.
  cbv beta iota zeta. cbn [fs logs].
  rewrite lookup_insert_eq. cbv beta iota. cbn [fs logs].
  rewrite Hsize. cbv beta iota. cbn [fs logs].
  destruct (bool_decide (size <> img_size img)) eqn:Hres;
    [rewrite (Hcopy eq_refl)|];
    cbv beta iota; cbn [fs logs]; rewrite Hdump;
    cbv beta iota; cbn [fs logs]; rewrite lookup_insert_eq;
    cbv beta iota; cbn [fs logs].
  - destruct (img_size (image_resize img size)) as [wd ht].
    rewrite write_pixels_ok. cbn [fst snd fs logs].
    destruct (subprocess_run _ _) as [[e|[]] w']; [reflexivity|].
    destruct (fs w' !! _) as [c|]; [|reflexivity]. cbn [fs logs].
    destruct (contains _ _); cbv beta iota; cbn [fs logs];
      [|now rewrite <- ?app_assoc].
    destruct (delete _ (fs w') !! _) as [c'|]; [|reflexivity].
    cbn [fs logs]. now rewrite <- ?app_assoc.
  - destruct (img_size img) as [wd ht].
    rewrite write_pixels_ok. cbn [fst snd fs logs].
    destruct (subprocess_run _ _) as [[e|[]] w']; [reflexivity|].
    destruct (fs w' !! _) as [c|]; [|reflexivity]. cbn [fs logs].
    destruct (contains _ _); cbv beta iota; cbn [fs logs];
      [|now rewrite <- ?app_assoc].
    destruct (delete _ (fs w') !! _) as [c'|]; [|reflexivity].
    cbn [fs logs]. now rewrite <- ?app_assoc.
Qed.

(** X12. For an image of positive sides, a logarithm whose ceiling is
    exact at both sides and a texture directory whose path holds no
    [.png], so that the files derived from the saved image lie beside
    it: with [pvr_converter] installed, [extract_texture] does not
    write the container itself: it leaves the packed pixels of the
    (resized) image in a [.raw] file beside the image and runs
    [pvr_converter raw pvr]. If the command fails, the failure is logged
    and nothing is cleaned up or marked: the [.raw] file and a resized
    copy stay as the command left them and no marker file is written.
    If it succeeds and its input files are still there, the [.raw] file
    is removed, the image file is removed when its path contains the
    word resized, the marker file is written, and the container is
    whatever the command left. *)
Theorem external_converter_gets_pixel_dump
    (t : texture) (img : image) (output_dir : pystr) (w : world) :
  command_exists (py "pvr_converter") = true ->
  tex_image t = Some img ->
  0 < fst (img_size img) -> 0 < snd (img_size img) ->
  log2_ceiling_exact math_log2 (fst (img_size img)) ->
  log2_ceiling_exact math_log2 (snd (img_size img)) ->
  contains (py ".png") (path_join output_dir (py "textures")) = false ->
  let name := sanitize_filename (tex_name t) in
  let run :=
    extract_texture max_size command_exists subprocess_run image_resize
      math_log2 dir_exists (inr t) output_dir in
  exists size,
    nearest_power_of_2 math_log2 max_size (img_size img) = inr size /\
    let resized := bool_decide (size <> img_size img) in
    let encoded := if resized then image_resize img size else img in
    let input := pvr_input_path output_dir name resized in
    let raw := pvr_raw_path output_dir name resized in
    let pvr := pvr_path output_dir name resized in
    let saved := <[png_path output_dir name := Png img]> (fs w) in
    let staged := if resized then <[input := Png encoded]> saved else saved in
    let ready :=
      World (<[raw := Bytes (packed_pixels encoded (fst (img_size encoded))
                               (snd (img_size encoded)))]> staged)
            (logs w ++ [(INFO, MsgExtractedTexture name)]) in
    let cmd := [py "pvr_converter"; raw; pvr] in
    fs ready !! pvr = fs w !! pvr /\
    (forall e w',
       subprocess_run cmd ready = (inl e, w') ->
       run w =
         (inr tt, World (fs w') (logs w' ++ [(ERROR, MsgFailedTexture e)]))) /\
    (forall w',
       subprocess_run cmd ready = (inr tt, w') ->
       is_Some (fs w' !! raw) -> is_Some (fs w' !! input) ->
       outcome run w = inr tt /\
       logs (exec run w) =
         logs w' ++ [(INFO, MsgVqPlaceholder (png_path output_dir name))] /\
       fs (exec run w) !! raw = None /\
       fs (exec run w) !! pvr = fs w' !! pvr /\
       fs (exec run w) !! input =
         (if contains (py "resized") input then None else fs w' !! input) /\
       is_Some (fs (exec run w) !! vq_info_path output_dir name)).
Proof.
  intros Htool Himg Hw Hh Hew Heh Hdir name run.
  pose proof (nearest_power_of_2_value math_log2 max_size
                (fst (img_size img)) (snd (img_size img)) Hw Hh Hew Heh)
    as Hsize.
  rewrite <- surjective_pairing in Hsize.
  set (size := (Z.min (2 ^ Z.log2_up (fst (img_size img))) max_size,
                Z.min (2 ^ Z.log2_up (snd (img_size img))) max_size)) in *.
  exists size. split; [exact Hsize|].
  intros resized encoded input raw pvr saved staged ready cmd.
  pose proof (extract_texture_with_tool t img size output_dir w Htool Himg
                Hsize
                (fun _ => resized_copy_creatable dir_exists output_dir
                            (tex_name t) Hdir)
                (raw_dump_creatable output_dir (tex_name t) _ Hdir)) as Hrun.
  cbv zeta in Hrun.
  fold name resized encoded input raw pvr saved staged ready cmd run in Hrun.
  assert (Hri : raw <> input) by apply raw_input_paths_differ.
  assert (Hrp : raw <> pvr).
  { apply (paths_differ_by_last _ _ 119%N 114%N); [| |discriminate].
    - apply (suffix_last (py ".raw")); [|reflexivity].
      apply str_replace_png_suffix, pvr_input_path_png.
    - apply (suffix_last (py ".pvr")); [apply pvr_path_pvr | reflexivity]. }
  assert (Hpi : pvr <> input) by apply pvr_input_paths_differ.
  assert (Hpv : pvr <> vq_info_path output_dir name)
    by apply pvr_info_paths_differ.
  assert (Hiv : input <> vq_info_path output_dir name)
    by apply png_info_paths_differ.
  assert (Hrv : raw <> vq_info_path output_dir name).
  { apply (paths_differ_by_last _ _ 119%N 111%N); [| |discriminate].
    - apply (suffix_last (py ".raw")); [|reflexivity].
      apply str_replace_png_suffix, pvr_input_path_png.
    - apply (suffix_last (py ".info")); [|reflexivity].
      unfold vq_info_path. now eexists. }
  split; [|split].
  - subst ready. cbn [fs].
    rewrite lookup_insert_ne by exact Hrp.
    subst staged saved. destruct resized.
    + rewrite lookup_insert_ne by (apply not_eq_sym, Hpi).
      apply lookup_insert_ne, png_pvr_paths_differ.
    + apply lookup_insert_ne, png_pvr_paths_differ.
  - intros e w' Hfail. now rewrite Hrun, Hfail.
  - intros w' Hok [craw Hraw] [cin Hin].
    unfold outcome, exec. rewrite Hrun, Hok, Hraw. cbv zeta.
    rewrite (lookup_delete_ne (fs w') raw input) by exact Hri.
    rewrite Hin.
    destruct (contains (py "resized") input); cbn [fst snd fs logs].
    + repeat split.
      * rewrite lookup_insert_ne by (apply not_eq_sym, Hrv).
        rewrite lookup_delete_ne by (apply not_eq_sym, Hri).
        apply lookup_delete_eq.
      * rewrite lookup_insert_ne by (apply not_eq_sym, Hpv).
        rewrite lookup_delete_ne by (apply not_eq_sym, Hpi).
        now rewrite lookup_delete_ne by exact Hrp.
      * rewrite lookup_insert_ne by (apply not_eq_sym, Hiv).
        apply lookup_delete_eq.
      * rewrite lookup_insert_eq. eauto.
    + repeat split.
      * rewrite lookup_insert_ne by (apply not_eq_sym, Hrv).
        apply lookup_delete_eq.
      * rewrite lookup_insert_ne by (apply not_eq_sym, Hpv).
        now rewrite lookup_delete_ne by exact Hrp.
      * rewrite lookup_insert_ne by (apply not_eq_sym, Hiv).
        rewrite lookup_delete_ne by exact Hri. exact Hin.
      * rewrite lookup_insert_eq. eauto.
Qed.

End TextureTool.

Lemma external_converter_gets_pixel_dump_witness :
  extract_texture 512 only_pvr_converter failing_tool crop_resize
    tabulated_log2 no_other_directory (inr orange_texture) (py "out")
    empty_world =
  (inr tt,
   World (<[pvr_raw_path (py "out")
              (sanitize_filename (tex_name orange_texture)) true :=
              Bytes (packed_pixels (crop_resize orange_image (4, 2)) 4 2)]>
            (<[pvr_input_path (py "out")
                 (sanitize_filename (tex_name orange_texture)) true :=
                 Png (crop_resize orange_image (4, 2))]>
               (<[png_path (py "out")
                    (sanitize_filename (tex_name orange_texture)) :=
                    Png orange_image]> ∅)))
         [(INFO, MsgExtractedTexture
                   (sanitize_filename (tex_name orange_texture)));
          (ERROR, MsgFailedTexture CalledProcessError)]).
Proof.
  destruct (external_converter_gets_pixel_dump 512 only_pvr_converter
              failing_tool crop_resize tabulated_log2 no_other_directory
              orange_texture orange_image (py "out") empty_world eq_refl
              eq_refl)
    as (size & Hsize & _ & Hfail & _);
    [cbn; lia | cbn; lia | reflexivity | reflexivity | reflexivity |].
  injection Hsize as <-.
  exact (Hfail CalledProcessError _ eq_refl).
Defined.

(** ** Running the extraction again *)

Lemma same_compressed_audio_refl m : same_compressed_audio m m.
Proof. now intros path _. Qed.

Lemma same_compressed_audio_trans m1 m2 m3 :
  same_compressed_audio m1 m2 -> same_compressed_audio m2 m3 ->
  same_compressed_audio m1 m3.
Proof.
  intros H12 H23 path Hp. now rewrite (H12 path Hp), (H23 path Hp).
Qed.

Lemma apply_ops_keeps_compressed_audio ops m :
  Forall (fun op => last (op_path op) <> Some adx_last) ops ->
  same_compressed_audio m (apply_ops ops m).
Proof.
  intros Hops. revert m. unfold apply_ops.
  induction Hops as [|op ops Hop _ IH]; intros m;
    [apply same_compressed_audio_refl|].
  cbn [fold_left].
  apply (same_compressed_audio_trans _ (apply_op m op)); [|apply IH].
  intros path Hp.
  assert (Hne : op_path op <> path)
    by (intros Heq; apply Hop; now rewrite Heq).
  destruct op as [p c|p]; cbn [apply_op op_path] in *.
  - now rewrite lookup_insert_ne.
  - now rewrite lookup_delete_ne.
Qed.

Lemma overwrites_id (step : world -> world) :
  (forall w, fs (step w) = fs w) -> overwrites step.
Proof.
  intros Hstep w. exists []. split; [constructor|].
  intros w' _. apply Hstep.
Qed.

Lemma overwrites_compose (f g : world -> world) :
  overwrites f -> overwrites g -> overwrites (fun w => g (f w)).
Proof.
  intros Hf Hg w.
  destruct (Hf w) as (ops1 & Havoid1 & Hrun1).
  destruct (Hg (f w)) as (ops2 & Havoid2 & Hrun2).
  exists (ops1 ++ ops2). split; [now apply Forall_app|].
  intros w' Hsame.
  assert (Hmid : same_compressed_audio (fs (f w)) (fs (f w'))).
  { rewrite (Hrun1 w (same_compressed_audio_refl _)), (Hrun1 w' Hsame).
    apply (same_compressed_audio_trans _ (fs w)).
    - intros path Hp. symmetry.
      now apply (apply_ops_keeps_compressed_audio ops1 (fs w) Havoid1).
    - apply (same_compressed_audio_trans _ (fs w')); [exact Hsame|].
      now apply apply_ops_keeps_compressed_audio. }
  rewrite (Hrun2 (f w') Hmid), (Hrun1 w' Hsame).
  unfold apply_ops. now rewrite fold_left_app.
Qed.

Lemma overwrites_run_each {A} (body : A -> M unit) (xs : list A) :
  (forall x, overwrites (exec (body x))) -> overwrites (run_each body xs).
Proof.
  intros Hbody. induction xs as [|x xs IH].
  - now apply overwrites_id.
  - apply (overwrites_compose (exec (body x)) (run_each body xs));
      [apply Hbody | exact IH].
Qed.

Lemma overwrites_idempotent (step : world -> world) (w : world) :
  overwrites step -> fs (step (step w)) = fs (step w).
Proof.
  intros Hstep. destruct (Hstep w) as (ops & Havoid & Hrun).
  pose proof (Hrun w (same_compressed_audio_refl _)) as Hfirst.
  rewrite (Hrun (step w)).
  - rewrite Hfirst. apply apply_ops_idempotent.
  - rewrite Hfirst. now apply apply_ops_keeps_compressed_audio.
Qed.

Lemma last_not_adx (p ext : pystr) (c : N) :
  ext `suffix_of` p -> last ext = Some c -> c <> adx_last ->
  last p <> Some adx_last.
Proof.
  intros Hsuf Hlast Hc Hp. rewrite (suffix_last ext p c Hsuf Hlast) in Hp.
  congruence.
Qed.

Lemma vq_info_path_info out name : py ".info" `suffix_of` vq_info_path out name.
Proof. unfold vq_info_path. now eexists. Qed.

Section Rerun.

Variable max_size : Z.
Variable command_exists : pystr -> bool.
Variable subprocess_run : list pystr -> M unit.
Variable image_resize : image -> Z * Z -> image.
Variable unitypack_load : pystr -> exn + bundle.
Variable math_log2 : Z -> pyfloat.
Variable dir_exists : pystr -> bool.

Hypothesis no_pvr_converter : command_exists (py "pvr_converter") = false.
Hypothesis no_adxtool : command_exists (py "adxtool") = false.
Hypothesis no_sox : command_exists (py "sox") = false.

#[local] Abbreviation dispatch'' :=
  (dispatch max_size command_exists subprocess_run image_resize math_log2
     dir_exists).
#[local] Abbreviation extract_assets'' :=
  (extract_assets max_size command_exists subprocess_run image_resize
     unitypack_load math_log2 dir_exists).

Lemma extract_mesh_overwrites (r : exn + mesh) (out : pystr) :
  overwrites (exec (extract_mesh r out)).
Proof.
  destruct r as [e|m]; [now apply overwrites_id|].
  intros w. set (name := sanitize_filename (mesh_name m)).
  assert (Hdcm : last (dcm_path out name) <> Some adx_last).
  { apply (last_not_adx _ (py ".dcm") 109%N);
      [apply path_join_ext | reflexivity | discriminate]. }
  assert (Hobj : last (obj_path out name) <> Some adx_last).
  { apply (last_not_adx _ (py ".obj") 106%N);
      [apply path_join_ext | reflexivity | discriminate]. }
  exists (Put (dcm_path out name) (Bytes (fst (dcm_body m))) ::
          match snd (dcm_body m) with
          | inl _ => []
          | inr _ => [Put (obj_path out name) (ObjText (fst (obj_body m)))]
          end).
  split.
  - apply List.Forall_cons; [exact Hdcm|].
    destruct (snd (dcm_body m)); repeat constructor. exact Hobj.
  - intros w' _. unfold exec. rewrite extract_mesh_run. cbv zeta.
    fold name. destruct (snd (dcm_body m)) as [e|[]]; [reflexivity|].
    now destruct (snd (obj_body m)).
Qed.

Lemma extract_material_overwrites (r : exn + material) (out : pystr) :
  overwrites (exec (extract_material r out)).
Proof.
  destruct r as [e|d]; [now apply overwrites_id|].
  intros w.
  exists [Put (mat_path out (sanitize_filename (mat_name d)))
            (Json (json_encodable (md_shader (material_record d)))
               (material_record d))].
  split.
  - repeat constructor.
    apply (last_not_adx _ (py ".json") 110%N);
      [apply path_join_ext | reflexivity | discriminate].
  - intros w' _. unfold exec. now rewrite extract_material_run.
Qed.

Lemma extract_audio_overwrites (r : exn + audio) (out : pystr) :
  overwrites (exec (extract_audio command_exists subprocess_run r out)).
Proof.
  destruct r as [e|a]; [now apply overwrites_id|].
  intros w. set (name := sanitize_filename (audio_name a)).
  set (written := wave_write (channels a) (frequency a) (samples a)).
  assert (Hraw : last (raw_path out name) <> Some adx_last).
  { apply (last_not_adx _ (py ".raw") 119%N);
      [apply path_join_ext | reflexivity | discriminate]. }
  assert (Hwav : last (wav_path out name) <> Some adx_last).
  { apply (last_not_adx _ (py ".wav") 118%N);
      [apply path_join_ext | reflexivity | discriminate]. }
  assert (Hadx : last (adx_path out name) = Some adx_last).
  { apply (suffix_last (py ".adx")); [apply path_join_ext | reflexivity]. }
  exists ([Put (raw_path out name) (Bytes (samples a));
           Put (wav_path out name) (Bytes (fst written))] ++
          match snd written with
          | inl _ => []
          | inr _ =>
              Remove (raw_path out name) ::
              match fs w !! adx_path out name with
              | Some _ => [Remove (wav_path out name)]
              | None => []
              end
          end).
  split.
  - apply Forall_app. split; [now repeat constructor|].
    destruct (snd written); [constructor|].
    apply List.Forall_cons; [exact Hraw|].
    destruct (fs w !! _); repeat constructor. exact Hwav.
  - intros w' Hsame. unfold exec.
    rewrite (extract_audio_run command_exists subprocess_run a out w'
               no_adxtool no_sox).
    cbv zeta. fold name written.
    destruct (snd written) as [e|[]]; [reflexivity|].
    specialize (Hsame (adx_path out name) Hadx).
    destruct (fs w !! adx_path out name) as [c|] eqn:Hw;
      destruct (fs w' !! adx_path out name) as [c'|] eqn:Hw';
      try reflexivity.
    + destruct (proj1 Hsame (mk_is_Some _ _ eq_refl)) as [? [=]].
    + destruct (proj2 Hsame (mk_is_Some _ _ eq_refl)) as [? [=]].
Qed.

Lemma extract_texture_overwrites (r : exn + texture) (out : pystr) :
  overwrites (exec (extract_texture max_size command_exists subprocess_run
                      image_resize math_log2 dir_exists r out)).
Proof.
  destruct r as [e|t]; [now apply overwrites_id|].
  destruct (tex_image t) as [img|] eqn:Himg;
    [|apply overwrites_id; intros w; unfold exec;
      now rewrite (extract_texture_skipped max_size command_exists
                     subprocess_run image_resize math_log2 dir_exists t out w
                     Himg)].
  intros w. set (name := sanitize_filename (tex_name t)).
  assert (Hpng : forall resized,
            last (pvr_input_path out name resized) <> Some adx_last).
  { intros resized. apply (last_not_adx _ (py ".png") 103%N);
      [apply pvr_input_path_png | reflexivity | discriminate]. }
  assert (Hpvr : forall resized,
            last (pvr_path out name resized) <> Some adx_last).
  { intros resized. apply (last_not_adx _ (py ".pvr") 114%N);
      [apply pvr_path_pvr | reflexivity | discriminate]. }
  assert (Hinfo : last (vq_info_path out name) <> Some adx_last).
  { apply (last_not_adx _ (py ".info") 111%N);
      [apply vq_info_path_info | reflexivity | discriminate]. }
  destruct (nearest_power_of_2 math_log2 max_size (img_size img))
    as [e|size] eqn:Hsize.
  { exists [Put (png_path out name) (Png img)]. split.
    - repeat constructor. apply (Hpng false).
    - intros w' _. unfold exec.
      rewrite (extract_texture_run max_size command_exists subprocess_run
                 image_resize math_log2 dir_exists t img out w'
                 no_pvr_converter Himg).
      cbv zeta. now rewrite Hsize. }
  set (resized := bool_decide (size <> img_size img)).
  set (encoded := if resized then image_resize img size else img).
  set (input := pvr_input_path out name resized).
  destruct (resized &&
            negb (can_create dir_exists (png_path out name) input))
    eqn:Hcut.
  { exists [Put (png_path out name) (Png img)]. split.
    - repeat constructor. apply (Hpng false).
    - intros w' _. unfold exec.
      rewrite (extract_texture_run max_size command_exists subprocess_run
                 image_resize math_log2 dir_exists t img out w'
                 no_pvr_converter Himg).
      cbv zeta. rewrite Hsize. fold name resized input.
      now rewrite Hcut. }
  set (stage := if resized then [Put input (Png encoded)] else []).
  set (pack := [Put (pvr_path out name resized)
                    (Bytes (fst (pvr_body encoded)))]).
  assert (Hstage : forall files,
            (if resized then <[input := Png encoded]> files else files) =
            apply_ops stage files)
    by (intros files; subst stage; now destruct resized).
  assert (Hstage_avoid :
            Forall (fun op => last (op_path op) <> Some adx_last) stage).
  { subst stage. destruct resized; repeat constructor. apply Hpng. }
  exists ([Put (png_path out name) (Png img)] ++ stage ++ pack ++
          match snd (pvr_body encoded) with
          | inl _ => []
          | inr _ =>
              (if contains (py "resized") input then [Remove input] else []) ++
              [Put (vq_info_path out name)
                   (Text (py "VQ compressed version of " ++
                          basename (png_path out name) ++ [10%N]))]
          end).
  split.
  - apply Forall_app. split; [repeat constructor; apply (Hpng false)|].
    apply Forall_app. split; [exact Hstage_avoid|].
    apply Forall_app. split; [repeat constructor; apply Hpvr|].
    destruct (snd (pvr_body encoded)); [constructor|].
    apply Forall_app. split; [|repeat constructor; exact Hinfo].
    destruct (contains _ _); repeat constructor. apply Hpng.
  - intros w' _. unfold exec.
    rewrite (extract_texture_run max_size command_exists subprocess_run
               image_resize math_log2 dir_exists t img out w'
               no_pvr_converter Himg).
    cbv zeta. rewrite Hsize. fold name resized encoded input.
    rewrite Hcut.
    destruct (snd (pvr_body encoded)) as [e|[]] eqn:Hbody;
      cbn [snd fs]; rewrite Hstage; unfold apply_ops;
      rewrite !fold_left_app; [reflexivity|].
    now destruct (contains (py "resized") input).
Qed.

Lemma dispatch_overwrites (out : pystr) (obj : object) :
  overwrites (exec (dispatch'' out obj)).
Proof.
  destruct obj; cbn [dispatch].
  - apply extract_texture_overwrites.
  - apply extract_audio_overwrites.
  - apply extract_mesh_overwrites.
  - apply extract_material_overwrites.
  - now apply overwrites_id.
Qed.

Lemma extract_assets_overwrites (unity_file out : pystr) :
  overwrites (exec (extract_assets'' unity_file out)).
Proof.
  destruct (unitypack_load unity_file) as [e|b] eqn:Hload.
  - apply overwrites_id. intros w. unfold exec.
    now rewrite (extract_assets_fatal max_size command_exists subprocess_run
                   image_resize unitypack_load math_log2 dir_exists
                   unity_file out w e Hload).
  - intros w.
    destruct (overwrites_compose (opened unity_file)
                (run_each (dispatch'' out) (concat b))
                (overwrites_id _ (fun w0 => eq_refl))
                (overwrites_run_each _ _ (dispatch_overwrites out)) w)
      as (ops & Havoid & Hrun).
    exists ops. split; [exact Havoid|]. intros w' Hsame. unfold exec.
    rewrite (extract_assets_loaded max_size command_exists subprocess_run
               image_resize unitypack_load math_log2 dir_exists unity_file
               out w' b Hload).
    now apply Hrun.
Qed.

(** X13. When none of the external tools is installed, running the
    extraction of a bundle a second time into the same directory leaves
    every file exactly as the first run left it, whatever the bundle
    holds and whatever was in the directory before. The same holds for
    the handling of a single object. *)
Theorem rerun_without_tools_changes_no_file
    (unity_file output_dir : pystr) (w : world) :
  let run := exec (extract_assets'' unity_file output_dir) in
  fs (run (run w)) = fs (run w) /\
  (forall obj,
     let step := exec (dispatch'' output_dir obj) in
     fs (step (step w)) = fs (step w)).
Proof.
  intros run. split.
  - apply overwrites_idempotent, extract_assets_overwrites.
  - intros obj step. apply overwrites_idempotent, dispatch_overwrites.
Qed.

End Rerun.

Lemma rerun_without_tools_changes_no_file_witness :
  no_command (py "pvr_converter") = false /\
  no_command (py "adxtool") = false /\
  no_command (py "sox") = false /\
  let run :=
    exec (extract_assets 512 no_command no_subprocess crop_resize sample_load
            tabulated_log2 no_other_directory (py "bundle.unity3d")
            (py "out")) in
  fs (run (run empty_world)) = fs (run empty_world).
Proof.
  split; [reflexivity|]. split; [reflexivity|]. split; [reflexivity|].
  exact (proj1 (rerun_without_tools_changes_no_file 512 no_command
                  no_subprocess crop_resize sample_load tabulated_log2
                  no_other_directory eq_refl eq_refl eq_refl
                  (py "bundle.unity3d") (py "out") empty_world)).
Defined.
